(** * The MessagePack wire codec and the execution client of inv_trader

    A shallow embedding of [inv_trader/serialization.pyx] (the four
    MessagePack serializers) and of the order registries declared by
    [execution.pxd], with the properties of the design document stated
    and settled against them.

    Layout of the development:
    - Python values, exceptions and dictionaries;
    - the MessagePack wire format as [msgpack.packb] / [msgpack.unpackb]
      produce and read it with the defaults the source relies on
      ([use_bin_type=False] when packing, [raw=True] when unpacking
      unless [raw=False] is passed);
    - the value objects, enumerations, commands and events the
      serializers handle (their classes are imported by the source, not
      defined in it);
    - the serializers themselves, one module per class of the source;
    - the execution client's registries;
    - the theorems.                                                     *)

From Stdlib Require Import ZArith NArith List String Ascii Strings.Byte Lia Bool.
From stdpp Require Import base strings list gmap.
Import ListNotations.

Set Warnings "-register-all".

Local Open Scope N_scope.
Local Open Scope list_scope.

(* ================================================================== *)
(** ** Exceptions and results                                           *)
(* ================================================================== *)

(** The exceptions the modelled code can raise.  [PreconditionError] is
    the [ValueError] raised by [Precondition.not_empty]; [ValueError msg]
    is a [raise ValueError(msg)] of the source (or of [uuid.UUID]);
    [UnpackError] and [PackError] are the failures of [msgpack.unpackb]
    and [msgpack.packb]. *)
Inductive exn : Type :=
| PreconditionError (param : string)
| ValueError (msg : string)
| UnpackError
| PackError
| UnicodeDecodeError
| KeyError (key : string)
| TypeError
| AttributeError
| ParseError
| InvalidOperation.

Inductive result (A : Type) : Type :=
| Ok (a : A)
| Raise (e : exn).
Arguments Ok {A} a.
Arguments Raise {A} e.

Definition bind {A B : Type} (m : result A) (k : A -> result B) : result B :=
  match m with
  | Ok a => k a
  | Raise e => Raise e
  end.

Notation "x <- m ;; k" := (bind m (fun x => k))
  (at level 100, m at next level, right associativity).

Definition returns {A : Type} (m : result A) : bool :=
  match m with Ok _ => true | Raise _ => false end.

(** Python's exception hierarchy, as far as [ValueError] goes:
    [UnicodeDecodeError] and msgpack's unpack errors derive from it. *)
Definition is_ValueError (e : exn) : bool :=
  match e with
  | PreconditionError _ | ValueError _ | UnpackError | UnicodeDecodeError => true
  | _ => false
  end.

Definition is_precondition_violation {A : Type} (m : result A) : bool :=
  match m with Raise (PreconditionError _) => true | _ => false end.

(* ================================================================== *)
(** ** Bytes, big-endian numbers, UTF-8                                 *)
(* ================================================================== *)

Definition byte_of_N (n : N) : byte :=
  match Byte.of_N (n mod 256) with
  | Some b => b
  | None => x00
  end.

(** [be_bytes w n]: the [w] low-order bytes of [n], most significant first. *)
Fixpoint be_bytes (w : nat) (n : N) : list byte :=
  match w with
  | O => []
  | S w' => be_bytes w' (n / 256) ++ [byte_of_N n]
  end.

Fixpoint be_value_from (acc : N) (bs : list byte) : N :=
  match bs with
  | [] => acc
  | b :: t => be_value_from (acc * 256 + Byte.to_N b) t
  end.

Definition be_value (bs : list byte) : N := be_value_from 0 bs.

(** [take_bytes n bs]: the first [n] bytes of [bs] and what follows them,
    when [bs] is long enough.  The length is compared as a number, so a
    declared length of 2^32 - 1 costs nothing to reject. *)
Definition take_bytes (n : N) (bs : list byte) : option (list byte * list byte) :=
  if n <=? N.of_nat (length bs)
  then Some (firstn (N.to_nat n) bs, skipn (N.to_nat n) bs)
  else None.

Definition continuation (b : byte) : bool :=
  let n := Byte.to_N b in (0x80 <=? n) && (n <=? 0xBF).

Definition in_range (lo hi : N) (b : byte) : bool :=
  let n := Byte.to_N b in (lo <=? n) && (n <=? hi).

(** Well-formed UTF-8, as Python's strict decoder accepts it: shortest
    forms only, no surrogates, nothing above U+10FFFF. *)
Fixpoint utf8_valid (bs : list byte) : bool :=
  match bs with
  | [] => true
  | b0 :: t0 =>
    if Byte.to_N b0 <? 0x80 then utf8_valid t0
    else
      match t0 with
      | [] => false
      | b1 :: t1 =>
        if in_range 0xC2 0xDF b0 then continuation b1 && utf8_valid t1
        else
          match t1 with
          | [] => false
          | b2 :: t2 =>
            if in_range 0xE0 0xE0 b0 then in_range 0xA0 0xBF b1 && continuation b2 && utf8_valid t2
            else if in_range 0xE1 0xEC b0 then continuation b1 && continuation b2 && utf8_valid t2
            else if in_range 0xED 0xED b0 then in_range 0x80 0x9F b1 && continuation b2 && utf8_valid t2
            else if in_range 0xEE 0xEF b0 then continuation b1 && continuation b2 && utf8_valid t2
            else
              match t2 with
              | [] => false
              | b3 :: t3 =>
                if in_range 0xF0 0xF0 b0
                then in_range 0x90 0xBF b1 && continuation b2 && continuation b3 && utf8_valid t3
                else if in_range 0xF1 0xF3 b0
                then continuation b1 && continuation b2 && continuation b3 && utf8_valid t3
                else if in_range 0xF4 0xF4 b0
                then in_range 0x80 0x8F b1 && continuation b2 && continuation b3 && utf8_valid t3
                else false
              end
          end
      end
  end.

(** A Python [str] is represented by a [string] holding its UTF-8
    encoding: [s.encode('utf-8')] is then the identity on the bytes and
    [b.decode('utf-8')] checks well-formedness. *)
Definition utf8_encode (s : string) : list byte := list_byte_of_string s.

Definition utf8_decode (bs : list byte) : result string :=
  if utf8_valid bs then Ok (string_of_list_byte bs) else Raise UnicodeDecodeError.

(** A [string] that stands for a Python [str]. *)
Definition is_text (s : string) : bool := utf8_valid (utf8_encode s).

(* ================================================================== *)
(** ** Python values and dictionaries                                   *)
(* ================================================================== *)

(** The hashable values [msgpack.unpackb] can produce (the possible
    dictionary keys).  A float is kept as the bytes of its IEEE
    encoding: the serializers never compute with one. *)
Inductive atom : Type :=
| ANone
| ABool (b : bool)
| AInt (z : Z)
| AFloat (bits : list byte)
| ABytes (b : list byte)
| AStr (s : string)
| AExt (code : byte) (data : list byte).

Inductive pyval : Type :=
| PyAtom (a : atom)
| PyList (items : list pyval)
| PyDict (items : list (atom * pyval)).

Abbreviation PyNone := (PyAtom ANone).
Abbreviation PyInt z := (PyAtom (AInt z)).
Abbreviation PyBytes b := (PyAtom (ABytes b)).
Abbreviation PyStr s := (PyAtom (AStr s)).

Fixpoint bytes_eqb (x y : list byte) : bool :=
  match x, y with
  | [], [] => true
  | a :: x', c :: y' => Byte.eqb a c && bytes_eqb x' y'
  | _, _ => false
  end.

(** Equality of keys.  Keys of different types are different keys (the
    keys the serializers write and look up are texts, or [bytes] under
    [raw=True]). *)
Definition atom_eqb (x y : atom) : bool :=
  match x, y with
  | ANone, ANone => true
  | ABool a, ABool c => Bool.eqb a c
  | AInt a, AInt c => Z.eqb a c
  | AFloat a, AFloat c => bytes_eqb a c
  | ABytes a, ABytes c => bytes_eqb a c
  | AStr a, AStr c => String.eqb a c
  | AExt a d, AExt c e => Byte.eqb a c && bytes_eqb d e
  | _, _ => false
  end.

(** A dictionary keeps its entries in insertion order.  [d[k] = v]
    replaces the value of a key that is present and appends otherwise. *)
Definition pydict : Type := list (atom * pyval).

Fixpoint dict_get (d : pydict) (k : atom) : option pyval :=
  match d with
  | [] => None
  | (k', v) :: t => if atom_eqb k' k then Some v else dict_get t k
  end.

Fixpoint setitem (d : pydict) (k : atom) (v : pyval) : pydict :=
  match d with
  | [] => [(k, v)]
  | (k', v') :: t => if atom_eqb k' k then (k', v) :: t else (k', v') :: setitem t k v
  end.

Definition key_text (k : atom) : string :=
  match k with
  | AStr s => s
  | ABytes b => string_of_list_byte b
  | _ => ""
  end.

(** [d[k]], raising [KeyError] when [k] is absent. *)
Definition getitem (d : pydict) (k : atom) : result pyval :=
  match dict_get d k with
  | Some v => Ok v
  | None => Raise (KeyError (key_text k))
  end.

(* ================================================================== *)
(** ** The MessagePack wire format                                      *)
(* ================================================================== *)

(** *** Packing ([msgpack.packb], [use_bin_type=False]) *)

(** Header of a raw (text or bytes) item of [l] bytes.  Without
    [use_bin_type] there is one raw family for both, and no 8-bit
    length form. *)
Definition pack_raw_header (l : N) : result (list byte) :=
  if l <? 32 then Ok [byte_of_N (0xa0 + l)]
  else if l <? 65536 then Ok (xda :: be_bytes 2 l)
  else if l <? 4294967296 then Ok (xdb :: be_bytes 4 l)
  else Raise PackError.

Definition pack_raw (payload : list byte) : result (list byte) :=
  hdr <- pack_raw_header (N.of_nat (length payload)) ;;
  Ok (hdr ++ payload).

Definition pack_map_header (n : N) : result (list byte) :=
  if n <? 16 then Ok [byte_of_N (0x80 + n)]
  else if n <? 65536 then Ok (xde :: be_bytes 2 n)
  else if n <? 4294967296 then Ok (xdf :: be_bytes 4 n)
  else Raise PackError.

Definition pack_array_header (n : N) : result (list byte) :=
  if n <? 16 then Ok [byte_of_N (0x90 + n)]
  else if n <? 65536 then Ok (xdc :: be_bytes 2 n)
  else if n <? 4294967296 then Ok (xdd :: be_bytes 4 n)
  else Raise PackError.

Definition pack_ext_header (l : N) : result (list byte) :=
  if l =? 1 then Ok [xd4]
  else if l =? 2 then Ok [xd5]
  else if l =? 4 then Ok [xd6]
  else if l =? 8 then Ok [xd7]
  else if l =? 16 then Ok [xd8]
  else if l <? 256 then Ok (xc7 :: be_bytes 1 l)
  else if l <? 65536 then Ok (xc8 :: be_bytes 2 l)
  else if l <? 4294967296 then Ok (xc9 :: be_bytes 4 l)
  else Raise PackError.

(** The [w]-byte two's complement of [z], most significant byte first. *)
Definition twos (w : nat) (z : Z) : list byte :=
  be_bytes w (Z.to_N (z mod 2 ^ (8 * Z.of_nat w))).

(** An integer takes the shortest form that holds it; outside
    [-2^63, 2^64) packing raises [OverflowError]. *)
Definition pack_int (z : Z) : result (list byte) :=
  if ((z <? -9223372036854775808) || (18446744073709551616 <=? z))%Z then Raise PackError
  else if (z <? -32)%Z then
    if (z <? -32768)%Z then
      if (z <? -2147483648)%Z then Ok (xd3 :: twos 8 z) else Ok (xd2 :: twos 4 z)
    else if (z <? -128)%Z then Ok (xd1 :: twos 2 z) else Ok (xd0 :: twos 1 z)
  else if (z <? 128)%Z then Ok (twos 1 z)
  else if (z <? 65536)%Z then
    if (z <? 256)%Z then Ok (xcc :: twos 1 z) else Ok (xcd :: twos 2 z)
  else if (z <? 4294967296)%Z then Ok (xce :: twos 4 z) else Ok (xcf :: twos 8 z).

Definition pack_atom (a : atom) : result (list byte) :=
  match a with
  | ANone => Ok [xc0]
  | ABool false => Ok [xc2]
  | ABool true => Ok [xc3]
  | AInt z => pack_int z
  | AFloat bits => if (length bits =? 8)%nat then Ok (xcb :: bits) else Raise PackError
  | ABytes b => pack_raw b
  | AStr s => pack_raw (utf8_encode s)
  | AExt code data =>
    hdr <- pack_ext_header (N.of_nat (length data)) ;;
    Ok (hdr ++ code :: data)
  end.

Fixpoint pack (v : pyval) : result (list byte) :=
  match v with
  | PyAtom a => pack_atom a
  | PyList items =>
    hdr <- pack_array_header (N.of_nat (length items)) ;;
    body <- (fix pack_items (l : list pyval) : result (list byte) :=
               match l with
               | [] => Ok []
               | x :: t => bx <- pack x ;; bt <- pack_items t ;; Ok (bx ++ bt)
               end) items ;;
    Ok (hdr ++ body)
  | PyDict items =>
    hdr <- pack_map_header (N.of_nat (length items)) ;;
    body <- (fix pack_entries (l : list (atom * pyval)) : result (list byte) :=
               match l with
               | [] => Ok []
               | (k, x) :: t =>
                 bk <- pack_atom k ;; bx <- pack x ;; bt <- pack_entries t ;;
                 Ok (bk ++ bx ++ bt)
               end) items ;;
    Ok (hdr ++ body)
  end.

Definition packb (v : pyval) : result (list byte) := pack v.

(** *** Unpacking ([msgpack.unpackb]) *)

(** What the first byte of an item (and the length that follows it)
    announces. *)
Inductive head : Type :=
| HVal (a : atom)
| HRaw (n : N)
| HBin (n : N)
| HExt (n : N)
| HFloat (w : N)
| HArray (n : N)
| HMap (n : N).

Definition read_uint (w : N) (bs : list byte) : result (N * list byte) :=
  match take_bytes w bs with
  | Some (p, rest) => Ok (be_value p, rest)
  | None => Raise UnpackError
  end.

Definition read_sint (w : N) (bs : list byte) : result (Z * list byte) :=
  match take_bytes w bs with
  | Some (p, rest) =>
    let v := Z.of_N (be_value p) in
    let half := (2 ^ (8 * Z.of_N w - 1))%Z in
    Ok (if (v <? half)%Z then v else (v - 2 * half)%Z, rest)
  | None => Raise UnpackError
  end.

Definition with_length (mk : N -> head) (w : N) (bs : list byte) : result (head * list byte) :=
  r <- read_uint w bs ;; Ok (mk (fst r), snd r).

Definition read_head (bs : list byte) : result (head * list byte) :=
  match bs with
  | [] => Raise UnpackError
  | b :: rest =>
    let t := Byte.to_N b in
    if t <? 0x80 then Ok (HVal (AInt (Z.of_N t)), rest)
    else if t <? 0x90 then Ok (HMap (t - 0x80), rest)
    else if t <? 0xa0 then Ok (HArray (t - 0x90), rest)
    else if t <? 0xc0 then Ok (HRaw (t - 0xa0), rest)
    else if 0xe0 <=? t then Ok (HVal (AInt (Z.of_N t - 256)), rest)
    else
      match t with
      | 0xc0 => Ok (HVal ANone, rest)
      | 0xc2 => Ok (HVal (ABool false), rest)
      | 0xc3 => Ok (HVal (ABool true), rest)
      | 0xc4 => with_length HBin 1 rest
      | 0xc5 => with_length HBin 2 rest
      | 0xc6 => with_length HBin 4 rest
      | 0xc7 => with_length HExt 1 rest
      | 0xc8 => with_length HExt 2 rest
      | 0xc9 => with_length HExt 4 rest
      | 0xca => Ok (HFloat 4, rest)
      | 0xcb => Ok (HFloat 8, rest)
      | 0xcc => r <- read_uint 1 rest ;; Ok (HVal (AInt (Z.of_N (fst r))), snd r)
      | 0xcd => r <- read_uint 2 rest ;; Ok (HVal (AInt (Z.of_N (fst r))), snd r)
      | 0xce => r <- read_uint 4 rest ;; Ok (HVal (AInt (Z.of_N (fst r))), snd r)
      | 0xcf => r <- read_uint 8 rest ;; Ok (HVal (AInt (Z.of_N (fst r))), snd r)
      | 0xd0 => r <- read_sint 1 rest ;; Ok (HVal (AInt (fst r)), snd r)
      | 0xd1 => r <- read_sint 2 rest ;; Ok (HVal (AInt (fst r)), snd r)
      | 0xd2 => r <- read_sint 4 rest ;; Ok (HVal (AInt (fst r)), snd r)
      | 0xd3 => r <- read_sint 8 rest ;; Ok (HVal (AInt (fst r)), snd r)
      | 0xd4 => Ok (HExt 1, rest)
      | 0xd5 => Ok (HExt 2, rest)
      | 0xd6 => Ok (HExt 4, rest)
      | 0xd7 => Ok (HExt 8, rest)
      | 0xd8 => Ok (HExt 16, rest)
      | 0xd9 => with_length HRaw 1 rest
      | 0xda => with_length HRaw 2 rest
      | 0xdb => with_length HRaw 4 rest
      | 0xdc => with_length HArray 2 rest
      | 0xdd => with_length HArray 4 rest
      | 0xde => with_length HMap 2 rest
      | 0xdf => with_length HMap 4 rest
      | _ => Raise UnpackError
      end
  end.

(** A raw item becomes [bytes] under [raw=True] and is UTF-8 decoded to
    [str] under [raw=False]. *)
Definition raw_value (raw : bool) (payload : list byte) : result pyval :=
  if raw then Ok (PyBytes payload)
  else s <- utf8_decode payload ;; Ok (PyStr s).

(** A map key must be hashable: a list or a dictionary is not. *)
Definition as_key (v : pyval) : result atom :=
  match v with
  | PyAtom a => Ok a
  | _ => Raise TypeError
  end.

(** One item and the bytes left after it.  [fuel] bounds the depth of
    the calls; [unpackb] supplies more than any input can use. *)
Fixpoint unpack_obj (raw : bool) (fuel : nat) (bs : list byte) {struct fuel}
  : result (pyval * list byte) :=
  match fuel with
  | O => Raise UnpackError
  | S f =>
    hr <- read_head bs ;;
    match fst hr with
    | HVal a => Ok (PyAtom a, snd hr)
    | HRaw n =>
      match take_bytes n (snd hr) with
      | Some (p, rest) => v <- raw_value raw p ;; Ok (v, rest)
      | None => Raise UnpackError
      end
    | HBin n =>
      match take_bytes n (snd hr) with
      | Some (p, rest) => Ok (PyBytes p, rest)
      | None => Raise UnpackError
      end
    | HFloat w =>
      match take_bytes w (snd hr) with
      | Some (p, rest) => Ok (PyAtom (AFloat p), rest)
      | None => Raise UnpackError
      end
    | HExt n =>
      match snd hr with
      | code :: after =>
        match take_bytes n after with
        | Some (p, rest) => Ok (PyAtom (AExt code p), rest)
        | None => Raise UnpackError
        end
      | [] => Raise UnpackError
      end
    | HArray n => unpack_array raw f n (snd hr) []
    | HMap n => unpack_map raw f n (snd hr) []
    end
  end

with unpack_array (raw : bool) (fuel : nat) (n : N) (bs : list byte) (acc : list pyval)
  {struct fuel} : result (pyval * list byte) :=
  match fuel with
  | O => Raise UnpackError
  | S f =>
    if n =? 0 then Ok (PyList (rev acc), bs)
    else
      x <- unpack_obj raw f bs ;;
      unpack_array raw f (n - 1) (snd x) (fst x :: acc)
  end

with unpack_map (raw : bool) (fuel : nat) (n : N) (bs : list byte) (acc : pydict)
  {struct fuel} : result (pyval * list byte) :=
  match fuel with
  | O => Raise UnpackError
  | S f =>
    if n =? 0 then Ok (PyDict acc, bs)
    else
      k <- unpack_obj raw f bs ;;
      x <- unpack_obj raw f (snd k) ;;
      key <- as_key (fst k) ;;
      unpack_map raw f (n - 1) (snd x) (setitem acc key (fst x))
  end.

(** [msgpack.unpackb(bs, raw=raw)]: exactly one item, nothing after it. *)
Definition unpackb (raw : bool) (bs : list byte) : result pyval :=
  r <- unpack_obj raw (2 * length bs + 1) bs ;;
  match snd r with
  | [] => Ok (fst r)
  | _ :: _ => Raise UnpackError
  end.

(** [cdef dict unpacked = ...]: the assignment checks the type. *)
Definition as_dict (v : pyval) : result pydict :=
  match v with
  | PyDict d => Ok d
  | _ => Raise TypeError
  end.


(* ================================================================== *)
(** ** Typed access to Python values                                    *)
(* ================================================================== *)

(** An argument or variable declared [str] in Cython: a [str] or [None]. *)
Definition typed_str (v : pyval) : result (option string) :=
  match v with
  | PyStr s => Ok (Some s)
  | PyNone => Ok None
  | _ => Raise TypeError
  end.

Definition as_str (v : pyval) : result string :=
  match v with
  | PyStr s => Ok s
  | _ => Raise TypeError
  end.

Definition as_int (v : pyval) : result Z :=
  match v with
  | PyInt z => Ok z
  | _ => Raise TypeError
  end.

(** [v.decode('utf-8')]: only [bytes] has the method. *)
Definition decode_method (v : pyval) : result string :=
  match v with
  | PyBytes b => utf8_decode b
  | _ => Raise AttributeError
  end.

(** A text is recognised by its shape: one character class per
    position. *)
Inductive char_class : Type := Digit | HexDigit | Exactly (c : ascii).

Definition in_class (cl : char_class) (c : ascii) : bool :=
  let n := N_of_ascii c in
  match cl with
  | Digit => (48 <=? n) && (n <=? 57)
  | HexDigit => ((48 <=? n) && (n <=? 57)) || ((97 <=? n) && (n <=? 102))
  | Exactly c' => Ascii.eqb c c'
  end.

Fixpoint has_shape (shape : list char_class) (s : string) : bool :=
  match shape, s with
  | [], EmptyString => true
  | cl :: shape', String c s' => in_class cl c && has_shape shape' s'
  | _, _ => false
  end.

Fixpoint all_digits (s : string) : bool :=
  match s with
  | EmptyString => true
  | String c s' => in_class Digit c && all_digits s'
  end.

(** Digits, then optionally a point and more digits. *)
Fixpoint unsigned_decimal (seen_digit : bool) (s : string) : bool :=
  match s with
  | EmptyString => seen_digit
  | String c s' =>
    if in_class Digit c then unsigned_decimal true s'
    else if Ascii.eqb c "."
    then seen_digit && all_digits s' && negb (String.eqb s' "")
    else false
  end.

Definition decimal_shape (s : string) : bool :=
  match s with
  | String "-" s' => unsigned_decimal false s'
  | _ => unsigned_decimal false s
  end.

Definition uuid_shape : list char_class :=
  repeat HexDigit 8 ++ [Exactly "-"] ++ repeat HexDigit 4 ++ [Exactly "-"] ++
  repeat HexDigit 4 ++ [Exactly "-"] ++ repeat HexDigit 4 ++ [Exactly "-"] ++
  repeat HexDigit 12.

(** [YYYY-MM-DDTHH:MM:SS.mmmZ] *)
Definition iso8601_shape : list char_class :=
  repeat Digit 4 ++ [Exactly "-"] ++ repeat Digit 2 ++ [Exactly "-"] ++ repeat Digit 2 ++
  [Exactly "T"] ++ repeat Digit 2 ++ [Exactly ":"] ++ repeat Digit 2 ++ [Exactly ":"] ++
  repeat Digit 2 ++ [Exactly "."] ++ repeat Digit 3 ++ [Exactly "Z"].

(* ================================================================== *)
(** ** Identifiers, value objects and enumerations                      *)
(* ================================================================== *)

(** Modelled from the spec: the identifier classes of
    [inv_trader.model.identifiers] ("each identifier is an immutable,
    value-equal wrapper over a string/UUID").  The kind keeps an
    [OrderId] apart from a [TraderId]. *)
Inductive id_kind : Type :=
| KTraderId | KStrategyId | KPositionId | KOrderId | KExecutionId | KAccountId
| KInstrumentId | KLabel | KExecutionTicket | KAccountNumber | KValidString | KSymbol.

Record Identifier (k : id_kind) : Type := MkId { value : string }.
Arguments MkId {k} value.
Arguments value {k} i.

Abbreviation TraderId := (Identifier KTraderId).
Abbreviation StrategyId := (Identifier KStrategyId).
Abbreviation PositionId := (Identifier KPositionId).
Abbreviation OrderId := (Identifier KOrderId).
Abbreviation ExecutionId := (Identifier KExecutionId).
Abbreviation AccountId := (Identifier KAccountId).
Abbreviation InstrumentId := (Identifier KInstrumentId).
Abbreviation Label := (Identifier KLabel).
Abbreviation ExecutionTicket := (Identifier KExecutionTicket).
Abbreviation AccountNumber := (Identifier KAccountNumber).
Abbreviation ValidString := (Identifier KValidString).
Abbreviation Symbol := (Identifier KSymbol).

(** Modelled from the spec: [OrderId(v)], [TraderId(v)], ...,
    [ValidString(v)], the constructor of an identifier class applied to
    a value taken from the unpacked map. *)
Definition new_id {k : id_kind} (v : pyval) : result (Identifier k) :=
  s <- as_str v ;; Ok (MkId s).

(** Modelled from the spec: [parse_symbol] of
    [inv_trader.common.serialization]; a symbol is identified with the
    text that [symbol.value] gives. *)
Definition parse_symbol (v : pyval) : result Symbol :=
  s <- as_str v ;; Ok (MkId s).

(** Modelled from the spec: [GUID] over [uuid.UUID].  [guid_value] is
    the canonical text of the identifier, which [UUID(text)] reads
    back. *)
Record GUID : Type := MkGUID { guid_value : string }.

(** Modelled from the spec: [GUID(UUID(v))], which accepts the
    canonical text of an identifier and nothing else. *)
Definition GUID_of_UUID (v : pyval) : result GUID :=
  s <- as_str v ;;
  if has_shape uuid_shape s then Ok (MkGUID s)
  else Raise (ValueError "badly formed hexadecimal UUID string").

(** Modelled from the spec: the decimal-exact value types
    ("Prices, Money, and all decimal-sensitive values: encoded as their
    exact decimal string representation"): a value is the decimal text
    [str] gives, so ["1.10000"] and ["1.1"] are different prices. *)
Record Decimal : Type := MkDecimal { decimal_text : string }.
Record Price : Type := MkPrice { price_text : string }.
Record Money : Type := MkMoney { money_text : string }.
Record Quantity : Type := MkQuantity { quantity_value : Z }.

(** Modelled from the spec: the text a decimal constructor accepts. *)
Definition decimal_string (v : pyval) : result string :=
  s <- as_str v ;;
  if decimal_shape s then Ok s else Raise InvalidOperation.

(** Modelled from the spec: [Decimal(v)], [Price(v)], [Money(v)] on a
    text and [Quantity(v)] on an integer. *)
Definition new_Decimal (v : pyval) : result Decimal :=
  s <- decimal_string v ;; Ok (MkDecimal s).
Definition new_Price (v : pyval) : result Price :=
  s <- decimal_string v ;; Ok (MkPrice s).
Definition new_Money (v : pyval) : result Money :=
  s <- decimal_string v ;; Ok (MkMoney s).
Definition new_Quantity (v : pyval) : result Quantity :=
  z <- as_int v ;; Ok (MkQuantity z).

(** Modelled from the spec: a [datetime] is the instant written in the
    fixed text format of the wire ("Timestamps: encoded as a fixed-format
    string, parsed back to the identical instant"). *)
Record datetime : Type := MkDatetime { isoformat : string }.

(** The text that stands for an absent value on the wire. *)
Definition NONE : string := "NONE".

(** Modelled from the spec: the conversion helpers of
    [inv_trader.common.serialization] ("absent optional values ... an
    explicit absent-field convention"): an absent price, label or time
    is written as the text [NONE]. *)
Definition convert_price_to_string (price : option Price) : string :=
  match price with
  | None => NONE
  | Some p => price_text p
  end.

(** Modelled from the spec: the inverse, [None] for the text [NONE]. *)
Definition convert_string_to_price (v : pyval) : result (option Price) :=
  s <- as_str v ;;
  if String.eqb s NONE then Ok None
  else p <- new_Price (PyStr s) ;; Ok (Some p).

(** Modelled from the spec: the label's text, [NONE] when absent. *)
Definition convert_label_to_string (label : option Label) : string :=
  match label with
  | None => NONE
  | Some l => value l
  end.

(** Modelled from the spec: the inverse, [None] for the text [NONE]. *)
Definition convert_string_to_label (v : pyval) : result (option Label) :=
  s <- as_str v ;;
  if String.eqb s NONE then Ok None else Ok (Some (MkId s)).

(** Modelled from the spec: the instant in the wire's text format,
    [NONE] when absent. *)
Definition convert_datetime_to_string (time : option datetime) : string :=
  match time with
  | None => NONE
  | Some t => isoformat t
  end.

(** Modelled from the spec: the inverse, [None] for the text [NONE];
    a text of another format is not parsed. *)
Definition convert_string_to_datetime (v : pyval) : result (option datetime) :=
  s <- as_str v ;;
  if String.eqb s NONE then Ok None
  else if has_shape iso8601_shape s then Ok (Some (MkDatetime s))
  else Raise ParseError.

(** Modelled from the spec: the enumerations of [inv_trader.enums] and
    their name tables ("a bidirectional name-value table that must be
    exhaustive and invertible").  The sets of members stand for the
    tables of the enum modules; the proofs use only that each table is
    exhaustive and invertible. *)
Inductive OrderSide : Type := BUY | SELL.
Inductive OrderType : Type := MARKET | LIMIT | STOP_MARKET | STOP_LIMIT | MIT.
Inductive TimeInForce : Type := DAY | GTC | IOC | FOC | GTD.
Inductive Currency : Type := AUD | CAD | CHF | EUR | GBP | JPY | NZD | USD.
Inductive Broker : Type := DUKASCOPY | FXCM.
Inductive SecurityType : Type := FOREX | BOND | EQUITY | FUTURE | CFD | OPTION.

Definition order_side_string (v : OrderSide) : string :=
  match v with BUY => "BUY" | SELL => "SELL" end.
Definition order_type_string (v : OrderType) : string :=
  match v with
  | MARKET => "MARKET" | LIMIT => "LIMIT" | STOP_MARKET => "STOP_MARKET"
  | STOP_LIMIT => "STOP_LIMIT" | MIT => "MIT"
  end.
Definition time_in_force_string (v : TimeInForce) : string :=
  match v with DAY => "DAY" | GTC => "GTC" | IOC => "IOC" | FOC => "FOC" | GTD => "GTD" end.
Definition currency_string (v : Currency) : string :=
  match v with
  | AUD => "AUD" | CAD => "CAD" | CHF => "CHF" | EUR => "EUR"
  | GBP => "GBP" | JPY => "JPY" | NZD => "NZD" | USD => "USD"
  end.
Definition broker_string (v : Broker) : string :=
  match v with DUKASCOPY => "DUKASCOPY" | FXCM => "FXCM" end.
Definition security_type_string (v : SecurityType) : string :=
  match v with
  | FOREX => "FOREX" | BOND => "BOND" | EQUITY => "EQUITY"
  | FUTURE => "FUTURE" | CFD => "CFD" | OPTION => "OPTION"
  end.

(** [E[name]]: the member of that name, [KeyError] when there is none. *)
Definition enum_member {E : Type} (name_of : E -> string) (members : list E) (v : pyval)
  : result E :=
  match v with
  | PyStr s =>
    match find (fun m => String.eqb (name_of m) s) members with
    | Some m => Ok m
    | None => Raise (KeyError s)
    end
  | _ => Raise (KeyError "")
  end.

Definition OrderSide_item := enum_member order_side_string [BUY; SELL].
Definition OrderType_item :=
  enum_member order_type_string [MARKET; LIMIT; STOP_MARKET; STOP_LIMIT; MIT].
Definition TimeInForce_item := enum_member time_in_force_string [DAY; GTC; IOC; FOC; GTD].
Definition Currency_item :=
  enum_member currency_string [AUD; CAD; CHF; EUR; GBP; JPY; NZD; USD].
Definition Broker_item := enum_member broker_string [DUKASCOPY; FXCM].
Definition SecurityType_item :=
  enum_member security_type_string [FOREX; BOND; EQUITY; FUTURE; CFD; OPTION].

(* ================================================================== *)
(** ** Orders, commands, events, instruments                            *)
(* ================================================================== *)

(** Modelled from the spec: the classes of [inv_trader.model.order],
    [inv_trader.commands], [inv_trader.model.events] and [Instrument] of
    [inv_trader.model.objects], with the attributes the serializers read
    and the constructor arguments they pass.  A reference that the
    conversion helpers allow to be [None] is an [option]. *)
Module Order.
(** Modelled from the spec: an order, with the attributes
    [MsgPackOrderSerializer.serialize] reads. *)
Record t : Type := Mk {
  id : OrderId;
  symbol : Symbol;
  side : OrderSide;
  type : OrderType;
  quantity : Quantity;
  timestamp : option datetime;
  price : option Price;
  label : option Label;
  time_in_force : TimeInForce;
  expire_time : option datetime;
  init_id : GUID
}.

(** Modelled from the spec: the constructor [Order(...)].  It is not
    given an [init_id]: that is "the GUID of the initializing event",
    which the constructor creates with a GUID "generated once ... at
    creation".  [new_guid] is the identifier the factory hands out. *)
Definition new (new_guid : GUID) (order_id : OrderId) (symbol : Symbol)
    (order_side : OrderSide) (order_type : OrderType) (quantity : Quantity)
    (timestamp : option datetime) (price : option Price) (label : option Label)
    (time_in_force : TimeInForce) (expire_time : option datetime) : t :=
  Mk order_id symbol order_side order_type quantity timestamp price label
     time_in_force expire_time new_guid.

(** The order with another initialization identifier. *)
Definition with_init_id (g : GUID) (o : t) : t :=
  Mk (id o) (symbol o) (side o) (type o) (quantity o) (timestamp o) (price o)
     (label o) (time_in_force o) (expire_time o) g.
End Order.
Abbreviation Order := Order.t.

(** Modelled from the spec: an atomic order, "an entry order with a
    mandatory stop-loss and optional take-profit"; the serializer
    reads the three attributes and nothing else. *)
Record AtomicOrder : Type := MkAtomicOrder {
  entry : option Order;
  stop_loss : option Order;
  take_profit : option Order
}.

(** Modelled from the spec: the closed set of commands; the arguments
    are those [MsgPackCommandSerializer.deserialize] passes to the
    constructors, in their order. *)
Inductive Command : Type :=
| CollateralInquiry (command_id : GUID) (command_timestamp : option datetime)
| SubmitOrder (trader_id : TraderId) (strategy_id : StrategyId) (position_id : PositionId)
    (order : option Order) (command_id : GUID) (command_timestamp : option datetime)
| SubmitAtomicOrder (trader_id : TraderId) (strategy_id : StrategyId)
    (position_id : PositionId) (atomic_order : AtomicOrder)
    (command_id : GUID) (command_timestamp : option datetime)
| ModifyOrder (trader_id : TraderId) (strategy_id : StrategyId) (order_id : OrderId)
    (modified_price : Price) (command_id : GUID) (command_timestamp : option datetime)
| CancelOrder (trader_id : TraderId) (strategy_id : StrategyId) (order_id : OrderId)
    (cancel_reason : ValidString) (command_id : GUID) (command_timestamp : option datetime).

(** [command.id] *)
Definition command_id_of (c : Command) : GUID :=
  match c with
  | CollateralInquiry i _ | SubmitOrder _ _ _ _ i _ | SubmitAtomicOrder _ _ _ _ i _
  | ModifyOrder _ _ _ _ i _ | CancelOrder _ _ _ _ i _ => i
  end.

(** [command.timestamp] *)
Definition command_timestamp_of (c : Command) : option datetime :=
  match c with
  | CollateralInquiry _ t | SubmitOrder _ _ _ _ _ t | SubmitAtomicOrder _ _ _ _ _ t
  | ModifyOrder _ _ _ _ _ t | CancelOrder _ _ _ _ _ t => t
  end.

(** Modelled from the spec: the closed set of events.  The arguments
    are those of the
    constructors as [MsgPackEventSerializer.deserialize] calls them;
    for [OrderInitialized], which it never constructs, the attributes
    [serialize] reads.  The serializer reads the account identifier of
    an [AccountEvent] through the attribute [order_id]. *)
Inductive Event : Type :=
| AccountEvent (order_id : AccountId) (broker : Broker) (account_number : AccountNumber)
    (currency : Currency) (cash_balance cash_start_day cash_activity_day : Money)
    (margin_used_liquidation margin_used_maintenance : Money) (margin_ratio : Decimal)
    (margin_call_status : ValidString) (event_id : GUID) (event_timestamp : option datetime)
| OrderInitialized (order_id : OrderId) (symbol : Symbol) (label : Label)
    (order_side : OrderSide) (order_type : OrderType) (quantity : Quantity) (price : Price)
    (time_in_force : TimeInForce) (expire_time : option datetime)
    (event_id : GUID) (event_timestamp : option datetime)
| OrderSubmitted (order_id : OrderId) (submitted_time : option datetime)
    (event_id : GUID) (event_timestamp : option datetime)
| OrderAccepted (order_id : OrderId) (accepted_time : option datetime)
    (event_id : GUID) (event_timestamp : option datetime)
| OrderRejected (order_id : OrderId) (rejected_time : option datetime)
    (rejected_reason : ValidString) (event_id : GUID) (event_timestamp : option datetime)
| OrderWorking (order_id : OrderId) (order_id_broker : OrderId) (symbol : Symbol)
    (label : Label) (order_side : OrderSide) (order_type : OrderType) (quantity : Quantity)
    (price : Price) (time_in_force : TimeInForce) (working_time : option datetime)
    (event_id : GUID) (event_timestamp : option datetime) (expire_time : option datetime)
| OrderCancelReject (order_id : OrderId) (cancel_reject_time : option datetime)
    (cancel_reject_response : ValidString) (cancel_reject_reason : ValidString)
    (event_id : GUID) (event_timestamp : option datetime)
| OrderCancelled (order_id : OrderId) (cancelled_time : option datetime)
    (event_id : GUID) (event_timestamp : option datetime)
| OrderModified (order_id : OrderId) (order_id_broker : OrderId) (modified_price : Price)
    (modified_time : option datetime) (event_id : GUID) (event_timestamp : option datetime)
| OrderExpired (order_id : OrderId) (expired_time : option datetime)
    (event_id : GUID) (event_timestamp : option datetime)
| OrderPartiallyFilled (order_id : OrderId) (execution_id : ExecutionId)
    (execution_ticket : ExecutionTicket) (symbol : Symbol) (order_side : OrderSide)
    (filled_quantity : Quantity) (leaves_quantity : Quantity) (average_price : Price)
    (execution_time : option datetime) (event_id : GUID) (event_timestamp : option datetime)
| OrderFilled (order_id : OrderId) (execution_id : ExecutionId)
    (execution_ticket : ExecutionTicket) (symbol : Symbol) (order_side : OrderSide)
    (filled_quantity : Quantity) (average_price : Price)
    (execution_time : option datetime) (event_id : GUID) (event_timestamp : option datetime).

(** [event.__class__.__name__] *)
Definition class_name (e : Event) : string :=
  match e with
  | AccountEvent _ _ _ _ _ _ _ _ _ _ _ _ _ => "AccountEvent"
  | OrderInitialized _ _ _ _ _ _ _ _ _ _ _ => "OrderInitialized"
  | OrderSubmitted _ _ _ _ => "OrderSubmitted"
  | OrderAccepted _ _ _ _ => "OrderAccepted"
  | OrderRejected _ _ _ _ _ => "OrderRejected"
  | OrderWorking _ _ _ _ _ _ _ _ _ _ _ _ _ => "OrderWorking"
  | OrderCancelReject _ _ _ _ _ _ => "OrderCancelReject"
  | OrderCancelled _ _ _ _ => "OrderCancelled"
  | OrderModified _ _ _ _ _ _ => "OrderModified"
  | OrderExpired _ _ _ _ => "OrderExpired"
  | OrderPartiallyFilled _ _ _ _ _ _ _ _ _ _ _ => "OrderPartiallyFilled"
  | OrderFilled _ _ _ _ _ _ _ _ _ _ => "OrderFilled"
  end.

(** [event.id] *)
Definition event_id_of (e : Event) : GUID :=
  match e with
  | AccountEvent _ _ _ _ _ _ _ _ _ _ _ i _ => i
  | OrderInitialized _ _ _ _ _ _ _ _ _ i _ => i
  | OrderSubmitted _ _ i _ | OrderAccepted _ _ i _ | OrderCancelled _ _ i _
  | OrderExpired _ _ i _ => i
  | OrderRejected _ _ _ i _ => i
  | OrderWorking _ _ _ _ _ _ _ _ _ _ i _ _ => i
  | OrderCancelReject _ _ _ _ i _ => i
  | OrderModified _ _ _ _ i _ => i
  | OrderPartiallyFilled _ _ _ _ _ _ _ _ _ i _ => i
  | OrderFilled _ _ _ _ _ _ _ _ i _ => i
  end.

(** [event.timestamp] *)
Definition event_timestamp_of (e : Event) : option datetime :=
  match e with
  | AccountEvent _ _ _ _ _ _ _ _ _ _ _ _ t => t
  | OrderInitialized _ _ _ _ _ _ _ _ _ _ t => t
  | OrderSubmitted _ _ _ t | OrderAccepted _ _ _ t | OrderCancelled _ _ _ t
  | OrderExpired _ _ _ t => t
  | OrderRejected _ _ _ _ t => t
  | OrderWorking _ _ _ _ _ _ _ _ _ _ _ t _ => t
  | OrderCancelReject _ _ _ _ _ t => t
  | OrderModified _ _ _ _ _ t => t
  | OrderPartiallyFilled _ _ _ _ _ _ _ _ _ _ t => t
  | OrderFilled _ _ _ _ _ _ _ _ _ t => t
  end.

Module Instrument.
(** Modelled from the spec: an instrument, with the attributes
    [MsgPackInstrumentSerializer.serialize] reads. *)
Record t : Type := Mk {
  id : InstrumentId;
  symbol : Symbol;
  broker_symbol : string;
  quote_currency : Currency;
  security_type : SecurityType;
  tick_precision : Z;
  tick_size : Decimal;
  round_lot_size : Quantity;
  min_stop_distance_entry : Z;
  min_stop_distance : Z;
  min_limit_distance_entry : Z;
  min_limit_distance : Z;
  min_trade_size : Quantity;
  max_trade_size : Quantity;
  rollover_interest_buy : Decimal;
  rollover_interest_sell : Decimal;
  timestamp : option datetime
}.

(** Modelled from the spec: the constructor.  The arguments the
    deserializer passes as they come from the map are checked against their declared types when
    the call is made, after every argument has been evaluated. *)
Definition new (instrument_id : InstrumentId) (symbol : Symbol) (broker_symbol : pyval)
    (quote_currency : Currency) (security_type : SecurityType) (tick_precision : pyval)
    (tick_size : Decimal) (round_lot_size : Quantity)
    (min_stop_distance_entry min_stop_distance : pyval)
    (min_limit_distance_entry min_limit_distance : pyval)
    (min_trade_size max_trade_size : Quantity)
    (rollover_interest_buy rollover_interest_sell : Decimal)
    (timestamp : option datetime) : result t :=
  broker_symbol <- as_str broker_symbol ;;
  tick_precision <- as_int tick_precision ;;
  min_stop_distance_entry <- as_int min_stop_distance_entry ;;
  min_stop_distance <- as_int min_stop_distance ;;
  min_limit_distance_entry <- as_int min_limit_distance_entry ;;
  min_limit_distance <- as_int min_limit_distance ;;
  Ok (Mk instrument_id symbol broker_symbol quote_currency security_type tick_precision
         tick_size round_lot_size min_stop_distance_entry min_stop_distance
         min_limit_distance_entry min_limit_distance min_trade_size max_trade_size
         rollover_interest_buy rollover_interest_sell timestamp).
End Instrument.
Abbreviation Instrument := Instrument.t.

(* ================================================================== *)
(** ** The field names of the wire vocabulary                           *)
(* ================================================================== *)

Definition UTF8 : string := "utf-8".
Definition TYPE : string := "Type".
Definition ID : string := "Id".
Definition COMMAND : string := "Command".
Definition COMMAND_ID : string := "CommandId".
Definition COMMAND_TIMESTAMP : string := "CommandTimestamp".
Definition EVENT : string := "Event".
Definition EVENT_ID : string := "EventId".
Definition EVENT_TIMESTAMP : string := "EventTimestamp".
Definition COLLATERAL_INQUIRY : string := "CollateralInquiry".
Definition SUBMIT_ORDER : string := "SubmitOrder".
Definition SUBMIT_ATOMIC_ORDER : string := "SubmitAtomicOrder".
Definition CANCEL_ORDER : string := "CancelOrder".
Definition MODIFY_ORDER : string := "ModifyOrder".
Definition CANCEL_REASON : string := "CancelReason".
Definition ORDER : string := "Order".
Definition TIMESTAMP : string := "Timestamp".
Definition SYMBOL : string := "Symbol".
Definition ORDER_ID_BROKER : string := "OrderIdBroker".
Definition TRADER_ID : string := "TraderId".
Definition STRATEGY_ID : string := "StrategyId".
Definition POSITION_ID : string := "PositionId".
Definition ORDER_ID : string := "OrderId".
Definition INIT_ID : string := "InitId".
Definition LABEL : string := "Label".
Definition SUBMITTED_TIME : string := "SubmittedTime".
Definition ACCEPTED_TIME : string := "AcceptedTime".
Definition REJECTED_TIME : string := "RejectedTime".
Definition REJECTED_RESPONSE : string := "RejectedResponse".
Definition REJECTED_REASON : string := "RejectedReason".
Definition WORKING_TIME : string := "WorkingTime".
Definition CANCELLED_TIME : string := "CancelledTime".
Definition MODIFIED_TIME : string := "ModifiedTime".
Definition MODIFIED_PRICE : string := "ModifiedPrice".
Definition EXPIRE_TIME : string := "ExpireTime".
Definition EXPIRED_TIME : string := "ExpiredTime".
Definition EXECUTION_TIME : string := "ExecutionTime".
Definition EXECUTION_ID : string := "ExecutionId".
Definition EXECUTION_TICKET : string := "ExecutionTicket".
Definition ORDER_SIDE : string := "OrderSide".
Definition ORDER_TYPE : string := "OrderType".
Definition ENTRY : string := "Entry".
Definition STOP_LOSS : string := "StopLoss".
Definition TAKE_PROFIT : string := "TakeProfit".
Definition FILLED_QUANTITY : string := "FilledQuantity".
Definition LEAVES_QUANTITY : string := "LeavesQuantity".
Definition QUANTITY : string := "Quantity".
Definition AVERAGE_PRICE : string := "AveragePrice".
Definition PRICE : string := "Price".
Definition TIME_IN_FORCE : string := "TimeInForce".
Definition ACCOUNT_ID : string := "AccountId".
Definition ACCOUNT_NUMBER : string := "AccountNumber".
Definition BROKER : string := "Broker".
Definition CURRENCY : string := "Currency".
Definition CASH_BALANCE : string := "CashBalance".
Definition CASH_START_DAY : string := "CashStartDay".
Definition CASH_ACTIVITY_DAY : string := "CashActivityDay".
Definition MARGIN_USED_LIQUIDATION : string := "MarginUsedLiquidation".
Definition MARGIN_USED_MAINTENANCE : string := "MarginUsedMaintenance".
Definition MARGIN_RATIO : string := "MarginRatio".
Definition MARGIN_CALL_STATUS : string := "MarginCallStatus".
Definition BROKER_SYMBOL : string := "BrokerSymbol".
Definition QUOTE_CURRENCY : string := "QuoteCurrency".
Definition SECURITY_TYPE : string := "SecurityType".
Definition TICK_PRECISION : string := "TickPrecision".
Definition TICK_SIZE : string := "TickSize".
Definition ROUND_LOT_SIZE : string := "RoundLotSize".
Definition MIN_STOP_DISTANCE_ENTRY : string := "MinStopDistanceEntry".
Definition MIN_STOP_DISTANCE : string := "MinStopDistance".
Definition MIN_LIMIT_DISTANCE_ENTRY : string := "MinLimitDistanceEntry".
Definition MIN_LIMIT_DISTANCE : string := "MinLimitDistance".
Definition MIN_TRADE_SIZE : string := "MinTradeSize".
Definition MAX_TRADE_SIZE : string := "MaxTradeSize".
Definition ROLL_OVER_INTEREST_BUY : string := "RollOverInterestBuy".
Definition ROLL_OVER_INTEREST_SELL : string := "RollOverInterestSell".

(* ================================================================== *)
(** ** Helpers shared by the serializers                                *)
(* ================================================================== *)

(** Modelled from the spec: [Precondition.not_empty] of
    [inv_trader.core.precondition] ("empty input bytes is a precondition
    violation"), called before any parsing. *)
Definition not_empty (argument : list byte) (param_name : string) : result unit :=
  match argument with
  | [] => Raise (PreconditionError param_name)
  | _ :: _ => Ok tt
  end.

(** A bytes literal [b'...']. *)
Definition b (s : string) : list byte := list_byte_of_string s.

(** [package[k1] = v1; package[k2] = v2; ...] in that order; also the
    dictionary display [{k1: v1, k2: v2, ...}] when started from [[]]. *)
Definition assign (package : pydict) (entries : list (string * pyval)) : pydict :=
  fold_left (fun d kv => setitem d (AStr (fst kv)) (snd kv)) entries package.

(** [ctor(unpacked[key])] *)
Definition field {A : Type} (unpacked : pydict) (key : string) (ctor : pyval -> result A)
  : result A :=
  v <- getitem unpacked (AStr key) ;; ctor v.

(** [x == name] for a variable declared [str]. *)
Definition str_eq (x : option string) (name : string) : bool :=
  match x with
  | Some s => String.eqb s name
  | None => false
  end.

(* ================================================================== *)
(** ** MsgPackOrderSerializer                                           *)
(* ================================================================== *)

Module MsgPackOrderSerializer.

Definition package (order : Order) : pydict :=
  assign [] [
    (ID, PyStr (value (Order.id order)));
    (SYMBOL, PyStr (value (Order.symbol order)));
    (ORDER_SIDE, PyStr (order_side_string (Order.side order)));
    (ORDER_TYPE, PyStr (order_type_string (Order.type order)));
    (QUANTITY, PyInt (quantity_value (Order.quantity order)));
    (PRICE, PyStr (convert_price_to_string (Order.price order)));
    (LABEL, PyStr (convert_label_to_string (Order.label order)));
    (TIME_IN_FORCE, PyStr (time_in_force_string (Order.time_in_force order)));
    (EXPIRE_TIME, PyStr (convert_datetime_to_string (Order.expire_time order)));
    (TIMESTAMP, PyStr (convert_datetime_to_string (Order.timestamp order)));
    (INIT_ID, PyStr (guid_value (Order.init_id order)))].

Definition serialize (order : option Order) : result (list byte) :=
  match order with
  | None => packb (PyDict [])  (* Null order *)
  | Some order => packb (PyDict (package order))
  end.

(** The order built from an unpacked map.  [new_guid] is what the
    GUID factory gives the constructor: the map's [InitId] entry is
    not read. *)
Definition from_unpacked (new_guid : GUID) (unpacked : pydict) : result (option Order) :=
  if (length unpacked =? 0)%nat then Ok None  (* Null order *)
  else
    order_id <- field unpacked ID new_id ;;
    symbol <- field unpacked SYMBOL parse_symbol ;;
    order_side <- field unpacked ORDER_SIDE OrderSide_item ;;
    order_type <- field unpacked ORDER_TYPE OrderType_item ;;
    quantity <- field unpacked QUANTITY new_Quantity ;;
    timestamp <- field unpacked TIMESTAMP convert_string_to_datetime ;;
    price <- field unpacked PRICE convert_string_to_price ;;
    label <- field unpacked LABEL convert_string_to_label ;;
    time_in_force <- field unpacked TIME_IN_FORCE TimeInForce_item ;;
    expire_time <- field unpacked EXPIRE_TIME convert_string_to_datetime ;;
    Ok (Some (Order.new new_guid order_id symbol order_side order_type quantity
                        timestamp price label time_in_force expire_time)).

Definition deserialize (new_guid : GUID) (order_bytes : list byte) : result (option Order) :=
  _ <- not_empty order_bytes "order_bytes" ;;
  v <- unpackb false order_bytes ;;
  unpacked <- as_dict v ;;
  from_unpacked new_guid unpacked.

(** The call [self.order_serializer.deserialize(x)] on a value of the
    unpacked map: the parameter is declared [bytes]. *)
Definition deserialize_value (new_guid : GUID) (x : pyval) : result (option Order) :=
  match x with
  | PyBytes order_bytes => deserialize new_guid order_bytes
  | _ => Raise TypeError
  end.

End MsgPackOrderSerializer.

(* ================================================================== *)
(** ** MsgPackCommandSerializer                                         *)
(* ================================================================== *)

Module MsgPackCommandSerializer.

(** The map that [serialize] packs.  The closing [else: raise
    ValueError] of the source is not reachable: the set of commands is
    closed. *)
Definition package (command : Command) : result pydict :=
  let package := assign [] [
    (TYPE, PyStr COMMAND);
    (COMMAND_ID, PyStr (guid_value (command_id_of command)));
    (COMMAND_TIMESTAMP, PyStr (convert_datetime_to_string (command_timestamp_of command)))] in
  match command with
  | CollateralInquiry _ _ =>
    Ok (assign package [(COMMAND, PyStr COLLATERAL_INQUIRY)])
  | SubmitOrder trader_id strategy_id position_id order _ _ =>
    order_bytes <- MsgPackOrderSerializer.serialize order ;;
    Ok (assign package [
      (COMMAND, PyStr SUBMIT_ORDER);
      (TRADER_ID, PyStr (value trader_id));
      (STRATEGY_ID, PyStr (value strategy_id));
      (POSITION_ID, PyStr (value position_id));
      (ORDER, PyBytes order_bytes)])
  | SubmitAtomicOrder trader_id strategy_id position_id atomic_order _ _ =>
    entry_bytes <- MsgPackOrderSerializer.serialize (entry atomic_order) ;;
    stop_loss_bytes <- MsgPackOrderSerializer.serialize (stop_loss atomic_order) ;;
    take_profit_bytes <- MsgPackOrderSerializer.serialize (take_profit atomic_order) ;;
    Ok (assign package [
      (COMMAND, PyStr SUBMIT_ATOMIC_ORDER);
      (TRADER_ID, PyStr (value trader_id));
      (STRATEGY_ID, PyStr (value strategy_id));
      (POSITION_ID, PyStr (value position_id));
      (ENTRY, PyBytes entry_bytes);
      (STOP_LOSS, PyBytes stop_loss_bytes);
      (TAKE_PROFIT, PyBytes take_profit_bytes)])
  | ModifyOrder trader_id strategy_id order_id modified_price _ _ =>
    Ok (assign package [
      (COMMAND, PyStr MODIFY_ORDER);
      (TRADER_ID, PyStr (value trader_id));
      (STRATEGY_ID, PyStr (value strategy_id));
      (ORDER_ID, PyStr (value order_id));
      (MODIFIED_PRICE, PyStr (price_text modified_price))])
  | CancelOrder trader_id strategy_id order_id cancel_reason _ _ =>
    Ok (assign package [
      (COMMAND, PyStr CANCEL_ORDER);
      (TRADER_ID, PyStr (value trader_id));
      (STRATEGY_ID, PyStr (value strategy_id));
      (ORDER_ID, PyStr (value order_id));
      (CANCEL_REASON, PyStr (value cancel_reason))])
  end.

Definition serialize (command : Command) : result (list byte) :=
  package <- package command ;;
  packb (PyDict package).

(** [k not in (b'Order', b'Entry', b'StopLoss', b'TakeProfit')] *)
Definition is_order_key (k : atom) : bool :=
  existsb (atom_eqb k)
          [ABytes (b "Order"); ABytes (b "Entry"); ABytes (b "StopLoss"); ABytes (b "TakeProfit")].

(** One round of the loop "Manually unpack and decode".  In
    [unpacked[k.decode(UTF8)] = v.decode(UTF8)] the right-hand side is
    evaluated first. *)
Definition decode_item (unpacked : pydict) (k : atom) (v : pyval) : result pydict :=
  if negb (is_order_key k) then
    match v with
    | PyBytes vb =>
      v' <- utf8_decode vb ;;
      k' <- decode_method (PyAtom k) ;;
      Ok (setitem unpacked (AStr k') (PyStr v'))
    | _ =>
      k' <- decode_method (PyAtom k) ;;
      Ok (setitem unpacked (AStr k') v)
    end
  else
    k' <- decode_method (PyAtom k) ;;
    Ok (setitem unpacked (AStr k') v).

Fixpoint decode_items (items : pydict) (unpacked : pydict) : result pydict :=
  match items with
  | [] => Ok unpacked
  | (k, v) :: rest =>
    unpacked' <- decode_item unpacked k v ;;
    decode_items rest unpacked'
  end.

(** The command built from the decoded map.  [new_guid n] is the
    identifier the GUID factory gives the constructor of the [n]-th
    nested order. *)
Definition from_unpacked (new_guid : nat -> GUID) (unpacked : pydict) : result Command :=
  command <- field unpacked COMMAND typed_str ;;
  command_id <- field unpacked COMMAND_ID GUID_of_UUID ;;
  command_timestamp <- field unpacked COMMAND_TIMESTAMP convert_string_to_datetime ;;
  if str_eq command COLLATERAL_INQUIRY then
    Ok (CollateralInquiry command_id command_timestamp)
  else if str_eq command SUBMIT_ORDER then
    trader_id <- field unpacked TRADER_ID new_id ;;
    strategy_id <- field unpacked STRATEGY_ID new_id ;;
    position_id <- field unpacked POSITION_ID new_id ;;
    order <- field unpacked ORDER (MsgPackOrderSerializer.deserialize_value (new_guid 0%nat)) ;;
    Ok (SubmitOrder trader_id strategy_id position_id order command_id command_timestamp)
  else if str_eq command SUBMIT_ATOMIC_ORDER then
    trader_id <- field unpacked TRADER_ID new_id ;;
    strategy_id <- field unpacked STRATEGY_ID new_id ;;
    position_id <- field unpacked POSITION_ID new_id ;;
    entry <- field unpacked ENTRY (MsgPackOrderSerializer.deserialize_value (new_guid 0%nat)) ;;
    stop_loss <- field unpacked STOP_LOSS (MsgPackOrderSerializer.deserialize_value (new_guid 1%nat)) ;;
    take_profit <- field unpacked TAKE_PROFIT (MsgPackOrderSerializer.deserialize_value (new_guid 2%nat)) ;;
    Ok (SubmitAtomicOrder trader_id strategy_id position_id
          (MkAtomicOrder entry stop_loss take_profit) command_id command_timestamp)
  else if str_eq command MODIFY_ORDER then
    trader_id <- field unpacked TRADER_ID new_id ;;
    strategy_id <- field unpacked STRATEGY_ID new_id ;;
    order_id <- field unpacked ORDER_ID new_id ;;
    modified_price <- field unpacked MODIFIED_PRICE new_Price ;;
    Ok (ModifyOrder trader_id strategy_id order_id modified_price command_id command_timestamp)
  else if str_eq command CANCEL_ORDER then
    trader_id <- field unpacked TRADER_ID new_id ;;
    strategy_id <- field unpacked STRATEGY_ID new_id ;;
    order_id <- field unpacked ORDER_ID new_id ;;
    cancel_reason <- field unpacked CANCEL_REASON new_id ;;
    Ok (CancelOrder trader_id strategy_id order_id cancel_reason command_id command_timestamp)
  else
    Raise (ValueError "Cannot deserialize command (unrecognized bytes pattern).").

(** What [deserialize] does with the map [msgpack.unpackb] returned. *)
Definition from_raw (new_guid : nat -> GUID) (unpacked_raw : pydict) : result Command :=
  type_value <- getitem unpacked_raw (ABytes (b "Type")) ;;
  message_type <- decode_method type_value ;;
  if negb (String.eqb message_type COMMAND) then
    Raise (ValueError "Cannot deserialize command (the message is not a type of command).")
  else
    unpacked <- decode_items unpacked_raw [] ;;
    from_unpacked new_guid unpacked.

Definition deserialize (new_guid : nat -> GUID) (command_bytes : list byte) : result Command :=
  _ <- not_empty command_bytes "command_bytes" ;;
  v <- unpackb true command_bytes ;;
  unpacked_raw <- as_dict v ;;
  from_raw new_guid unpacked_raw.

End MsgPackCommandSerializer.

(* ================================================================== *)
(** ** MsgPackEventSerializer                                           *)
(* ================================================================== *)

Module MsgPackEventSerializer.

(** The map that [serialize] packs.  The closing [else: raise
    ValueError] of the source is not reachable: the set of events is
    closed. *)
Definition package (event : Event) : pydict :=
  let package := assign [] [
    (TYPE, PyStr EVENT);
    (EVENT, PyStr (class_name event));
    (EVENT_ID, PyStr (guid_value (event_id_of event)));
    (EVENT_TIMESTAMP, PyStr (convert_datetime_to_string (event_timestamp_of event)))] in
  match event with
  | AccountEvent order_id broker account_number currency cash_balance cash_start_day
      cash_activity_day margin_used_liquidation margin_used_maintenance margin_ratio
      margin_call_status _ _ =>
    assign package [
      (ACCOUNT_ID, PyStr (value order_id));
      (BROKER, PyStr (broker_string broker));
      (ACCOUNT_NUMBER, PyStr (value account_number));
      (CURRENCY, PyStr (currency_string currency));
      (CASH_BALANCE, PyStr (money_text cash_balance));
      (CASH_START_DAY, PyStr (money_text cash_start_day));
      (CASH_ACTIVITY_DAY, PyStr (money_text cash_activity_day));
      (MARGIN_USED_LIQUIDATION, PyStr (money_text margin_used_liquidation));
      (MARGIN_USED_MAINTENANCE, PyStr (money_text margin_used_maintenance));
      (MARGIN_RATIO, PyStr (decimal_text margin_ratio));
      (MARGIN_CALL_STATUS, PyStr (value margin_call_status))]
  | OrderInitialized order_id symbol label order_side order_type quantity price
      time_in_force expire_time _ _ =>
    assign package [
      (ORDER_ID, PyStr (value order_id));
      (SYMBOL, PyStr (value symbol));
      (LABEL, PyStr (value label));
      (ORDER_SIDE, PyStr (order_side_string order_side));
      (ORDER_TYPE, PyStr (order_type_string order_type));
      (QUANTITY, PyInt (quantity_value quantity));
      (PRICE, PyStr (price_text price));
      (TIME_IN_FORCE, PyStr (time_in_force_string time_in_force));
      (EXPIRE_TIME, PyStr (convert_datetime_to_string expire_time))]
  | OrderSubmitted order_id submitted_time _ _ =>
    assign package [
      (ORDER_ID, PyStr (value order_id));
      (SUBMITTED_TIME, PyStr (convert_datetime_to_string submitted_time))]
  | OrderAccepted order_id accepted_time _ _ =>
    assign package [
      (ORDER_ID, PyStr (value order_id));
      (ACCEPTED_TIME, PyStr (convert_datetime_to_string accepted_time))]
  | OrderRejected order_id rejected_time rejected_reason _ _ =>
    assign package [
      (ORDER_ID, PyStr (value order_id));
      (REJECTED_TIME, PyStr (convert_datetime_to_string rejected_time));
      (REJECTED_REASON, PyStr (value rejected_reason))]
  | OrderWorking order_id order_id_broker symbol label order_side order_type quantity
      price time_in_force working_time _ _ expire_time =>
    assign package [
      (ORDER_ID, PyStr (value order_id));
      (ORDER_ID_BROKER, PyStr (value order_id_broker));
      (SYMBOL, PyStr (value symbol));
      (LABEL, PyStr (value label));
      (ORDER_SIDE, PyStr (order_side_string order_side));
      (ORDER_TYPE, PyStr (order_type_string order_type));
      (QUANTITY, PyInt (quantity_value quantity));
      (PRICE, PyStr (price_text price));
      (TIME_IN_FORCE, PyStr (time_in_force_string time_in_force));
      (EXPIRE_TIME, PyStr (convert_datetime_to_string expire_time));
      (WORKING_TIME, PyStr (convert_datetime_to_string working_time))]
  | OrderCancelReject order_id cancel_reject_time cancel_reject_response
      cancel_reject_reason _ _ =>
    assign package [
      (ORDER_ID, PyStr (value order_id));
      (REJECTED_TIME, PyStr (convert_datetime_to_string cancel_reject_time));
      (REJECTED_RESPONSE, PyStr (value cancel_reject_response));
      (REJECTED_REASON, PyStr (value cancel_reject_reason))]
  | OrderCancelled order_id cancelled_time _ _ =>
    assign package [
      (ORDER_ID, PyStr (value order_id));
      (CANCELLED_TIME, PyStr (convert_datetime_to_string cancelled_time))]
  | OrderModified order_id order_id_broker modified_price modified_time _ _ =>
    assign package [
      (ORDER_ID, PyStr (value order_id));
      (ORDER_ID_BROKER, PyStr (value order_id_broker));
      (MODIFIED_TIME, PyStr (convert_datetime_to_string modified_time));
      (MODIFIED_PRICE, PyStr (price_text modified_price))]
  | OrderExpired order_id expired_time _ _ =>
    assign package [
      (ORDER_ID, PyStr (value order_id));
      (EXPIRED_TIME, PyStr (convert_datetime_to_string expired_time))]
  | OrderPartiallyFilled order_id execution_id execution_ticket symbol order_side
      filled_quantity leaves_quantity average_price execution_time _ _ =>
    assign package [
      (ORDER_ID, PyStr (value order_id));
      (EXECUTION_ID, PyStr (value execution_id));
      (EXECUTION_TICKET, PyStr (value execution_ticket));
      (SYMBOL, PyStr (value symbol));
      (ORDER_SIDE, PyStr (order_side_string order_side));
      (FILLED_QUANTITY, PyInt (quantity_value filled_quantity));
      (LEAVES_QUANTITY, PyInt (quantity_value leaves_quantity));
      (AVERAGE_PRICE, PyStr (price_text average_price));
      (EXECUTION_TIME, PyStr (convert_datetime_to_string execution_time))]
  | OrderFilled order_id execution_id execution_ticket symbol order_side
      filled_quantity average_price execution_time _ _ =>
    assign package [
      (ORDER_ID, PyStr (value order_id));
      (EXECUTION_ID, PyStr (value execution_id));
      (EXECUTION_TICKET, PyStr (value execution_ticket));
      (SYMBOL, PyStr (value symbol));
      (ORDER_SIDE, PyStr (order_side_string order_side));
      (FILLED_QUANTITY, PyInt (quantity_value filled_quantity));
      (AVERAGE_PRICE, PyStr (price_text average_price));
      (EXECUTION_TIME, PyStr (convert_datetime_to_string execution_time))]
  end.

Definition serialize (event : Event) : result (list byte) :=
  packb (PyDict (package event)).

(** The event built from the unpacked map.  There is a branch for
    every class name but [OrderInitialized]. *)
Definition from_unpacked (unpacked : pydict) : result Event :=
  message_type <- field unpacked TYPE typed_str ;;
  if negb (str_eq message_type EVENT) then
    Raise (ValueError "Cannot deserialize event (the message is not a type of event).")
  else
  event_type <- field unpacked EVENT typed_str ;;
  event_id <- field unpacked EVENT_ID GUID_of_UUID ;;
  event_timestamp <- field unpacked EVENT_TIMESTAMP convert_string_to_datetime ;;
  if str_eq event_type "AccountEvent" then
    account_id <- field unpacked ACCOUNT_ID new_id ;;
    broker <- field unpacked BROKER Broker_item ;;
    account_number <- field unpacked ACCOUNT_NUMBER new_id ;;
    currency <- field unpacked CURRENCY Currency_item ;;
    cash_balance <- field unpacked CASH_BALANCE new_Money ;;
    cash_start_day <- field unpacked CASH_START_DAY new_Money ;;
    cash_activity_day <- field unpacked CASH_ACTIVITY_DAY new_Money ;;
    margin_used_liquidation <- field unpacked MARGIN_USED_LIQUIDATION new_Money ;;
    margin_used_maintenance <- field unpacked MARGIN_USED_MAINTENANCE new_Money ;;
    margin_ratio <- field unpacked MARGIN_RATIO new_Decimal ;;
    margin_call_status <- new_id (PyStr "NONE") ;;
    Ok (AccountEvent account_id broker account_number currency cash_balance
          cash_start_day cash_activity_day margin_used_liquidation
          margin_used_maintenance margin_ratio margin_call_status event_id event_timestamp)
  else if str_eq event_type "OrderSubmitted" then
    order_id <- field unpacked ORDER_ID new_id ;;
    submitted_time <- field unpacked SUBMITTED_TIME convert_string_to_datetime ;;
    Ok (OrderSubmitted order_id submitted_time event_id event_timestamp)
  else if str_eq event_type "OrderAccepted" then
    order_id <- field unpacked ORDER_ID new_id ;;
    accepted_time <- field unpacked ACCEPTED_TIME convert_string_to_datetime ;;
    Ok (OrderAccepted order_id accepted_time event_id event_timestamp)
  else if str_eq event_type "OrderRejected" then
    order_id <- field unpacked ORDER_ID new_id ;;
    rejected_time <- field unpacked REJECTED_TIME convert_string_to_datetime ;;
    rejected_reason <- field unpacked REJECTED_REASON new_id ;;
    Ok (OrderRejected order_id rejected_time rejected_reason event_id event_timestamp)
  else if str_eq event_type "OrderWorking" then
    order_id <- field unpacked ORDER_ID new_id ;;
    order_id_broker <- field unpacked ORDER_ID_BROKER new_id ;;
    symbol <- field unpacked SYMBOL parse_symbol ;;
    label <- field unpacked LABEL new_id ;;
    order_side <- field unpacked ORDER_SIDE OrderSide_item ;;
    order_type <- field unpacked ORDER_TYPE OrderType_item ;;
    quantity <- field unpacked QUANTITY new_Quantity ;;
    price <- field unpacked PRICE new_Price ;;
    time_in_force <- field unpacked TIME_IN_FORCE TimeInForce_item ;;
    working_time <- field unpacked WORKING_TIME convert_string_to_datetime ;;
    expire_time <- field unpacked EXPIRE_TIME convert_string_to_datetime ;;
    Ok (OrderWorking order_id order_id_broker symbol label order_side order_type quantity
          price time_in_force working_time event_id event_timestamp expire_time)
  else if str_eq event_type "OrderCancelled" then
    order_id <- field unpacked ORDER_ID new_id ;;
    cancelled_time <- field unpacked CANCELLED_TIME convert_string_to_datetime ;;
    Ok (OrderCancelled order_id cancelled_time event_id event_timestamp)
  else if str_eq event_type "OrderCancelReject" then
    order_id <- field unpacked ORDER_ID new_id ;;
    cancel_reject_time <- field unpacked REJECTED_TIME convert_string_to_datetime ;;
    cancel_reject_response <- field unpacked REJECTED_RESPONSE new_id ;;
    cancel_reject_reason <- field unpacked REJECTED_REASON new_id ;;
    Ok (OrderCancelReject order_id cancel_reject_time cancel_reject_response
          cancel_reject_reason event_id event_timestamp)
  else if str_eq event_type "OrderModified" then
    order_id <- field unpacked ORDER_ID new_id ;;
    order_id_broker <- field unpacked ORDER_ID_BROKER new_id ;;
    modified_price <- field unpacked MODIFIED_PRICE new_Price ;;
    modified_time <- field unpacked MODIFIED_TIME convert_string_to_datetime ;;
    Ok (OrderModified order_id order_id_broker modified_price modified_time
          event_id event_timestamp)
  else if str_eq event_type "OrderExpired" then
    order_id <- field unpacked ORDER_ID new_id ;;
    expired_time <- field unpacked EXPIRED_TIME convert_string_to_datetime ;;
    Ok (OrderExpired order_id expired_time event_id event_timestamp)
  else if str_eq event_type "OrderPartiallyFilled" then
    order_id <- field unpacked ORDER_ID new_id ;;
    execution_id <- field unpacked EXECUTION_ID new_id ;;
    execution_ticket <- field unpacked EXECUTION_TICKET new_id ;;
    symbol <- field unpacked SYMBOL parse_symbol ;;
    order_side <- field unpacked ORDER_SIDE OrderSide_item ;;
    filled_quantity <- field unpacked FILLED_QUANTITY new_Quantity ;;
    leaves_quantity <- field unpacked LEAVES_QUANTITY new_Quantity ;;
    average_price <- field unpacked AVERAGE_PRICE new_Price ;;
    execution_time <- field unpacked EXECUTION_TIME convert_string_to_datetime ;;
    Ok (OrderPartiallyFilled order_id execution_id execution_ticket symbol order_side
          filled_quantity leaves_quantity average_price execution_time
          event_id event_timestamp)
  else if str_eq event_type "OrderFilled" then
    order_id <- field unpacked ORDER_ID new_id ;;
    execution_id <- field unpacked EXECUTION_ID new_id ;;
    execution_ticket <- field unpacked EXECUTION_TICKET new_id ;;
    symbol <- field unpacked SYMBOL parse_symbol ;;
    order_side <- field unpacked ORDER_SIDE OrderSide_item ;;
    filled_quantity <- field unpacked FILLED_QUANTITY new_Quantity ;;
    average_price <- field unpacked AVERAGE_PRICE new_Price ;;
    execution_time <- field unpacked EXECUTION_TIME convert_string_to_datetime ;;
    Ok (OrderFilled order_id execution_id execution_ticket symbol order_side
          filled_quantity average_price execution_time event_id event_timestamp)
  else
    Raise (ValueError "Cannot deserialize event (unrecognized event).").

Definition deserialize (event_bytes : list byte) : result Event :=
  _ <- not_empty event_bytes "event_bytes" ;;
  v <- unpackb false event_bytes ;;
  unpacked <- as_dict v ;;
  from_unpacked unpacked.

End MsgPackEventSerializer.

(* ================================================================== *)
(** ** MsgPackInstrumentSerializer                                      *)
(* ================================================================== *)

Module MsgPackInstrumentSerializer.

Definition package (instrument : Instrument) : pydict :=
  assign [] [
    (ID, PyStr (value (Instrument.id instrument)));
    (SYMBOL, PyStr (value (Instrument.symbol instrument)));
    (BROKER_SYMBOL, PyStr (Instrument.broker_symbol instrument));
    (QUOTE_CURRENCY, PyStr (currency_string (Instrument.quote_currency instrument)));
    (SECURITY_TYPE, PyStr (security_type_string (Instrument.security_type instrument)));
    (TICK_PRECISION, PyInt (Instrument.tick_precision instrument));
    (TICK_SIZE, PyStr (decimal_text (Instrument.tick_size instrument)));
    (ROUND_LOT_SIZE, PyInt (quantity_value (Instrument.round_lot_size instrument)));
    (MIN_STOP_DISTANCE_ENTRY, PyInt (Instrument.min_stop_distance_entry instrument));
    (MIN_STOP_DISTANCE, PyInt (Instrument.min_stop_distance instrument));
    (MIN_LIMIT_DISTANCE_ENTRY, PyInt (Instrument.min_limit_distance_entry instrument));
    (MIN_LIMIT_DISTANCE, PyInt (Instrument.min_limit_distance instrument));
    (MIN_TRADE_SIZE, PyInt (quantity_value (Instrument.min_trade_size instrument)));
    (MAX_TRADE_SIZE, PyInt (quantity_value (Instrument.max_trade_size instrument)));
    (ROLL_OVER_INTEREST_BUY, PyStr (decimal_text (Instrument.rollover_interest_buy instrument)));
    (ROLL_OVER_INTEREST_SELL, PyStr (decimal_text (Instrument.rollover_interest_sell instrument)));
    (TIMESTAMP, PyStr (convert_datetime_to_string (Instrument.timestamp instrument)))].

Definition serialize (instrument : Instrument) : result (list byte) :=
  packb (PyDict (package instrument)).

Definition from_unpacked (unpacked : pydict) : result Instrument :=
  instrument_id <- field unpacked ID new_id ;;
  symbol <- field unpacked SYMBOL parse_symbol ;;
  broker_symbol <- getitem unpacked (AStr BROKER_SYMBOL) ;;
  quote_currency <- field unpacked QUOTE_CURRENCY Currency_item ;;
  security_type <- field unpacked SECURITY_TYPE SecurityType_item ;;
  tick_precision <- getitem unpacked (AStr TICK_PRECISION) ;;
  tick_size <- field unpacked TICK_SIZE new_Decimal ;;
  round_lot_size <- field unpacked ROUND_LOT_SIZE new_Quantity ;;
  min_stop_distance_entry <- getitem unpacked (AStr MIN_STOP_DISTANCE_ENTRY) ;;
  min_stop_distance <- getitem unpacked (AStr MIN_STOP_DISTANCE) ;;
  min_limit_distance_entry <- getitem unpacked (AStr MIN_LIMIT_DISTANCE_ENTRY) ;;
  min_limit_distance <- getitem unpacked (AStr MIN_LIMIT_DISTANCE) ;;
  min_trade_size <- field unpacked MIN_TRADE_SIZE new_Quantity ;;
  max_trade_size <- field unpacked MAX_TRADE_SIZE new_Quantity ;;
  rollover_interest_buy <- field unpacked ROLL_OVER_INTEREST_BUY new_Decimal ;;
  rollover_interest_sell <- field unpacked ROLL_OVER_INTEREST_SELL new_Decimal ;;
  timestamp <- field unpacked TIMESTAMP convert_string_to_datetime ;;
  Instrument.new instrument_id symbol broker_symbol quote_currency security_type
    tick_precision tick_size round_lot_size min_stop_distance_entry min_stop_distance
    min_limit_distance_entry min_limit_distance min_trade_size max_trade_size
    rollover_interest_buy rollover_interest_sell timestamp.

(** No precondition is checked here: the bytes go to the unpacker as
    they come. *)
Definition deserialize (instrument_bytes : list byte) : result Instrument :=
  v <- unpackb false instrument_bytes ;;
  unpacked <- as_dict v ;;
  from_unpacked unpacked.

End MsgPackInstrumentSerializer.


(* ================================================================== *)
(** ** ExecutionClient                                                  *)
(* ================================================================== *)

#[global] Instance Identifier_eq_dec (k : id_kind) : EqDecision (Identifier k).
Proof. solve_decision. Defined.

#[global] Instance Identifier_countable (k : id_kind) : Countable (Identifier k).
Proof. apply (inj_countable' value MkId). intros []; reflexivity. Defined.

Module ExecutionClient.

(** Modelled from the spec: the order lifecycle of section 4.1.
    [execution.pxd] declares the client's registries and methods; the
    bodies of [execute_command], [handle_event] and [_register_order]
    are in [execution.pyx], which follows the design document here. *)
Inductive OrderStatus : Type :=
| Initialized | Submitted | Accepted | Working | PartiallyFilled
| Filled | Rejected | Cancelled | Expired.

(** Modelled from the spec: the states no event leaves. *)
Definition terminal (s : OrderStatus) : bool :=
  match s with
  | Filled | Rejected | Cancelled | Expired => true
  | _ => false
  end.

(** Modelled from the spec: an order of the book, its definition and
    the state the applied events have accumulated. *)
Record BookEntry : Type := MkEntry {
  definition : Order;
  status : OrderStatus;
  filled : Z
}.

(** The client, with the fields [execution.pxd] declares (those the
    registries depend on). *)
Record t : Type := Mk {
  _registered_strategies : gset StrategyId;
  _order_strategy_index : gmap OrderId (StrategyId * PositionId);
  _order_book : gmap OrderId BookEntry;
  _orders_active : gmap OrderId Order;
  _orders_completed : gmap OrderId Order;
  event_count : nat
}.

(** Modelled from the spec: a new client has empty registries. *)
Definition init : t := Mk ∅ ∅ ∅ ∅ ∅ 0.

(** The order an event is about; an [AccountEvent] is about none. *)
Definition event_order_id (e : Event) : option OrderId :=
  match e with
  | AccountEvent _ _ _ _ _ _ _ _ _ _ _ _ _ => None
  | OrderInitialized i _ _ _ _ _ _ _ _ _ _ => Some i
  | OrderSubmitted i _ _ _ | OrderAccepted i _ _ _ | OrderCancelled i _ _ _
  | OrderExpired i _ _ _ => Some i
  | OrderRejected i _ _ _ _ => Some i
  | OrderWorking i _ _ _ _ _ _ _ _ _ _ _ _ => Some i
  | OrderCancelReject i _ _ _ _ _ => Some i
  | OrderModified i _ _ _ _ _ => Some i
  | OrderPartiallyFilled i _ _ _ _ _ _ _ _ _ _ => Some i
  | OrderFilled i _ _ _ _ _ _ _ _ _ => Some i
  end.

(** Modelled from the spec: the transition an event makes on an order
    (section 4.1), [None] when the lifecycle does not allow it there.  Partial fills accumulate; the
    order is filled when nothing is left. *)
Definition apply_event (o : BookEntry) (e : Event) : option BookEntry :=
  let total := quantity_value (Order.quantity (definition o)) in
  match e, status o with
  | OrderSubmitted _ _ _ _, Initialized => Some (MkEntry (definition o) Submitted (filled o))
  | OrderAccepted _ _ _ _, Submitted => Some (MkEntry (definition o) Accepted (filled o))
  | OrderRejected _ _ _ _ _, Submitted => Some (MkEntry (definition o) Rejected (filled o))
  | OrderWorking _ _ _ _ _ _ _ _ _ _ _ _ _, Accepted =>
    Some (MkEntry (definition o) Working (filled o))
  | OrderModified _ _ _ _ _ _, (Accepted | Working) => Some o
  | OrderCancelReject _ _ _ _ _ _, st => if terminal st then None else Some o
  | OrderCancelled _ _ _ _, (Accepted | Working | PartiallyFilled) =>
    Some (MkEntry (definition o) Cancelled (filled o))
  | OrderExpired _ _ _ _, Working => Some (MkEntry (definition o) Expired (filled o))
  | OrderPartiallyFilled _ _ _ _ _ q _ _ _ _ _, (Working | PartiallyFilled) =>
    let f := (filled o + quantity_value q)%Z in
    Some (MkEntry (definition o) (if (total - f <=? 0)%Z then Filled else PartiallyFilled) f)
  | OrderFilled _ _ _ _ _ _ _ _ _ _, (Working | PartiallyFilled) =>
    Some (MkEntry (definition o) Filled total)
  | _, _ => None
  end.

(** Modelled from the spec: [_register_order].  An identifier that is
    in the book is never
    assigned again; a new order enters the book, the index and the
    active registry.  [None] when the registration is refused. *)
Definition _register_order (self : t) (order : Order) (strategy_id : StrategyId)
    (position_id : PositionId) : option t :=
  match _order_book self !! Order.id order with
  | Some _ => None
  | None =>
    Some (Mk (_registered_strategies self)
             (<[Order.id order := (strategy_id, position_id)]> (_order_strategy_index self))
             (<[Order.id order := MkEntry order Initialized 0]> (_order_book self))
             (<[Order.id order := order]> (_orders_active self))
             (_orders_completed self)
             (event_count self))
  end.

(** Modelled from the spec: registers the orders in turn, stopping at
    the first refusal (the earlier ones stay registered). *)
Fixpoint register_orders (self : t) (orders : list Order) (strategy_id : StrategyId)
    (position_id : PositionId) : t :=
  match orders with
  | [] => self
  | o :: rest =>
    match _register_order self o strategy_id position_id with
    | Some self' => register_orders self' rest strategy_id position_id
    | None => self
    end
  end.

Definition present (o : option Order) : list Order :=
  match o with Some x => [x] | None => [] end.

(** Modelled from the spec: [execute_command].  The orders of a
    submission are registered
    before the command goes to the broker adapter; the adapter's
    handlers are abstract and own no registry. *)
Definition execute_command (self : t) (command : Command) : t :=
  match command with
  | SubmitOrder _ strategy_id position_id order _ _ =>
    register_orders self (present order) strategy_id position_id
  | SubmitAtomicOrder _ strategy_id position_id atomic _ _ =>
    register_orders self
      (present (entry atomic) ++ present (stop_loss atomic) ++ present (take_profit atomic))
      strategy_id position_id
  | CollateralInquiry _ _ | ModifyOrder _ _ _ _ _ _ | CancelOrder _ _ _ _ _ _ => self
  end.

(** Modelled from the spec: [handle_event].  An event for an unknown
    order, or one the
    lifecycle does not allow, is dropped; otherwise the transition is
    applied, and an order that became terminal moves from the active
    to the completed registry. *)
Definition handle_event (self : t) (event : Event) : t :=
  match event_order_id event with
  | None =>
    Mk (_registered_strategies self) (_order_strategy_index self) (_order_book self)
       (_orders_active self) (_orders_completed self) (S (event_count self))
  | Some order_id =>
    match _order_book self !! order_id with
    | None => self
    | Some o =>
      match apply_event o event with
      | None => self
      | Some o' =>
        if terminal (status o') then
          Mk (_registered_strategies self) (_order_strategy_index self)
             (<[order_id := o']> (_order_book self))
             (delete order_id (_orders_active self))
             (<[order_id := definition o']> (_orders_completed self))
             (S (event_count self))
        else
          Mk (_registered_strategies self) (_order_strategy_index self)
             (<[order_id := o']> (_order_book self))
             (_orders_active self) (_orders_completed self)
             (S (event_count self))
      end
    end
  end.

(** Modelled from the spec: the queries, read off the registries. *)
Definition order_exists (self : t) (order_id : OrderId) : bool :=
  bool_decide (is_Some (_order_book self !! order_id)).
Definition order_active (self : t) (order_id : OrderId) : bool :=
  bool_decide (is_Some (_orders_active self !! order_id)).
Definition order_complete (self : t) (order_id : OrderId) : bool :=
  bool_decide (is_Some (_orders_completed self !! order_id)).

(** What is applied to a client: a command or an event. *)
Inductive input : Type :=
| Execute (command : Command)
| Handle (event : Event).

Definition step (self : t) (i : input) : t :=
  match i with
  | Execute c => execute_command self c
  | Handle e => handle_event self e
  end.

Definition run (self : t) (inputs : list input) : t := fold_left step inputs self.

End ExecutionClient.

(* ================================================================== *)
(** ** Notions used to state the properties                             *)
(* ================================================================== *)

(** The entries of a map, packed one after the other (the inner loop of
    [pack]). *)
Fixpoint pack_entries (l : list (atom * pyval)) : result (list byte) :=
  match l with
  | [] => Ok []
  | (k, x) :: t =>
    bk <- pack_atom k ;; bx <- pack x ;; bt <- pack_entries t ;;
    Ok (bk ++ bx ++ bt)
  end.

(** The values the serializers put into a message: texts, integers and
    byte strings. *)
Definition flat (a : atom) : bool :=
  match a with
  | AInt _ | ABytes _ | AStr _ => true
  | _ => false
  end.

(** What [unpackb] gives back for a packed flat value: under
    [raw=True] a text comes back as its bytes, under [raw=False] a byte
    string comes back as text. *)
Definition wire_view (raw : bool) (a : atom) : atom :=
  match a with
  | AStr s => if raw then ABytes (utf8_encode s) else AStr s
  | ABytes p => if raw then ABytes p else AStr (string_of_list_byte p)
  | _ => a
  end.

(** ... provided that, under [raw=False], its bytes are UTF-8. *)
Definition readable (raw : bool) (a : atom) : bool :=
  match a with
  | AStr s => raw || is_text s
  | ABytes p => raw || utf8_valid p
  | _ => true
  end.

Definition flat_entry (raw : bool) (kv : atom * pyval) : bool :=
  match kv with
  | (k, PyAtom a) => flat k && readable raw k && flat a && readable raw a
  | _ => false
  end.

Definition view_entry (raw : bool) (kv : atom * pyval) : atom * pyval :=
  match kv with
  | (k, PyAtom a) => (wire_view raw k, PyAtom (wire_view raw a))
  | (k, v) => (wire_view raw k, v)
  end.

(** The map [unpackb] rebuilds from the entries of a packed flat map. *)
Definition reread (raw : bool) (d : pydict) : pydict :=
  fold_left (fun acc kv => setitem acc (fst (view_entry raw kv)) (snd (view_entry raw kv))) d [].

Definition keys (d : pydict) : list atom := map fst d.

(** *** Valid values

    A value is valid when its texts are texts (well-formed UTF-8, see
    [is_text]) and its identifiers, times and decimals have the form
    their constructors accept.  A label called [NONE] cannot be told
    from an absent one on the wire and is not a valid label. *)
Definition valid_id {k : id_kind} (i : Identifier k) : bool := is_text (value i).

Definition valid_guid (g : GUID) : bool := has_shape uuid_shape (guid_value g).

Definition valid_time (t : option datetime) : bool :=
  match t with
  | None => true
  | Some t => has_shape iso8601_shape (isoformat t)
  end.

Definition valid_price (p : Price) : bool := decimal_shape (price_text p).
Definition valid_money (m : Money) : bool := decimal_shape (money_text m).
Definition valid_decimal (d : Decimal) : bool := decimal_shape (decimal_text d).

Definition valid_opt {A : Type} (valid : A -> bool) (x : option A) : bool :=
  match x with
  | None => true
  | Some a => valid a
  end.

Definition valid_label (l : Label) : bool :=
  valid_id l && negb (String.eqb (value l) NONE).

Definition valid_order (o : Order) : bool :=
  valid_id (Order.id o) && valid_id (Order.symbol o) && valid_time (Order.timestamp o) &&
  valid_opt valid_price (Order.price o) && valid_opt valid_label (Order.label o) &&
  valid_time (Order.expire_time o) && valid_guid (Order.init_id o).

Definition valid_atomic_order (a : AtomicOrder) : bool :=
  valid_opt valid_order (entry a) && valid_opt valid_order (stop_loss a) &&
  valid_opt valid_order (take_profit a).

Definition valid_command (c : Command) : bool :=
  valid_guid (command_id_of c) && valid_time (command_timestamp_of c) &&
  match c with
  | CollateralInquiry _ _ => true
  | SubmitOrder trader_id strategy_id position_id order _ _ =>
    valid_id trader_id && valid_id strategy_id && valid_id position_id &&
    valid_opt valid_order order
  | SubmitAtomicOrder trader_id strategy_id position_id atomic_order _ _ =>
    valid_id trader_id && valid_id strategy_id && valid_id position_id &&
    valid_atomic_order atomic_order
  | ModifyOrder trader_id strategy_id order_id modified_price _ _ =>
    valid_id trader_id && valid_id strategy_id && valid_id order_id &&
    valid_price modified_price
  | CancelOrder trader_id strategy_id order_id cancel_reason _ _ =>
    valid_id trader_id && valid_id strategy_id && valid_id order_id &&
    valid_id cancel_reason
  end.

Definition valid_event (e : Event) : bool :=
  valid_guid (event_id_of e) && valid_time (event_timestamp_of e) &&
  match e with
  | AccountEvent order_id _ account_number _ cash_balance cash_start_day cash_activity_day
      margin_used_liquidation margin_used_maintenance margin_ratio margin_call_status _ _ =>
    valid_id order_id && valid_id account_number && valid_money cash_balance &&
    valid_money cash_start_day && valid_money cash_activity_day &&
    valid_money margin_used_liquidation && valid_money margin_used_maintenance &&
    valid_decimal margin_ratio && valid_id margin_call_status
  | OrderInitialized order_id symbol label _ _ _ price _ expire_time _ _ =>
    valid_id order_id && valid_id symbol && valid_id label && valid_price price &&
    valid_time expire_time
  | OrderSubmitted order_id time _ _ | OrderAccepted order_id time _ _
  | OrderCancelled order_id time _ _ | OrderExpired order_id time _ _ =>
    valid_id order_id && valid_time time
  | OrderRejected order_id rejected_time rejected_reason _ _ =>
    valid_id order_id && valid_time rejected_time && valid_id rejected_reason
  | OrderWorking order_id order_id_broker symbol label _ _ _ price _ working_time _ _
      expire_time =>
    valid_id order_id && valid_id order_id_broker && valid_id symbol && valid_id label &&
    valid_price price && valid_time working_time && valid_time expire_time
  | OrderCancelReject order_id cancel_reject_time cancel_reject_response
      cancel_reject_reason _ _ =>
    valid_id order_id && valid_time cancel_reject_time && valid_id cancel_reject_response &&
    valid_id cancel_reject_reason
  | OrderModified order_id order_id_broker modified_price modified_time _ _ =>
    valid_id order_id && valid_id order_id_broker && valid_price modified_price &&
    valid_time modified_time
  | OrderPartiallyFilled order_id execution_id execution_ticket symbol _ _ _ average_price
      execution_time _ _ =>
    valid_id order_id && valid_id execution_id && valid_id execution_ticket &&
    valid_id symbol && valid_price average_price && valid_time execution_time
  | OrderFilled order_id execution_id execution_ticket symbol _ _ average_price
      execution_time _ _ =>
    valid_id order_id && valid_id execution_id && valid_id execution_ticket &&
    valid_id symbol && valid_price average_price && valid_time execution_time
  end.

(** *** What decoding rebuilds

    A decoded order is built by the constructor, with the identifier
    the GUID factory hands out. *)
Definition rebuilt_order (new_guid : GUID) (o : option Order) : option Order :=
  option_map (Order.with_init_id new_guid) o.

Definition rebuilt (new_guid : nat -> GUID) (c : Command) : Command :=
  match c with
  | SubmitOrder trader_id strategy_id position_id order command_id command_timestamp =>
    SubmitOrder trader_id strategy_id position_id (rebuilt_order (new_guid 0%nat) order)
                command_id command_timestamp
  | SubmitAtomicOrder trader_id strategy_id position_id atomic command_id command_timestamp =>
    SubmitAtomicOrder trader_id strategy_id position_id
      (MkAtomicOrder (rebuilt_order (new_guid 0%nat) (entry atomic))
                     (rebuilt_order (new_guid 1%nat) (stop_loss atomic))
                     (rebuilt_order (new_guid 2%nat) (take_profit atomic)))
      command_id command_timestamp
  | _ => c
  end.

(** Characters of the 7-bit range, whose UTF-8 encoding is themselves. *)
Definition ascii7 (c : ascii) : bool := N_of_ascii c <? 128.

Fixpoint all_ascii7 (s : string) : bool :=
  match s with
  | EmptyString => true
  | String c s' => ascii7 c && all_ascii7 s'
  end.

Definition class_ascii7 (cl : char_class) : bool :=
  match cl with
  | Exactly c => ascii7 c
  | _ => true
  end.

(** An entry of a message read with [raw=False]: a text key with a text
    or an integer. *)
Definition text_entry (kv : atom * pyval) : bool :=
  match kv with
  | (AStr k, PyStr s) => is_text k && is_text s
  | (AStr k, PyInt _) => is_text k
  | _ => false
  end.

(** An entry of a command message: byte strings (the packed nested
    orders) under the four order keys and only there. *)
Definition command_entry (kv : atom * pyval) : bool :=
  match kv with
  | (AStr k, PyStr s) =>
    is_text k && is_text s && negb (MsgPackCommandSerializer.is_order_key (ABytes (b k)))
  | (AStr k, PyInt _) =>
    is_text k && negb (MsgPackCommandSerializer.is_order_key (ABytes (b k)))
  | (AStr k, PyBytes _) =>
    is_text k && MsgPackCommandSerializer.is_order_key (ABytes (b k))
  | _ => false
  end.

Definition str_key (kv : atom * pyval) : bool :=
  match kv with
  | (AStr _, _) => true
  | _ => false
  end.

(** What [MsgPackEventSerializer.deserialize] makes of a serialized
    event: the event itself, except that the margin call status of an
    [AccountEvent] is replaced by [NONE] and that an [OrderInitialized]
    is not recognized. *)
Definition decoded (e : Event) : result Event :=
  match e with
  | AccountEvent order_id broker account_number currency cash_balance cash_start_day
      cash_activity_day margin_used_liquidation margin_used_maintenance margin_ratio
      _ event_id event_timestamp =>
    Ok (AccountEvent order_id broker account_number currency cash_balance cash_start_day
          cash_activity_day margin_used_liquidation margin_used_maintenance margin_ratio
          (MkId "NONE") event_id event_timestamp)
  | OrderInitialized _ _ _ _ _ _ _ _ _ _ _ =>
    Raise (ValueError "Cannot deserialize event (unrecognized event).")
  | _ => Ok e
  end.

Fixpoint distinct (l : list atom) : bool :=
  match l with
  | [] => true
  | k :: t => negb (existsb (atom_eqb k) t) && distinct t
  end.

(** *** Round trips *)

Definition event_roundtrip (e : Event) : result Event :=
  bs <- MsgPackEventSerializer.serialize e ;;
  MsgPackEventSerializer.deserialize bs.

Definition command_roundtrip (new_guid : nat -> GUID) (c : Command) : result Command :=
  bs <- MsgPackCommandSerializer.serialize c ;;
  MsgPackCommandSerializer.deserialize new_guid bs.

(** *** Sample values *)

Definition sample_guid : GUID := MkGUID "3f2a6c1e-9b7d-4e25-8a41-5c0d9e7b1f02".
Definition other_guid : GUID := MkGUID "b81e4d7a-02c5-4f69-93aa-6e1f0c2d8b47".
Definition sample_time : option datetime := Some (MkDatetime "2019-01-15T09:30:00.000Z").

Definition sample_order : Order :=
  Order.Mk (MkId "O-19700101-000000-001-001-1") (MkId "AUDUSD.FXCM") BUY LIMIT
           (MkQuantity 100000) sample_time (Some (MkPrice "1.10000")) (Some (MkId "S1_E"))
           GTD sample_time sample_guid.

Definition sample_order_initialized : Event :=
  OrderInitialized (MkId "O-19700101-000000-001-001-1") (MkId "AUDUSD.FXCM") (MkId "S1_E")
    BUY LIMIT (MkQuantity 100000) (MkPrice "1.10000") GTD sample_time sample_guid sample_time.

Definition sample_account_event : Event :=
  AccountEvent (MkId "FXCM-D102412895") FXCM (MkId "D102412895") AUD (MkMoney "100000.00")
    (MkMoney "100000.00") (MkMoney "0.00") (MkMoney "0.00") (MkMoney "0.00")
    (MkDecimal "0.00") (MkId "MARGIN_CALL") sample_guid sample_time.

Definition sample_order_filled : Event :=
  OrderFilled (MkId "O-19700101-000000-001-001-1") (MkId "E-7") (MkId "T-7")
    (MkId "AUDUSD.FXCM") SELL (MkQuantity 100000) (MkPrice "1.10000")
    sample_time sample_guid sample_time.

Definition sample_submit_order : Command :=
  SubmitOrder (MkId "Trader-001") (MkId "Strategy-001") (MkId "P-1") (Some sample_order)
              sample_guid sample_time.

Definition sample_atomic_order : Command :=
  SubmitAtomicOrder (MkId "Trader-001") (MkId "Strategy-001") (MkId "P-1")
    (MkAtomicOrder (Some sample_order) None None) sample_guid sample_time.

Definition margin_call_status_of (e : Event) : option ValidString :=
  match e with
  | AccountEvent _ _ _ _ _ _ _ _ _ _ status _ _ => Some status
  | _ => None
  end.

Definition order_of (c : Command) : option Order :=
  match c with
  | SubmitOrder _ _ _ order _ _ => order
  | _ => None
  end.

Definition atomic_order_of (c : Command) : option AtomicOrder :=
  match c with
  | SubmitAtomicOrder _ _ _ atomic_order _ _ => Some atomic_order
  | _ => None
  end.

(** The bytes of a message that is known to pack. *)
Definition bytes_of (r : result (list byte)) : list byte :=
  match r with
  | Ok bs => bs
  | Raise _ => []
  end.

Definition sample_atomic_bytes : list byte :=
  bytes_of (MsgPackCommandSerializer.serialize sample_atomic_order).

(** *** Reading a buffer's fields *)

(** The text a command buffer carries under [key] ([raw=True]: the
    bytes there, decoded). *)
Definition command_field (bs : list byte) (key : string) : option string :=
  match unpackb true bs with
  | Ok (PyDict d) =>
    match dict_get d (ABytes (b key)) with
    | Some (PyBytes t) =>
      match utf8_decode t with
      | Ok s => Some s
      | Raise _ => None
      end
    | _ => None
    end
  | _ => None
  end.

(** The text an event buffer carries under [key] ([raw=False]). *)
Definition event_field (bs : list byte) (key : string) : option string :=
  match unpackb false bs with
  | Ok (PyDict d) =>
    match dict_get d (AStr key) with
    | Some (PyStr s) => Some s
    | _ => None
    end
  | _ => None
  end.

(** The variant names each deserializer has a branch for. *)
Definition command_names : list string :=
  [COLLATERAL_INQUIRY; SUBMIT_ORDER; SUBMIT_ATOMIC_ORDER; MODIFY_ORDER; CANCEL_ORDER].

Definition event_names : list string :=
  ["AccountEvent"; "OrderSubmitted"; "OrderAccepted"; "OrderRejected"; "OrderWorking";
   "OrderCancelled"; "OrderCancelReject"; "OrderModified"; "OrderExpired";
   "OrderPartiallyFilled"; "OrderFilled"]%string.

(** The identifier and the timestamp of the message are there and well
    formed (for a command: after the decoding loop went through). *)
Definition command_header_ok (bs : list byte) : bool :=
  match unpackb true bs with
  | Ok (PyDict d) =>
    match MsgPackCommandSerializer.decode_items d [] with
    | Ok u =>
      returns (field u COMMAND_ID GUID_of_UUID) &&
      returns (field u COMMAND_TIMESTAMP convert_string_to_datetime)
    | Raise _ => false
    end
  | _ => false
  end.

Definition event_header_ok (bs : list byte) : bool :=
  match unpackb false bs with
  | Ok (PyDict d) =>
    returns (field d EVENT_ID GUID_of_UUID) &&
    returns (field d EVENT_TIMESTAMP convert_string_to_datetime)
  | _ => false
  end.

(** What the decoding loop of the command deserializer stores for a
    value [v] found under the key [k]. *)
Definition decoded_value (k : atom) (v : pyval) : pyval :=
  if MsgPackCommandSerializer.is_order_key k then v
  else
    match v with
    | PyBytes vb => PyStr (string_of_list_byte vb)
    | _ => v
    end.

Definition is_bytes (v : pyval) : bool :=
  match v with
  | PyBytes _ => true
  | _ => false
  end.

(** A command message with an unknown variant name, and one without
    identifier and timestamp. *)
Definition bogus_command : pydict :=
  assign [] [
    (TYPE, PyStr COMMAND);
    (COMMAND_ID, PyStr (guid_value sample_guid));
    (COMMAND_TIMESTAMP, PyStr (convert_datetime_to_string sample_time));
    (COMMAND, PyStr "LiquidateAll")].

Definition bogus_command_bytes : list byte := bytes_of (packb (PyDict bogus_command)).

Definition headless_command_bytes : list byte :=
  bytes_of (packb (PyDict (assign [] [(TYPE, PyStr COMMAND); (COMMAND, PyStr "LiquidateAll")]))).

Definition sample_order_initialized_bytes : list byte :=
  bytes_of (MsgPackEventSerializer.serialize sample_order_initialized).

Definition sample_submit_order_bytes : list byte :=
  bytes_of (MsgPackCommandSerializer.serialize sample_submit_order).

Definition dict_of (r : result pyval) : pydict :=
  match r with
  | Ok (PyDict d) => d
  | _ => []
  end.

Definition sample_unpacked_raw : pydict := dict_of (unpackb true sample_submit_order_bytes).

Definition sample_unpacked : pydict :=
  match MsgPackCommandSerializer.decode_items sample_unpacked_raw [] with
  | Ok u => u
  | Raise _ => []
  end.

Definition sample_order_bytes : list byte :=
  bytes_of (MsgPackOrderSerializer.serialize (Some sample_order)).

Definition order_names : list string := [ORDER; ENTRY; STOP_LOSS; TAKE_PROFIT].

(** *** The messages of the codec layer and their numeric fields *)

Inductive message : Type :=
| OrderMessage (order : Order)
| CommandMessage (command : Command)
| EventMessage (event : Event)
| InstrumentMessage (instrument : Instrument).

(** The map a serializer packs for a message. *)
Definition package_of (m : message) : result pydict :=
  match m with
  | OrderMessage o => Ok (MsgPackOrderSerializer.package o)
  | CommandMessage c => MsgPackCommandSerializer.package c
  | EventMessage e => Ok (MsgPackEventSerializer.package e)
  | InstrumentMessage i => Ok (MsgPackInstrumentSerializer.package i)
  end.

Definition serialize_message (m : message) : result (list byte) :=
  match m with
  | OrderMessage o => MsgPackOrderSerializer.serialize (Some o)
  | CommandMessage c => MsgPackCommandSerializer.serialize c
  | EventMessage e => MsgPackEventSerializer.serialize e
  | InstrumentMessage i => MsgPackInstrumentSerializer.serialize i
  end.

Definition quantity_names : list string := [QUANTITY; FILLED_QUANTITY; LEAVES_QUANTITY].

Definition decimal_names : list string :=
  [PRICE; MODIFIED_PRICE; AVERAGE_PRICE; CASH_BALANCE; CASH_START_DAY; CASH_ACTIVITY_DAY;
   MARGIN_USED_LIQUIDATION; MARGIN_USED_MAINTENANCE].

(** The quantities of a message, by the name of their field. *)
Definition quantities_of (m : message) : list (string * Quantity) :=
  match m with
  | OrderMessage o => [(QUANTITY, Order.quantity o)]
  | EventMessage (OrderInitialized _ _ _ _ _ quantity _ _ _ _ _) => [(QUANTITY, quantity)]
  | EventMessage (OrderWorking _ _ _ _ _ _ quantity _ _ _ _ _ _) => [(QUANTITY, quantity)]
  | EventMessage (OrderPartiallyFilled _ _ _ _ _ filled leaves _ _ _ _) =>
    [(FILLED_QUANTITY, filled); (LEAVES_QUANTITY, leaves)]
  | EventMessage (OrderFilled _ _ _ _ _ filled _ _ _ _) => [(FILLED_QUANTITY, filled)]
  | _ => []
  end.

(** The prices and amounts of money of a message, as the decimal text
    [str] gives, by the name of their field. *)
Definition decimals_of (m : message) : list (string * string) :=
  match m with
  | OrderMessage o =>
    match Order.price o with
    | Some p => [(PRICE, price_text p)]
    | None => []
    end
  | CommandMessage (ModifyOrder _ _ _ modified_price _ _) =>
    [(MODIFIED_PRICE, price_text modified_price)]
  | EventMessage (AccountEvent _ _ _ _ cash_balance cash_start_day cash_activity_day
                    margin_used_liquidation margin_used_maintenance _ _ _ _) =>
    [(CASH_BALANCE, money_text cash_balance); (CASH_START_DAY, money_text cash_start_day);
     (CASH_ACTIVITY_DAY, money_text cash_activity_day);
     (MARGIN_USED_LIQUIDATION, money_text margin_used_liquidation);
     (MARGIN_USED_MAINTENANCE, money_text margin_used_maintenance)]
  | EventMessage (OrderInitialized _ _ _ _ _ _ price _ _ _ _) => [(PRICE, price_text price)]
  | EventMessage (OrderWorking _ _ _ _ _ _ _ price _ _ _ _ _) => [(PRICE, price_text price)]
  | EventMessage (OrderModified _ _ modified_price _ _ _) =>
    [(MODIFIED_PRICE, price_text modified_price)]
  | EventMessage (OrderPartiallyFilled _ _ _ _ _ _ _ average_price _ _ _) =>
    [(AVERAGE_PRICE, price_text average_price)]
  | EventMessage (OrderFilled _ _ _ _ _ _ average_price _ _ _) =>
    [(AVERAGE_PRICE, price_text average_price)]
  | _ => []
  end.

Definition is_int (v : pyval) : bool :=
  match v with PyInt _ => true | _ => false end.
Definition is_str (v : pyval) : bool :=
  match v with PyStr _ => true | _ => false end.
Definition is_float (v : pyval) : bool :=
  match v with PyAtom (AFloat _) => true | _ => false end.

Definition named (names : list string) (k : atom) : bool :=
  match k with
  | AStr s => existsb (String.eqb s) names
  | _ => false
  end.

(** Under a quantity name there is an integer, under a price or money
    name a text, and nowhere a float. *)
Definition numeric_fields_ok (d : pydict) : bool :=
  forallb (fun kv =>
             implb (named quantity_names (fst kv)) (is_int (snd kv)) &&
             implb (named decimal_names (fst kv)) (is_str (snd kv)) &&
             negb (is_float (snd kv))) d.

(** The first byte of a packed item announces an integer. *)
Definition integer_on_wire (bs : list byte) (z : Z) : Prop :=
  forall rest, read_head (bs ++ rest) = Ok (HVal (AInt z), rest).

(** The packed item is a raw string holding exactly the text. *)
Definition text_on_wire (bs : list byte) (s : string) : Prop :=
  exists hdr, bs = hdr ++ utf8_encode s /\
              forall rest, read_head (hdr ++ rest)
                           = Ok (HRaw (N.of_nat (length (utf8_encode s))), rest).

Definition sample_order_filled_bytes : list byte :=
  bytes_of (MsgPackEventSerializer.serialize sample_order_filled).

(** *** The registries of the execution client *)

(** The active and the completed registry share no order, and both hold
    orders of the book only. *)
Definition registries_ok (s : ExecutionClient.t) : Prop :=
  dom (ExecutionClient._orders_active s) ## dom (ExecutionClient._orders_completed s) /\
  dom (ExecutionClient._orders_active s) ⊆ dom (ExecutionClient._order_book s) /\
  dom (ExecutionClient._orders_completed s) ⊆ dom (ExecutionClient._order_book s).

(** *** What the packer accepts *)

(** A flat value [packb] accepts: an integer of at most 64 bits, a text
    or a byte string shorter than 2^32 bytes. *)
Definition packable (a : atom) : bool :=
  match a with
  | AInt z => ((-9223372036854775808 <=? z) && (z <? 18446744073709551616))%Z
  | AStr s => N.of_nat (length (utf8_encode s)) <? 4294967296
  | ABytes p => N.of_nat (length p) <? 4294967296
  | _ => false
  end.

Definition packable_entry (kv : atom * pyval) : bool :=
  match kv with
  | (k, PyAtom a) => packable k && packable a
  | _ => false
  end.

Definition packable_dict (d : pydict) : bool :=
  (N.of_nat (length d) <? 4294967296) && forallb packable_entry d.

(** *** Instruments and the fields a deserializer reads *)

Definition valid_instrument (i : Instrument) : bool :=
  valid_id (Instrument.id i) && valid_id (Instrument.symbol i) &&
  is_text (Instrument.broker_symbol i) && valid_decimal (Instrument.tick_size i) &&
  valid_decimal (Instrument.rollover_interest_buy i) &&
  valid_decimal (Instrument.rollover_interest_sell i) &&
  valid_time (Instrument.timestamp i).

Definition instrument_roundtrip (i : Instrument) : result Instrument :=
  bs <- MsgPackInstrumentSerializer.serialize i ;;
  MsgPackInstrumentSerializer.deserialize bs.

(** The keys [MsgPackOrderSerializer.deserialize] looks up, in the
    order of the constructor's arguments. *)
Definition order_field_names : list string :=
  [ID; SYMBOL; ORDER_SIDE; ORDER_TYPE; QUANTITY; TIMESTAMP; PRICE; LABEL; TIME_IN_FORCE;
   EXPIRE_TIME].

(** The keys [MsgPackInstrumentSerializer.deserialize] looks up. *)
Definition instrument_field_names : list string :=
  [ID; SYMBOL; BROKER_SYMBOL; QUOTE_CURRENCY; SECURITY_TYPE; TICK_PRECISION; TICK_SIZE;
   ROUND_LOT_SIZE; MIN_STOP_DISTANCE_ENTRY; MIN_STOP_DISTANCE; MIN_LIMIT_DISTANCE_ENTRY;
   MIN_LIMIT_DISTANCE; MIN_TRADE_SIZE; MAX_TRADE_SIZE; ROLL_OVER_INTEREST_BUY;
   ROLL_OVER_INTEREST_SELL; TIMESTAMP].

(** The name [MsgPackCommandSerializer.serialize] writes under
    [Command]. *)
Definition command_name (c : Command) : string :=
  match c with
  | CollateralInquiry _ _ => COLLATERAL_INQUIRY
  | SubmitOrder _ _ _ _ _ _ => SUBMIT_ORDER
  | SubmitAtomicOrder _ _ _ _ _ _ => SUBMIT_ATOMIC_ORDER
  | ModifyOrder _ _ _ _ _ _ => MODIFY_ORDER
  | CancelOrder _ _ _ _ _ _ => CANCEL_ORDER
  end.

(** The commands whose message holds packed orders. *)
Definition carries_orders (c : Command) : bool :=
  match c with
  | SubmitOrder _ _ _ _ _ _ | SubmitAtomicOrder _ _ _ _ _ _ => true
  | _ => false
  end.

(** The map a buffer holds, as each deserializer unpacks it. *)
Definition unpacked_map (raw : bool) (bs : list byte) : option pydict :=
  match unpackb raw bs with
  | Ok (PyDict d) => Some d
  | _ => None
  end.

Definition sample_instrument : Instrument :=
  Instrument.Mk (MkId "AUDUSD.FXCM") (MkId "AUDUSD.FXCM") "AUD/USD" USD FOREX 5
    (MkDecimal "0.00001") (MkQuantity 1000) 0 0 0 0 (MkQuantity 1) (MkQuantity 50000000)
    (MkDecimal "0.25") (MkDecimal "-1.30") sample_time.

Definition sample_instrument_bytes : list byte :=
  bytes_of (MsgPackInstrumentSerializer.serialize sample_instrument).

Definition sample_modify_order : Command :=
  ModifyOrder (MkId "Trader-001") (MkId "Strategy-001") (MkId "O-19700101-000000-001-001-1")
    (MkPrice "1.10500") sample_guid sample_time.

Definition sample_order_filled_message : pydict :=
  MsgPackEventSerializer.package sample_order_filled.

(** A message that has a symbol and nothing else. *)
Definition symbol_only_bytes : list byte :=
  bytes_of (packb (PyDict (assign [] [(SYMBOL, PyStr "AUDUSD.FXCM")]))).

(** A value that is not a text. *)
Definition not_str (v : pyval) : bool :=
  match v with
  | PyStr _ => false
  | _ => true
  end.

Definition sample_modify_order_bytes : list byte :=
  bytes_of (MsgPackCommandSerializer.serialize sample_modify_order).

Definition sample_instrument_message : pydict :=
  MsgPackInstrumentSerializer.package sample_instrument.

(** *** The four codecs *)

Inductive codec : Type := OrderCodec | CommandCodec | EventCodec | InstrumentCodec.

(** The serializer a message comes from. *)
Definition codec_of (m : message) : codec :=
  match m with
  | OrderMessage _ => OrderCodec
  | CommandMessage _ => CommandCodec
  | EventMessage _ => EventCodec
  | InstrumentMessage _ => InstrumentCodec
  end.

Definition valid_message (m : message) : bool :=
  match m with
  | OrderMessage o => valid_order o
  | CommandMessage c => valid_command c
  | EventMessage e => valid_event e
  | InstrumentMessage i => valid_instrument i
  end.

(** The deserializer of a codec returns something for the buffer. *)
Definition accepts (k : codec) (new_guid : nat -> GUID) (bs : list byte) : bool :=
  match k with
  | OrderCodec => returns (MsgPackOrderSerializer.deserialize (new_guid 0%nat) bs)
  | CommandCodec => returns (MsgPackCommandSerializer.deserialize new_guid bs)
  | EventCodec => returns (MsgPackEventSerializer.deserialize bs)
  | InstrumentCodec => returns (MsgPackInstrumentSerializer.deserialize bs)
  end.

(** An entry as the serializers write it: a text key with a text or an
    integer, or, under one of the four order keys of a command, with
    the bytes of a packed order. *)
Definition keyed_entry (kv : atom * pyval) : bool :=
  match kv with
  | (AStr k, PyStr _) => negb (MsgPackCommandSerializer.is_order_key (ABytes (b k)))
  | (AStr k, PyInt _) => true
  | (AStr k, PyBytes _) => MsgPackCommandSerializer.is_order_key (ABytes (b k))
  | _ => false
  end.

(** How the deserializer of a codec calls [msgpack.unpackb]: the
    command deserializer leaves [raw] at its default, the other three
    pass [raw=False]. *)
Definition raw_of (k : codec) : bool :=
  match k with
  | CommandCodec => true
  | _ => false
  end.

(** The keys [MsgPackEventSerializer.deserialize] looks up, over all
    its branches. *)
Definition event_field_names : list string :=
  [TYPE; EVENT; EVENT_ID; EVENT_TIMESTAMP; ACCOUNT_ID; BROKER; ACCOUNT_NUMBER; CURRENCY;
   CASH_BALANCE; CASH_START_DAY; CASH_ACTIVITY_DAY; MARGIN_USED_LIQUIDATION;
   MARGIN_USED_MAINTENANCE; MARGIN_RATIO; ORDER_ID; SUBMITTED_TIME; ACCEPTED_TIME;
   REJECTED_TIME; REJECTED_REASON; ORDER_ID_BROKER; SYMBOL; LABEL; ORDER_SIDE; ORDER_TYPE;
   QUANTITY; PRICE; TIME_IN_FORCE; WORKING_TIME; EXPIRE_TIME; CANCELLED_TIME;
   REJECTED_RESPONSE; MODIFIED_PRICE; MODIFIED_TIME; EXPIRED_TIME; EXECUTION_ID;
   EXECUTION_TICKET; FILLED_QUANTITY; LEAVES_QUANTITY; AVERAGE_PRICE; EXECUTION_TIME].

(** Two maps hold the same under each of the keys. *)
Definition agree_on (names : list string) (d1 d2 : pydict) : Prop :=
  forall k, In k names -> dict_get d1 (AStr k) = dict_get d2 (AStr k).

(** The sample order written with another initialization identifier. *)
Definition reissued_order_bytes : list byte :=
  bytes_of (MsgPackOrderSerializer.serialize (Some (Order.with_init_id other_guid sample_order))).

(* ================================================================== *)
(** * Properties                                                        *)
(* ================================================================== *)

(** ** The result monad *)

Lemma bind_Ok {A B : Type} (m : result A) (k : A -> result B) (y : B) :
  bind m k = Ok y -> exists x, m = Ok x /\ k x = Ok y.
Proof. destruct m as [x|e]; simpl; [eauto | discriminate]. Qed.

Lemma bind_returns {A B : Type} (m : result A) (k : A -> result B) :
  returns m = false -> returns (bind m k) = false.
Proof. destruct m; simpl; congruence. Qed.

Ltac inv_bind H :=
  let x := fresh "x" in
  let H1 := fresh H in
  apply bind_Ok in H; destruct H as (x & H1 & H).

(** ** Bytes and big-endian numbers *)

Lemma to_N_byte_of_N (n : N) : Byte.to_N (byte_of_N n) = n mod 256.
Proof.
  unfold byte_of_N. destruct (Byte.of_N (n mod 256)) as [c|] eqn:E.
  - now apply Byte.to_of_N.
  - apply Byte.of_N_None_iff in E.
    pose proof (N.mod_upper_bound n 256). lia.
Qed.

Lemma to_N_lt (c : byte) : Byte.to_N c < 256.
Proof. pose proof (Byte.to_N_bounded c). lia. Qed.

Lemma length_be_bytes (w : nat) (n : N) : length (be_bytes w n) = w.
Proof.
  revert n. induction w as [|w IH]; intros n; simpl; [reflexivity|].
  rewrite length_app, IH. simpl. lia.
Qed.

Lemma be_value_from_app (acc : N) (l1 l2 : list byte) :
  be_value_from acc (l1 ++ l2) = be_value_from (be_value_from acc l1) l2.
Proof. revert acc. induction l1 as [|c l1 IH]; intros acc; simpl; [reflexivity | apply IH]. Qed.

Lemma be_value_from_be_bytes (w : nat) (acc n : N) :
  be_value_from acc (be_bytes w n) = acc * 256 ^ N.of_nat w + n mod 256 ^ N.of_nat w.
Proof.
  revert acc n. induction w as [|w IH]; intros acc n.
  - simpl. rewrite N.mod_1_r. lia.
  - cbn [be_bytes]. rewrite be_value_from_app, IH. cbn [be_value_from].
    rewrite to_N_byte_of_N.
    replace (N.of_nat (S w)) with (N.succ (N.of_nat w)) by lia.
    rewrite N.pow_succ_r'.
    set (p := 256 ^ N.of_nat w).
    assert (Hp : p <> 0) by (apply N.pow_nonzero; lia).
    rewrite N.Div0.mod_mul_r. lia.
Qed.

Lemma be_value_be_bytes (w : nat) (n : N) :
  n < 256 ^ N.of_nat w -> be_value (be_bytes w n) = n.
Proof.
  intros H. unfold be_value. rewrite be_value_from_be_bytes, N.mod_small by assumption. lia.
Qed.

Lemma take_bytes_app (p rest : list byte) :
  take_bytes (N.of_nat (length p)) (p ++ rest) = Some (p, rest).
Proof.
  unfold take_bytes. rewrite length_app, Nat2N.id.
  destruct (N.leb_spec (N.of_nat (length p)) (N.of_nat (length p + length rest))); [|lia].
  f_equal. f_equal.
  - rewrite firstn_app, Nat.sub_diag, firstn_all. simpl. apply app_nil_r.
  - rewrite skipn_app, Nat.sub_diag, skipn_all. reflexivity.
Qed.

Lemma read_uint_be_bytes (w : nat) (n : N) (rest : list byte) :
  n < 256 ^ N.of_nat w ->
  read_uint (N.of_nat w) (be_bytes w n ++ rest) = Ok (n, rest).
Proof.
  intros H. unfold read_uint.
  rewrite <- (length_be_bytes w n) at 1. rewrite take_bytes_app.
  now rewrite be_value_be_bytes.
Qed.

Lemma read_sint_twos (w : nat) (z : Z) (rest : list byte) :
  (0 < w)%nat ->
  (- 2 ^ (8 * Z.of_nat w - 1) <= z < 2 ^ (8 * Z.of_nat w - 1))%Z ->
  read_sint (N.of_nat w) (twos w z ++ rest) = Ok (z, rest).
Proof.
  intros Hw Hz. unfold read_sint, twos.
  rewrite <- (length_be_bytes w (Z.to_N (z mod 2 ^ (8 * Z.of_nat w)))) at 1.
  rewrite take_bytes_app.
  set (M := (2 ^ (8 * Z.of_nat w))%Z).
  set (h := (2 ^ (8 * Z.of_nat w - 1))%Z) in *.
  assert (HM : (M = 2 * h)%Z).
  { unfold M, h. rewrite <- Z.pow_succ_r by lia. f_equal. lia. }
  assert (Hh : (0 < h)%Z) by (apply Z.pow_pos_nonneg; lia).
  assert (Hmod : (0 <= z mod M < M)%Z) by (apply Z.mod_pos_bound; lia).
  assert (HMN : Z.of_N (256 ^ N.of_nat w) = M).
  { rewrite N2Z.inj_pow, nat_N_Z. unfold M. rewrite Z.pow_mul_r by lia. reflexivity. }
  rewrite be_value_be_bytes by lia.
  rewrite Z2N.id by lia.
  replace (8 * Z.of_N (N.of_nat w) - 1)%Z with (8 * Z.of_nat w - 1)%Z by lia.
  fold h.
  f_equal. f_equal.
  destruct (Z.ltb_spec (z mod M) h) as [Hlt|Hge].
  - destruct (Z_lt_le_dec z 0) as [Hneg|Hpos].
    + exfalso. assert (z mod M = z + M)%Z.
      { symmetry. apply Z.mod_unique_pos with (q := (-1)%Z); lia. }
      lia.
    + apply Z.mod_small. lia.
  - destruct (Z_lt_le_dec z 0) as [Hneg|Hpos].
    + assert (z mod M = z + M)%Z.
      { symmetry. apply Z.mod_unique_pos with (q := (-1)%Z); lia. }
      lia.
    + exfalso. rewrite Z.mod_small in Hge; lia.
Qed.

(** ** Reading back what the packer wrote *)

Lemma unpack_obj_S (raw : bool) (f : nat) (bs : list byte) :
  unpack_obj raw (S f) bs =
  (hr <- read_head bs ;;
   match fst hr with
   | HVal a => Ok (PyAtom a, snd hr)
   | HRaw n =>
     match take_bytes n (snd hr) with
     | Some (p, rest) => v <- raw_value raw p ;; Ok (v, rest)
     | None => Raise UnpackError
     end
   | HBin n =>
     match take_bytes n (snd hr) with
     | Some (p, rest) => Ok (PyBytes p, rest)
     | None => Raise UnpackError
     end
   | HFloat w =>
     match take_bytes w (snd hr) with
     | Some (p, rest) => Ok (PyAtom (AFloat p), rest)
     | None => Raise UnpackError
     end
   | HExt n =>
     match snd hr with
     | code :: after =>
       match take_bytes n after with
       | Some (p, rest) => Ok (PyAtom (AExt code p), rest)
       | None => Raise UnpackError
       end
     | [] => Raise UnpackError
     end
   | HArray n => unpack_array raw f n (snd hr) []
   | HMap n => unpack_map raw f n (snd hr) []
   end).
Proof. reflexivity. Qed.

Lemma unpack_map_S (raw : bool) (f : nat) (n : N) (bs : list byte) (acc : pydict) :
  unpack_map raw (S f) n bs acc =
  if n =? 0 then Ok (PyDict acc, bs)
  else
    k <- unpack_obj raw f bs ;;
    x <- unpack_obj raw f (snd k) ;;
    key <- as_key (fst k) ;;
    unpack_map raw f (n - 1) (snd x) (setitem acc key (fst x)).
Proof. reflexivity. Qed.

Lemma unpack_array_S (raw : bool) (f : nat) (n : N) (bs : list byte) (acc : list pyval) :
  unpack_array raw (S f) n bs acc =
  if n =? 0 then Ok (PyList (rev acc), bs)
  else
    x <- unpack_obj raw f bs ;;
    unpack_array raw f (n - 1) (snd x) (fst x :: acc).
Proof. reflexivity. Qed.

Lemma read_head_small (c : byte) (rest : list byte) (h : head) :
  (let t := Byte.to_N c in
   if t <? 0x80 then HVal (AInt (Z.of_N t))
   else if t <? 0x90 then HMap (t - 0x80)
   else if t <? 0xa0 then HArray (t - 0x90)
   else if t <? 0xc0 then HRaw (t - 0xa0)
   else HVal (AInt (Z.of_N t - 256))) = h ->
  (Byte.to_N c <? 0xc0) || (0xe0 <=? Byte.to_N c) = true ->
  read_head (c :: rest) = Ok (h, rest).
Proof.
  intros <- Hc. unfold read_head. cbv zeta.
  destruct (Byte.to_N c <? 128); [reflexivity|].
  destruct (Byte.to_N c <? 144); [reflexivity|].
  destruct (Byte.to_N c <? 160); [reflexivity|].
  destruct (Byte.to_N c <? 192); [reflexivity|].
  simpl in Hc. rewrite Hc. reflexivity.
Qed.

Lemma read_head_with_length (c : byte) (mk : N -> head) (w : nat) (n : N) (rest : list byte) :
  (forall r, read_head (c :: r) = with_length mk (N.of_nat w) r) ->
  n < 256 ^ N.of_nat w ->
  read_head (c :: be_bytes w n ++ rest) = Ok (mk n, rest).
Proof.
  intros Hc Hn. rewrite Hc. unfold with_length.
  rewrite read_uint_be_bytes by assumption. reflexivity.
Qed.

Lemma read_head_fix (base l : N) (mk : N -> head) (rest : list byte) :
  base + l < 192 ->
  (let t := base + l in
   if t <? 0x80 then HVal (AInt (Z.of_N t))
   else if t <? 0x90 then HMap (t - 0x80)
   else if t <? 0xa0 then HArray (t - 0x90)
   else HRaw (t - 0xa0)) = mk l ->
  read_head (byte_of_N (base + l) :: rest) = Ok (mk l, rest).
Proof.
  intros Hlt Hmk.
  assert (Hb : Byte.to_N (byte_of_N (base + l)) = base + l).
  { rewrite to_N_byte_of_N. apply N.mod_small. lia. }
  apply read_head_small.
  - cbv zeta in *. rewrite Hb, <- Hmk.
    destruct (N.ltb_spec (base + l) 192); [|lia].
    repeat match goal with |- context [?a <? ?c] => destruct (N.ltb_spec a c); try lia end;
      reflexivity.
  - rewrite Hb. destruct (N.ltb_spec (base + l) 192); [reflexivity|lia].
Qed.

Lemma read_head_raw (l : N) (hdr rest : list byte) :
  pack_raw_header l = Ok hdr -> read_head (hdr ++ rest) = Ok (HRaw l, rest).
Proof.
  unfold pack_raw_header.
  destruct (N.ltb_spec l 32) as [H32|H32].
  { intros [= <-]. apply (read_head_fix 160 l HRaw); [lia|].
    cbv zeta.
    repeat match goal with |- context [?a <? ?c] => destruct (N.ltb_spec a c); try lia end.
    f_equal. lia. }
  destruct (N.ltb_spec l 65536) as [H16|H16].
  { intros [= <-]. apply (read_head_with_length xda HRaw 2); [reflexivity | simpl; lia]. }
  destruct (N.ltb_spec l 4294967296) as [H4|H4]; [|discriminate].
  intros [= <-]. apply (read_head_with_length xdb HRaw 4); [reflexivity | simpl; lia].
Qed.

Lemma read_head_map (n : N) (hdr rest : list byte) :
  pack_map_header n = Ok hdr -> read_head (hdr ++ rest) = Ok (HMap n, rest).
Proof.
  unfold pack_map_header.
  destruct (N.ltb_spec n 16) as [H32|H32].
  { intros [= <-]. apply (read_head_fix 128 n HMap); [lia|].
    cbv zeta.
    repeat match goal with |- context [?a <? ?c] => destruct (N.ltb_spec a c); try lia end.
    f_equal. lia. }
  destruct (N.ltb_spec n 65536) as [H16|H16].
  { intros [= <-]. apply (read_head_with_length xde HMap 2); [reflexivity | simpl; lia]. }
  destruct (N.ltb_spec n 4294967296) as [H4|H4]; [|discriminate].
  intros [= <-]. apply (read_head_with_length xdf HMap 4); [reflexivity | simpl; lia].
Qed.

Lemma twos_nonneg (w : nat) (z : Z) :
  (0 <= z < 2 ^ (8 * Z.of_nat w))%Z -> twos w z = be_bytes w (Z.to_N z).
Proof. intros H. unfold twos. now rewrite Z.mod_small. Qed.

Lemma read_uint_twos (w : nat) (z : Z) (rest : list byte) :
  (0 <= z < 2 ^ (8 * Z.of_nat w))%Z ->
  read_uint (N.of_nat w) (twos w z ++ rest) = Ok (Z.to_N z, rest).
Proof.
  intros H. rewrite twos_nonneg by assumption. apply read_uint_be_bytes.
  assert (Z.of_N (256 ^ N.of_nat w) = 2 ^ (8 * Z.of_nat w))%Z.
  { rewrite N2Z.inj_pow, nat_N_Z, Z.pow_mul_r by lia. reflexivity. }
  lia.
Qed.

Lemma read_head_uint (c : byte) (w : nat) (z : Z) (rest : list byte) :
  (forall r, read_head (c :: r) =
             (x <- read_uint (N.of_nat w) r ;; Ok (HVal (AInt (Z.of_N (fst x))), snd x))) ->
  (0 <= z < 2 ^ (8 * Z.of_nat w))%Z ->
  read_head (c :: twos w z ++ rest) = Ok (HVal (AInt z), rest).
Proof.
  intros Hc Hz. rewrite Hc, read_uint_twos by assumption. cbn.
  rewrite Z2N.id by lia. reflexivity.
Qed.

Lemma read_head_sint (c : byte) (w : nat) (z : Z) (rest : list byte) :
  (forall r, read_head (c :: r) =
             (x <- read_sint (N.of_nat w) r ;; Ok (HVal (AInt (fst x)), snd x))) ->
  (0 < w)%nat ->
  (- 2 ^ (8 * Z.of_nat w - 1) <= z < 2 ^ (8 * Z.of_nat w - 1))%Z ->
  read_head (c :: twos w z ++ rest) = Ok (HVal (AInt z), rest).
Proof.
  intros Hc Hw Hz. rewrite Hc, read_sint_twos by assumption. reflexivity.
Qed.

Lemma read_head_fixnum (z : Z) (rest : list byte) :
  (-32 <= z < 128)%Z -> read_head (twos 1 z ++ rest) = Ok (HVal (AInt z), rest).
Proof.
  intros Hz. unfold twos. cbn [be_bytes app].
  change (2 ^ (8 * Z.of_nat 1))%Z with 256%Z.
  assert (Hb : Byte.to_N (byte_of_N (Z.to_N (z mod 256))) = Z.to_N (z mod 256)).
  { rewrite to_N_byte_of_N. apply N.mod_small.
    pose proof (Z.mod_pos_bound z 256). lia. }
  destruct (Z_lt_le_dec z 0) as [Hneg|Hpos].
  - assert (Hm : (z mod 256 = z + 256)%Z).
    { symmetry. apply Z.mod_unique_pos with (q := (-1)%Z); lia. }
    apply read_head_small.
    + cbv zeta. rewrite Hb, Hm.
      repeat match goal with |- context [?a <? ?c] => destruct (N.ltb_spec a c); try lia end.
      f_equal. f_equal. lia.
    + rewrite Hb, Hm. apply orb_true_iff. right. apply N.leb_le. lia.
  - assert (Hm : (z mod 256 = z)%Z) by (apply Z.mod_small; lia).
    apply read_head_small.
    + cbv zeta. rewrite Hb, Hm.
      repeat match goal with |- context [?a <? ?c] => destruct (N.ltb_spec a c); try lia end.
      f_equal. f_equal. lia.
    + rewrite Hb, Hm. apply orb_true_iff. left. apply N.ltb_lt. lia.
Qed.

Lemma read_head_int (z : Z) (bs rest : list byte) :
  pack_int z = Ok bs -> read_head (bs ++ rest) = Ok (HVal (AInt z), rest).
Proof.
  unfold pack_int.
  destruct (Z.ltb_spec z (-9223372036854775808)); [discriminate|].
  destruct (Z.leb_spec 18446744073709551616 z); [discriminate|].
  cbn [orb].
  destruct (Z.ltb_spec z (-32)).
  { destruct (Z.ltb_spec z (-32768)).
    - destruct (Z.ltb_spec z (-2147483648)); intros [= <-].
      + apply (read_head_sint xd3 8); [reflexivity | lia | simpl; lia].
      + apply (read_head_sint xd2 4); [reflexivity | lia | simpl; lia].
    - destruct (Z.ltb_spec z (-128)); intros [= <-].
      + apply (read_head_sint xd1 2); [reflexivity | lia | simpl; lia].
      + apply (read_head_sint xd0 1); [reflexivity | lia | simpl; lia]. }
  destruct (Z.ltb_spec z 128).
  { intros [= <-]. apply read_head_fixnum. lia. }
  destruct (Z.ltb_spec z 65536).
  { destruct (Z.ltb_spec z 256); intros [= <-].
    - apply (read_head_uint xcc 1); [reflexivity | simpl; lia].
    - apply (read_head_uint xcd 2); [reflexivity | simpl; lia]. }
  destruct (Z.ltb_spec z 4294967296); intros [= <-].
  - apply (read_head_uint xce 4); [reflexivity | simpl; lia].
  - apply (read_head_uint xcf 8); [reflexivity | simpl; lia].
Qed.

Lemma utf8_decode_encode (s : string) :
  is_text s = true -> utf8_decode (utf8_encode s) = Ok s.
Proof.
  unfold is_text, utf8_decode, utf8_encode. intros ->.
  now rewrite string_of_list_byte_of_string.
Qed.

Lemma pack_raw_head (payload bs : list byte) :
  pack_raw payload = Ok bs ->
  exists hdr, bs = hdr ++ payload /\
              forall rest, read_head (hdr ++ rest) = Ok (HRaw (N.of_nat (length payload)), rest).
Proof.
  unfold pack_raw. intros H. inv_bind H. injection H as <-.
  exists x. split; [reflexivity|]. intros rest. now apply read_head_raw.
Qed.

Lemma unpack_raw_item (raw : bool) (payload bs rest : list byte) (f : nat) :
  pack_raw payload = Ok bs ->
  unpack_obj raw (S f) (bs ++ rest) = (v <- raw_value raw payload ;; Ok (v, rest)).
Proof.
  intros H. apply pack_raw_head in H as (hdr & -> & Hh).
  rewrite unpack_obj_S, <- app_assoc, Hh. cbn [bind fst snd].
  rewrite take_bytes_app. reflexivity.
Qed.

(** A packed flat value is read back as its wire view. *)
Lemma unpack_flat (raw : bool) (a : atom) (bs rest : list byte) (f : nat) :
  flat a = true -> readable raw a = true -> pack_atom a = Ok bs ->
  unpack_obj raw (S f) (bs ++ rest) = Ok (PyAtom (wire_view raw a), rest).
Proof.
  destruct a; try discriminate; intros _ Hr Hp; cbn [pack_atom] in Hp.
  - rewrite unpack_obj_S, (read_head_int _ _ _ Hp). reflexivity.
  - rewrite (unpack_raw_item _ _ _ _ _ Hp). unfold raw_value.
    destruct raw; [reflexivity|]. cbn in Hr. unfold utf8_decode. rewrite Hr. reflexivity.
  - rewrite (unpack_raw_item _ _ _ _ _ Hp). unfold raw_value.
    destruct raw; [reflexivity|]. cbn in Hr. rewrite utf8_decode_encode by assumption.
    reflexivity.
Qed.

Lemma pack_flat_nonempty (a : atom) (bs : list byte) :
  flat a = true -> pack_atom a = Ok bs -> (1 <= length bs)%nat.
Proof.
  intros Hf Hp.
  assert (H : unpack_obj true 1 (bs ++ []) = Ok (PyAtom (wire_view true a), [])).
  { apply unpack_flat; [assumption | destruct a; reflexivity | assumption]. }
  destruct bs; [|simpl; lia]. discriminate H.
Qed.

Lemma pack_dict_entries (d : pydict) :
  pack (PyDict d) =
  (hdr <- pack_map_header (N.of_nat (length d)) ;;
   body <- pack_entries d ;;
   Ok (hdr ++ body)).
Proof. reflexivity. Qed.

Lemma pack_entries_length (raw : bool) (d : pydict) (body : list byte) :
  forallb (flat_entry raw) d = true -> pack_entries d = Ok body ->
  (length d <= length body)%nat.
Proof.
  revert body. induction d as [|[k v] d IH]; intros body Hf Hp.
  - simpl. lia.
  - cbn [forallb] in Hf. apply andb_true_iff in Hf as [Hkv Hf].
    cbn [pack_entries] in Hp. inv_bind Hp. inv_bind Hp. inv_bind Hp. injection Hp as <-.
    destruct v as [a| |]; try discriminate.
    cbn [flat_entry] in Hkv. repeat (apply andb_true_iff in Hkv as [Hkv ?]).
    pose proof (pack_flat_nonempty k x Hkv Hp0).
    specialize (IH _ Hf Hp2). rewrite !length_app. simpl. lia.
Qed.

(** The loop of [unpack_map] over the packed entries of a flat map. *)
Lemma unpack_map_flat (raw : bool) (d : pydict) :
  forall (body rest : list byte) (f : nat) (acc : pydict),
    forallb (flat_entry raw) d = true ->
    pack_entries d = Ok body ->
    (length d < f)%nat ->
    unpack_map raw f (N.of_nat (length d)) (body ++ rest) acc =
    Ok (PyDict (fold_left (fun acc kv => setitem acc (fst (view_entry raw kv))
                                                 (snd (view_entry raw kv))) d acc), rest).
Proof.
  induction d as [|[k v] d IH]; intros body rest f acc Hf Hp Hlen.
  - injection Hp as <-. destruct f as [|f]; [simpl in Hlen; lia|]. reflexivity.
  - cbn [forallb] in Hf. apply andb_true_iff in Hf as [Hkv Hf].
    cbn [pack_entries] in Hp. inv_bind Hp. inv_bind Hp. inv_bind Hp. injection Hp as <-.
    destruct v as [a| |]; try discriminate.
    cbn [flat_entry] in Hkv.
    apply andb_true_iff in Hkv as [Hkv Hra].
    apply andb_true_iff in Hkv as [Hkv Hfa].
    apply andb_true_iff in Hkv as [Hfk Hrk].
    cbn [pack] in Hp1.
    destruct f as [|[|f]]; [simpl in Hlen; lia | simpl in Hlen; lia |].
    rewrite unpack_map_S.
    destruct (N.eqb_spec (N.of_nat (length ((k, PyAtom a) :: d))) 0) as [E|_];
      [simpl in E; lia|].
    rewrite <- !app_assoc.
    rewrite (unpack_flat raw k x _ f Hfk Hrk Hp0). cbn [bind fst snd].
    rewrite (unpack_flat raw a x0 _ f Hfa Hra Hp1). cbn [bind fst snd as_key].
    replace (N.of_nat (length ((k, PyAtom a) :: d)) - 1) with (N.of_nat (length d))
      by (simpl; lia).
    rewrite IH; [reflexivity | assumption | assumption | simpl in Hlen; lia].
Qed.

(** [unpackb] after [packb] on a flat map. *)
Lemma unpackb_packb_flat (raw : bool) (d : pydict) (bs : list byte) :
  forallb (flat_entry raw) d = true ->
  packb (PyDict d) = Ok bs ->
  unpackb raw bs = Ok (PyDict (reread raw d)) /\ (1 <= length bs)%nat.
Proof.
  intros Hf Hp. unfold packb in Hp. rewrite pack_dict_entries in Hp.
  inv_bind Hp. inv_bind Hp. injection Hp as <-.
  pose proof (pack_entries_length raw d x0 Hf Hp1) as Hlen.
  pose proof (read_head_map _ _ x0 Hp0) as Hh.
  assert (Hx : (1 <= length x)%nat).
  { unfold pack_map_header in Hp0.
    repeat match type of Hp0 with
           | context [?a <? ?c] => destruct (a <? c)
           end; try discriminate; injection Hp0 as <-; simpl; lia. }
  split; [|rewrite length_app; lia].
  unfold unpackb.
  replace (2 * length (x ++ x0) + 1)%nat with (S (2 * length (x ++ x0)))%nat by lia.
  rewrite unpack_obj_S, Hh. cbn [bind fst snd].
  rewrite <- (app_nil_r x0) at 2.
  rewrite unpack_map_flat by (try assumption; rewrite length_app; lia).
  reflexivity.
Qed.

(** ** The fuel of the unpacker is enough *)

Lemma take_bytes_length (n : N) (bs p rest : list byte) :
  take_bytes n bs = Some (p, rest) -> (length rest <= length bs)%nat.
Proof.
  unfold take_bytes. destruct (n <=? N.of_nat (length bs)); [|discriminate].
  intros [= <- <-]. rewrite length_skipn. lia.
Qed.

Lemma read_uint_length (w : N) (bs rest : list byte) (n : N) :
  read_uint w bs = Ok (n, rest) -> (length rest <= length bs)%nat.
Proof.
  unfold read_uint. destruct (take_bytes w bs) as [[p r]|] eqn:E; [|discriminate].
  intros [= <- <-]. now apply take_bytes_length in E.
Qed.

Lemma read_sint_length (w : N) (bs rest : list byte) (z : Z) :
  read_sint w bs = Ok (z, rest) -> (length rest <= length bs)%nat.
Proof.
  unfold read_sint. destruct (take_bytes w bs) as [[p r]|] eqn:E; [|discriminate].
  intros [= <- <-]. now apply take_bytes_length in E.
Qed.

Lemma read_head_length (bs rest : list byte) (h : head) :
  read_head bs = Ok (h, rest) -> (length rest < length bs)%nat.
Proof.
  destruct bs as [|c bs]; [discriminate|]. unfold read_head, with_length. cbv zeta.
  repeat match goal with
         | |- context [if ?c then _ else _] => destruct c
         end; try (intros [= <- <-]; simpl; lia).
  destruct (Byte.to_N c) as [|p]; [discriminate|].
  do 8 (try destruct p as [p|p|]); try discriminate;
    try (intros [= <- <-]; simpl; lia);
    intros H; inv_bind H; destruct x as [a r]; injection H as <- <-;
    first [apply read_uint_length in H0 | apply read_sint_length in H0]; simpl in *; lia.
Qed.

(** A successful run with some fuel is the run with any fuel that is
    at least twice the number of bytes it consumed (plus one for the
    loops). *)
Lemma unpack_fuel (raw : bool) (f : nat) :
  (forall bs v rest,
      unpack_obj raw f bs = Ok (v, rest) ->
      (length rest < length bs)%nat /\
      forall f', (2 * (length bs - length rest) <= f')%nat ->
                 unpack_obj raw f' bs = Ok (v, rest)) /\
  (forall n bs acc v rest,
      unpack_array raw f n bs acc = Ok (v, rest) ->
      (length rest <= length bs)%nat /\
      forall f', (2 * (length bs - length rest) + 1 <= f')%nat ->
                 unpack_array raw f' n bs acc = Ok (v, rest)) /\
  (forall n bs acc v rest,
      unpack_map raw f n bs acc = Ok (v, rest) ->
      (length rest <= length bs)%nat /\
      forall f', (2 * (length bs - length rest) + 1 <= f')%nat ->
                 unpack_map raw f' n bs acc = Ok (v, rest)).
Proof.
  induction f as [|f (IHo & IHa & IHm)]; [repeat split; discriminate|].
  split; [|split].
  - intros bs v rest H. rewrite unpack_obj_S in H. inv_bind H. destruct x as [h r1].
    pose proof (read_head_length _ _ _ H0) as Hr1. cbn [fst snd] in H.
    assert (Hno : forall f', (2 <= f')%nat ->
              unpack_obj raw f' bs =
              match h with
              | HArray n => unpack_array raw (pred f') n r1 []
              | HMap n => unpack_map raw (pred f') n r1 []
              | _ => unpack_obj raw (S f) bs
              end).
    { intros [|f'] Hf'; [lia|]. rewrite !unpack_obj_S, H0. cbn [bind fst snd pred].
      destruct h; reflexivity. }
    destruct h.
    + injection H as <- <-. split; [assumption|]. intros f' Hf'.
      rewrite Hno by lia. rewrite unpack_obj_S, H0. reflexivity.
    + destruct (take_bytes n r1) as [[p r]|] eqn:E; [|discriminate].
      pose proof (take_bytes_length _ _ _ _ E). inv_bind H. injection H as <- <-.
      split; [lia|]. intros f' Hf'. rewrite Hno by lia.
      rewrite unpack_obj_S, H0. cbn [bind fst snd]. rewrite E, H2. reflexivity.
    + destruct (take_bytes n r1) as [[p r]|] eqn:E; [|discriminate].
      pose proof (take_bytes_length _ _ _ _ E). injection H as <- <-.
      split; [lia|]. intros f' Hf'. rewrite Hno by lia.
      rewrite unpack_obj_S, H0. cbn [bind fst snd]. rewrite E. reflexivity.
    + destruct r1 as [|code after]; [discriminate|].
      destruct (take_bytes n after) as [[p r]|] eqn:E; [|discriminate].
      pose proof (take_bytes_length _ _ _ _ E). injection H as <- <-.
      split; [simpl in *; lia|]. intros f' Hf'. rewrite Hno by (simpl in *; lia).
      rewrite unpack_obj_S, H0. cbn [bind fst snd]. rewrite E. reflexivity.
    + destruct (take_bytes w r1) as [[p r]|] eqn:E; [|discriminate].
      pose proof (take_bytes_length _ _ _ _ E). injection H as <- <-.
      split; [lia|]. intros f' Hf'. rewrite Hno by lia.
      rewrite unpack_obj_S, H0. cbn [bind fst snd]. rewrite E. reflexivity.
    + apply IHa in H as [Hlen Hf]. split; [lia|]. intros f' Hf'.
      rewrite Hno by lia. apply Hf. lia.
    + apply IHm in H as [Hlen Hf]. split; [lia|]. intros f' Hf'.
      rewrite Hno by lia. apply Hf. lia.
  - intros n bs acc v rest H. rewrite unpack_array_S in H.
    destruct (n =? 0) eqn:En.
    + injection H as <- <-. split; [lia|]. intros [|f'] Hf'; [lia|].
      rewrite unpack_array_S, En. reflexivity.
    + inv_bind H. destruct x as [x r1]. cbn [fst snd] in H.
      apply IHo in H0 as [Hl1 Hf1]. apply IHa in H as [Hl2 Hf2].
      split; [lia|]. intros [|f'] Hf'; [lia|].
      rewrite unpack_array_S, En, Hf1 by lia. cbn [bind fst snd]. apply Hf2. lia.
  - intros n bs acc v rest H. rewrite unpack_map_S in H.
    destruct (n =? 0) eqn:En.
    + injection H as <- <-. split; [lia|]. intros [|f'] Hf'; [lia|].
      rewrite unpack_map_S, En. reflexivity.
    + inv_bind H. destruct x as [k r1]. cbn [fst snd] in H.
      inv_bind H. destruct x as [x r2]. cbn [fst snd] in H. inv_bind H.
      apply IHo in H0 as [Hl1 Hf1]. apply IHo in H1 as [Hl2 Hf2].
      apply IHm in H as [Hl3 Hf3].
      split; [lia|]. intros [|f'] Hf'; [lia|].
      rewrite unpack_map_S, En, Hf1 by lia. cbn [bind fst snd].
      rewrite Hf2 by lia. cbn [bind fst snd]. rewrite H2. cbn [bind]. apply Hf3. lia.
Qed.

(** [unpackb] never fails for want of fuel: if the item can be read
    with some fuel, it is read with the fuel [unpackb] gives. *)
Lemma unpackb_fuel_enough (raw : bool) (f : nat) (bs : list byte) (v : pyval) :
  unpack_obj raw f bs = Ok (v, []) -> unpackb raw bs = Ok v.
Proof.
  intros H. destruct (unpack_fuel raw f) as (Ho & _ & _).
  apply Ho in H as [_ H]. unfold unpackb. rewrite H by (simpl; lia). reflexivity.
Qed.

(** ** What the packer accepts *)

Lemma pack_raw_ok (p : list byte) :
  (N.of_nat (length p) <? 4294967296) = true -> returns (pack_raw p) = true.
Proof.
  intros H. apply N.ltb_lt in H. unfold pack_raw, pack_raw_header.
  destruct (N.of_nat (length p) <? 32); [reflexivity|].
  destruct (N.of_nat (length p) <? 65536); [reflexivity|].
  destruct (N.ltb_spec (N.of_nat (length p)) 4294967296); [reflexivity | lia].
Qed.

Lemma pack_atom_ok (a : atom) : packable a = true -> returns (pack_atom a) = true.
Proof.
  destruct a; try discriminate; cbn [packable pack_atom].
  - intros H. apply andb_true_iff in H as [H1 H2].
    apply Z.leb_le in H1. apply Z.ltb_lt in H2. unfold pack_int.
    destruct (Z.ltb_spec z (-9223372036854775808)); [lia|].
    destruct (Z.leb_spec 18446744073709551616 z); [lia|]. cbn [orb].
    repeat match goal with |- context [if ?c then _ else _] => destruct c end; reflexivity.
  - apply pack_raw_ok.
  - apply pack_raw_ok.
Qed.

Lemma pack_entries_ok (d : pydict) :
  forallb packable_entry d = true -> returns (pack_entries d) = true.
Proof.
  induction d as [|[k [a| |]] d IH]; cbn [forallb packable_entry pack_entries];
    try discriminate; [reflexivity|].
  intros H. apply andb_true_iff in H as [H Hd]. apply andb_true_iff in H as [Hk Ha].
  apply pack_atom_ok in Hk, Ha. specialize (IH Hd). cbn [pack].
  destruct (pack_atom k); [|discriminate]. destruct (pack_atom a); [|discriminate].
  destruct (pack_entries d); [reflexivity | discriminate].
Qed.

(** A map of packable entries is packed. *)
Lemma packb_ok (d : pydict) : packable_dict d = true -> returns (packb (PyDict d)) = true.
Proof.
  unfold packable_dict, packb. intros H. apply andb_true_iff in H as [Hn Hd].
  rewrite pack_dict_entries. apply pack_entries_ok in Hd. apply N.ltb_lt in Hn.
  unfold pack_map_header.
  destruct (N.of_nat (length d) <? 16); [|destruct (N.of_nat (length d) <? 65536);
    [|destruct (N.ltb_spec (N.of_nat (length d)) 4294967296); [|lia]]];
    cbn [bind]; destruct (pack_entries d); try discriminate; reflexivity.
Qed.

(** ** Dictionaries *)

Lemma byte_eqb_eq (x y : byte) : Byte.eqb x y = true <-> x = y.
Proof.
  split.
  - apply Byte.byte_dec_bl.
  - apply Byte.byte_dec_lb.
Qed.

Lemma bytes_eqb_eq (x y : list byte) : bytes_eqb x y = true <-> x = y.
Proof.
  revert y. induction x as [|a x IH]; intros [|c y]; simpl; split; try congruence.
  - intros H. apply andb_true_iff in H as [H1 H2].
    apply byte_eqb_eq in H1. apply IH in H2. congruence.
  - intros [= -> ->]. apply andb_true_iff. split; [now apply byte_eqb_eq | now apply IH].
Qed.

Lemma atom_eqb_eq (x y : atom) : atom_eqb x y = true <-> x = y.
Proof.
  destruct x, y; simpl; split; try congruence; intros H.
  - apply Bool.eqb_prop in H. congruence.
  - injection H as ->. apply Bool.eqb_reflx.
  - apply Z.eqb_eq in H. congruence.
  - injection H as ->. apply Z.eqb_refl.
  - apply bytes_eqb_eq in H. congruence.
  - injection H as ->. now apply bytes_eqb_eq.
  - apply bytes_eqb_eq in H. congruence.
  - injection H as ->. now apply bytes_eqb_eq.
  - apply String.eqb_eq in H. congruence.
  - injection H as ->. apply String.eqb_refl.
  - apply andb_true_iff in H as [H1 H2].
    apply byte_eqb_eq in H1. apply bytes_eqb_eq in H2. congruence.
  - injection H as -> ->. apply andb_true_iff. split; [now apply byte_eqb_eq | now apply bytes_eqb_eq].
Qed.

Lemma atom_eqb_refl (x : atom) : atom_eqb x x = true.
Proof. now apply atom_eqb_eq. Qed.

Lemma atom_eqb_neq (x y : atom) : x <> y -> atom_eqb x y = false.
Proof.
  intros H. destruct (atom_eqb x y) eqn:E; [|reflexivity].
  apply atom_eqb_eq in E. contradiction.
Qed.

Lemma dict_get_None (d : pydict) (k : atom) :
  dict_get d k = None <-> ~ In k (keys d).
Proof.
  induction d as [|[k' v] d IH]; simpl.
  - tauto.
  - destruct (atom_eqb k' k) eqn:E.
    + apply atom_eqb_eq in E. split; [discriminate | intros H; exfalso; apply H; now left].
    + rewrite IH. split.
      * intros H [->|Hin]; [|contradiction]. rewrite atom_eqb_refl in E. discriminate.
      * intros H Hin. apply H. now right.
Qed.

Lemma setitem_fresh (d : pydict) (k : atom) (v : pyval) :
  ~ In k (keys d) -> setitem d k v = d ++ [(k, v)].
Proof.
  induction d as [|[k' v'] d IH]; simpl; intros H; [reflexivity|].
  rewrite atom_eqb_neq by (intros ->; apply H; now left).
  rewrite IH; [reflexivity | intros Hin; apply H; now right].
Qed.

Lemma keys_setitem (d : pydict) (k : atom) (v : pyval) :
  keys (setitem d k v) = match dict_get d k with Some _ => keys d | None => keys d ++ [k] end.
Proof.
  induction d as [|[k' v'] d IH]; simpl; [reflexivity|].
  destruct (atom_eqb k' k) eqn:E; simpl; [reflexivity|].
  rewrite IH. destruct (dict_get d k); reflexivity.
Qed.

Lemma atom_eqb_sym (x y : atom) : atom_eqb x y = atom_eqb y x.
Proof.
  destruct (atom_eqb x y) eqn:E.
  - apply atom_eqb_eq in E. subst. symmetry. apply atom_eqb_refl.
  - symmetry. apply atom_eqb_neq. intros ->. rewrite atom_eqb_refl in E. discriminate.
Qed.

Lemma dict_get_setitem (d : pydict) (k k' : atom) (v : pyval) :
  dict_get (setitem d k v) k' = if atom_eqb k k' then Some v else dict_get d k'.
Proof.
  induction d as [|[k0 v0] d IH]; simpl.
  - reflexivity.
  - destruct (atom_eqb k0 k) eqn:E; simpl.
    + apply atom_eqb_eq in E. subst k0. destruct (atom_eqb k k'); reflexivity.
    + destruct (atom_eqb k0 k') eqn:E'.
      * apply atom_eqb_eq in E'. subst k0. rewrite atom_eqb_sym, E. reflexivity.
      * apply IH.
Qed.

Lemma NoDup_keys_setitem (d : pydict) (k : atom) (v : pyval) :
  NoDup (keys d) -> NoDup (keys (setitem d k v)).
Proof.
  intros H. rewrite keys_setitem. destruct (dict_get d k) eqn:E; [assumption|].
  apply dict_get_None in E. apply NoDup_app. repeat split; try assumption.
  - intros x Hx Hin. apply list_elem_of_In in Hin. simpl in Hin. destruct Hin as [->|[]].
    apply E. now apply list_elem_of_In.
  - apply NoDup_singleton.
Qed.

Lemma NoDup_keys_assign (d : pydict) (es : list (string * pyval)) :
  NoDup (keys d) -> NoDup (keys (assign d es)).
Proof.
  unfold assign. revert d. induction es as [|e es IH]; intros d H; simpl; [assumption|].
  apply IH. now apply NoDup_keys_setitem.
Qed.

Lemma forallb_setitem (P : atom * pyval -> bool) (d : pydict) (k : atom) (v : pyval) :
  forallb P d = true -> P (k, v) = true -> forallb P (setitem d k v) = true.
Proof.
  intros Hd Hkv. induction d as [|[k' v'] d IH]; simpl in *.
  - now rewrite Hkv.
  - apply andb_true_iff in Hd as [H1 H2].
    destruct (atom_eqb k' k) eqn:E; simpl.
    + apply atom_eqb_eq in E. subst k'. now rewrite Hkv, H2.
    + now rewrite H1, IH.
Qed.

Lemma forallb_assign (P : atom * pyval -> bool) (d : pydict) (es : list (string * pyval)) :
  forallb P d = true ->
  forallb (fun kv => P (AStr (fst kv), snd kv)) es = true ->
  forallb P (assign d es) = true.
Proof.
  unfold assign. revert d. induction es as [|e es IH]; intros d Hd Hes; simpl in *; [assumption|].
  apply andb_true_iff in Hes as [H1 H2]. apply IH; [|assumption].
  now apply forallb_setitem.
Qed.

Lemma keys_view (raw : bool) (d : pydict) :
  keys (map (view_entry raw) d) = map (wire_view raw) (keys d).
Proof.
  unfold keys. rewrite !map_map. apply map_ext. intros [k [a| |]]; reflexivity.
Qed.

Lemma utf8_encode_inj (s t : string) : utf8_encode s = utf8_encode t -> s = t.
Proof.
  unfold utf8_encode. intros H.
  rewrite <- (string_of_list_byte_of_string s), <- (string_of_list_byte_of_string t).
  now rewrite H.
Qed.

Lemma wire_view_key_inj (raw : bool) (s t : string) :
  wire_view raw (AStr s) = wire_view raw (AStr t) -> s = t.
Proof.
  destruct raw; simpl; intros [= H]; [now apply utf8_encode_inj | assumption].
Qed.

Lemma In_keys_view (raw : bool) (d : pydict) (s : string) :
  forallb str_key d = true ->
  In (wire_view raw (AStr s)) (map (wire_view raw) (keys d)) -> In (AStr s) (keys d).
Proof.
  induction d as [|[k v] d IH]; simpl; intros Hk Hin; [assumption|].
  apply andb_true_iff in Hk as [Hk Hd].
  destruct k; try discriminate.
  destruct Hin as [Heq|Hin].
  - left. f_equal. symmetry. now apply (wire_view_key_inj raw).
  - right. now apply IH.
Qed.

(** Reading back a map with distinct text keys gives the view of each
    entry, in order. *)
Lemma reread_view_from (raw : bool) (d acc : pydict) :
  forallb str_key d = true ->
  NoDup (keys acc ++ map (wire_view raw) (keys d)) ->
  fold_left (fun acc kv => setitem acc (fst (view_entry raw kv)) (snd (view_entry raw kv))) d acc
  = acc ++ map (view_entry raw) d.
Proof.
  revert acc. induction d as [|[k v] d IH]; intros acc Hk Hnd.
  - simpl. now rewrite app_nil_r.
  - cbn [forallb] in Hk. apply andb_true_iff in Hk as [Hk Hd].
    cbn [fold_left map].
    destruct (view_entry raw (k, v)) as [k' v'] eqn:Ev.
    assert (Hkey : k' = wire_view raw k).
    { destruct v; simpl in Ev; congruence. }
    subst k'. cbn [fst snd].
    cbn [keys map fst] in Hnd. fold (keys d) in Hnd.
    assert (Hfresh : ~ In (wire_view raw k) (keys acc)).
    { intros Hin. apply NoDup_app in Hnd as (_ & Hdisj & _).
      apply (Hdisj (wire_view raw k)); [now apply list_elem_of_In | left]. }
    rewrite setitem_fresh by assumption.
    rewrite IH; [now rewrite <- app_assoc | assumption |].
    unfold keys at 1. rewrite map_app. fold (keys acc). simpl.
    rewrite <- app_assoc. exact Hnd.
Qed.

Lemma NoDup_keys_view (raw : bool) (d : pydict) :
  forallb str_key d = true -> NoDup (keys d) -> NoDup (map (wire_view raw) (keys d)).
Proof.
  induction d as [|[k v] d IH]; simpl; intros Hk Hnd; [constructor|].
  apply andb_true_iff in Hk as [Hk Hd]. destruct k; try discriminate.
  apply NoDup_cons in Hnd as [Hnotin Hnd]. apply NoDup_cons. split.
  - intros Hin. apply Hnotin. apply list_elem_of_In. apply list_elem_of_In in Hin.
    now apply (In_keys_view raw).
  - now apply IH.
Qed.

Lemma reread_view (raw : bool) (d : pydict) :
  forallb str_key d = true -> NoDup (keys d) -> reread raw d = map (view_entry raw) d.
Proof.
  intros Hk Hnd. unfold reread. rewrite reread_view_from; [reflexivity | assumption |].
  simpl. now apply NoDup_keys_view.
Qed.

Lemma forallb_impl {A : Type} (P Q : A -> bool) (l : list A) :
  (forall x, P x = true -> Q x = true) -> forallb P l = true -> forallb Q l = true.
Proof.
  intros H. induction l as [|x l IH]; simpl; [reflexivity|].
  intros Hl. apply andb_true_iff in Hl as [H1 H2]. now rewrite (H _ H1), IH.
Qed.

Lemma text_entry_flat (kv : atom * pyval) : text_entry kv = true -> flat_entry false kv = true.
Proof.
  destruct kv as [[] [[]| |]]; simpl; try discriminate; intros H.
  - now rewrite H.
  - apply andb_true_iff in H as [-> ->]. reflexivity.
Qed.

Lemma text_entry_str_key (kv : atom * pyval) : text_entry kv = true -> str_key kv = true.
Proof. destruct kv as [[] ?]; simpl; try discriminate; reflexivity. Qed.

Lemma text_entry_view (kv : atom * pyval) : text_entry kv = true -> view_entry false kv = kv.
Proof. destruct kv as [[] [[]| |]]; simpl; try discriminate; reflexivity. Qed.

Lemma map_view_text (d : pydict) :
  forallb text_entry d = true -> map (view_entry false) d = d.
Proof.
  induction d as [|kv d IH]; simpl; [reflexivity|]. intros H.
  apply andb_true_iff in H as [H1 H2]. now rewrite text_entry_view, IH.
Qed.

(** A message of texts and integers, packed and then unpacked with
    [raw=False], is the map that was packed. *)
Lemma unpackb_packb_text (d : pydict) (bs : list byte) :
  forallb text_entry d = true -> NoDup (keys d) ->
  packb (PyDict d) = Ok bs ->
  unpackb false bs = Ok (PyDict d) /\ (1 <= length bs)%nat.
Proof.
  intros Ht Hnd Hp.
  destruct (unpackb_packb_flat false d bs) as [Hu Hlen]; try assumption.
  { revert Ht. apply forallb_impl, text_entry_flat. }
  split; [|assumption]. rewrite Hu, reread_view, map_view_text; try assumption; [reflexivity|].
  revert Ht. apply forallb_impl, text_entry_str_key.
Qed.

Lemma not_empty_ok (bs : list byte) (name : string) :
  (1 <= length bs)%nat -> not_empty bs name = Ok tt.
Proof. destruct bs; simpl; [lia | reflexivity]. Qed.

Lemma distinct_NoDup (l : list atom) : distinct l = true -> NoDup l.
Proof.
  induction l as [|k l IH]; simpl; intros H; [constructor|].
  apply andb_true_iff in H as [Hk Hl]. apply NoDup_cons. split; [|now apply IH].
  intros Hin. apply list_elem_of_In in Hin. apply negb_true_iff in Hk.
  assert (existsb (atom_eqb k) l = true); [|congruence].
  apply existsb_exists. exists k. split; [assumption | apply atom_eqb_refl].
Qed.

(** ** Texts *)


Lemma to_N_byte_of_ascii (c : ascii) : Byte.to_N (byte_of_ascii c) = N_of_ascii c.
Proof. apply Byte.to_of_N. symmetry. apply byte_of_ascii_via_N. Qed.

Lemma ascii7_text (s : string) : all_ascii7 s = true -> is_text s = true.
Proof.
  unfold is_text, utf8_encode. induction s as [|c s IH]; [reflexivity|].
  cbn [all_ascii7]. intros H. apply andb_true_iff in H as [Hc Hs].
  change (list_byte_of_string (String c s)) with (byte_of_ascii c :: list_byte_of_string s).
  cbn [utf8_valid]. rewrite to_N_byte_of_ascii. unfold ascii7 in Hc. rewrite Hc. now apply IH.
Qed.

Arguments has_shape : simpl never.
Arguments decimal_shape : simpl never.
Arguments is_text : simpl never.
Arguments utf8_valid : simpl never.
Arguments utf8_decode : simpl never.

Lemma in_class_ascii7 (cl : char_class) (c : ascii) :
  class_ascii7 cl = true -> in_class cl c = true -> ascii7 c = true.
Proof.
  unfold ascii7. destruct cl; simpl; intros Hcl H.
  - apply andb_true_iff in H as [_ H]. apply N.leb_le in H. apply N.ltb_lt. lia.
  - apply orb_true_iff in H as [H|H]; apply andb_true_iff in H as [_ H];
      apply N.leb_le in H; apply N.ltb_lt; lia.
  - apply Ascii.eqb_eq in H. subst. exact Hcl.
Qed.

Lemma shape_ascii7 (shape : list char_class) (s : string) :
  forallb class_ascii7 shape = true -> has_shape shape s = true -> all_ascii7 s = true.
Proof.
  revert s. induction shape as [|cl shape IH]; intros [|c s] Hsh H; simpl in *;
    try discriminate; [reflexivity|].
  apply andb_true_iff in Hsh as [Hcl Hsh]. apply andb_true_iff in H as [Hc H].
  rewrite (in_class_ascii7 cl c Hcl Hc), (IH s Hsh H). reflexivity.
Qed.

Lemma all_digits_ascii7 (s : string) : all_digits s = true -> all_ascii7 s = true.
Proof.
  induction s as [|c s IH]; simpl; [reflexivity|]. intros H.
  apply andb_true_iff in H as [Hc H].
  rewrite (in_class_ascii7 Digit c eq_refl Hc), IH by assumption. reflexivity.
Qed.

Lemma unsigned_decimal_ascii7 (seen : bool) (s : string) :
  unsigned_decimal seen s = true -> all_ascii7 s = true.
Proof.
  revert seen. induction s as [|c s IH]; intros seen; [reflexivity|].
  cbn [unsigned_decimal all_ascii7].
  destruct (in_class Digit c) eqn:Ec.
  - intros H. rewrite (in_class_ascii7 Digit c eq_refl Ec), (IH _ H). reflexivity.
  - destruct (Ascii.eqb_spec c "."); [|discriminate]. subst c.
    intros H. apply andb_true_iff in H as [H _]. apply andb_true_iff in H as [_ H].
    now rewrite all_digits_ascii7.
Qed.

Lemma decimal_shape_text (s : string) : decimal_shape s = true -> is_text s = true.
Proof.
  intros H. apply ascii7_text. unfold decimal_shape in H.
  destruct s as [|c s]; [discriminate|].
  destruct (Ascii.eqb_spec c "-") as [->|Hc].
  - simpl. now apply unsigned_decimal_ascii7 in H.
  - apply (unsigned_decimal_ascii7 false).
    destruct c as [[] [] [] [] [] [] [] []]; try exact H. contradiction.
Qed.

Lemma shape_text (shape : list char_class) (s : string) :
  forallb class_ascii7 shape = true -> has_shape shape s = true -> is_text s = true.
Proof. intros. apply ascii7_text. now apply (shape_ascii7 shape). Qed.

Lemma valid_guid_text (g : GUID) : valid_guid g = true -> is_text (guid_value g) = true.
Proof. apply shape_text. reflexivity. Qed.

Lemma valid_time_text (t : option datetime) :
  valid_time t = true -> is_text (convert_datetime_to_string t) = true.
Proof. destruct t; cbn [valid_time convert_datetime_to_string]; [apply shape_text|]; reflexivity. Qed.

Lemma valid_price_opt_text (p : option Price) :
  valid_opt valid_price p = true -> is_text (convert_price_to_string p) = true.
Proof. destruct p; simpl; [apply decimal_shape_text | reflexivity]. Qed.

Lemma valid_label_opt_text (l : option Label) :
  valid_opt valid_label l = true -> is_text (convert_label_to_string l) = true.
Proof.
  destruct l; simpl; [|reflexivity]. unfold valid_label, valid_id.
  intros H. now apply andb_true_iff in H as [H _].
Qed.

Lemma order_side_string_text (v : OrderSide) : is_text (order_side_string v) = true.
Proof. destruct v; reflexivity. Qed.
Lemma order_type_string_text (v : OrderType) : is_text (order_type_string v) = true.
Proof. destruct v; reflexivity. Qed.
Lemma time_in_force_string_text (v : TimeInForce) : is_text (time_in_force_string v) = true.
Proof. destruct v; reflexivity. Qed.
Lemma currency_string_text (v : Currency) : is_text (currency_string v) = true.
Proof. destruct v; reflexivity. Qed.
Lemma broker_string_text (v : Broker) : is_text (broker_string v) = true.
Proof. destruct v; reflexivity. Qed.
Lemma security_type_string_text (v : SecurityType) : is_text (security_type_string v) = true.
Proof. destruct v; reflexivity. Qed.

(** ** The value constructors read back what the accessors give *)

Lemma GUID_roundtrip (g : GUID) :
  valid_guid g = true -> GUID_of_UUID (PyStr (guid_value g)) = Ok g.
Proof. destruct g as [s]. unfold valid_guid, GUID_of_UUID. simpl. now intros ->. Qed.

Lemma datetime_roundtrip (t : option datetime) :
  valid_time t = true ->
  convert_string_to_datetime (PyStr (convert_datetime_to_string t)) = Ok t.
Proof.
  destruct t as [[s]|]; unfold convert_string_to_datetime; simpl; [|reflexivity].
  intros H. destruct (String.eqb_spec s NONE) as [->|_]; [discriminate H|].
  now rewrite H.
Qed.

Lemma decimal_not_NONE (s : string) : decimal_shape s = true -> String.eqb s NONE = false.
Proof. intros H. destruct (String.eqb_spec s NONE) as [->|_]; [discriminate H | reflexivity]. Qed.

Lemma Price_roundtrip (p : Price) :
  valid_price p = true -> new_Price (PyStr (price_text p)) = Ok p.
Proof. destruct p as [s]. unfold valid_price, new_Price, decimal_string. simpl. now intros ->. Qed.

Lemma Money_roundtrip (m : Money) :
  valid_money m = true -> new_Money (PyStr (money_text m)) = Ok m.
Proof. destruct m as [s]. unfold valid_money, new_Money, decimal_string. simpl. now intros ->. Qed.

Lemma Decimal_roundtrip (d : Decimal) :
  valid_decimal d = true -> new_Decimal (PyStr (decimal_text d)) = Ok d.
Proof. destruct d as [s]. unfold valid_decimal, new_Decimal, decimal_string. simpl. now intros ->. Qed.

Lemma price_opt_roundtrip (p : option Price) :
  valid_opt valid_price p = true ->
  convert_string_to_price (PyStr (convert_price_to_string p)) = Ok p.
Proof.
  destruct p as [p|]; unfold convert_string_to_price; simpl; [|reflexivity].
  intros H. rewrite (decimal_not_NONE _ H), Price_roundtrip by assumption. reflexivity.
Qed.

Lemma label_opt_roundtrip (l : option Label) :
  valid_opt valid_label l = true ->
  convert_string_to_label (PyStr (convert_label_to_string l)) = Ok l.
Proof.
  destruct l as [[s]|]; unfold convert_string_to_label; simpl; [|reflexivity].
  unfold valid_label. simpl. intros H. apply andb_true_iff in H as [_ H].
  apply negb_true_iff in H. now rewrite H.
Qed.

Lemma id_roundtrip {k : id_kind} (i : Identifier k) : new_id (PyStr (value i)) = Ok i.
Proof. now destruct i. Qed.

Lemma symbol_roundtrip (s : Symbol) : parse_symbol (PyStr (value s)) = Ok s.
Proof. now destruct s. Qed.

Lemma Quantity_roundtrip (q : Quantity) : new_Quantity (PyInt (quantity_value q)) = Ok q.
Proof. now destruct q. Qed.

Lemma OrderSide_roundtrip (v : OrderSide) : OrderSide_item (PyStr (order_side_string v)) = Ok v.
Proof. destruct v; reflexivity. Qed.
Lemma OrderType_roundtrip (v : OrderType) : OrderType_item (PyStr (order_type_string v)) = Ok v.
Proof. destruct v; reflexivity. Qed.
Lemma TimeInForce_roundtrip (v : TimeInForce) :
  TimeInForce_item (PyStr (time_in_force_string v)) = Ok v.
Proof. destruct v; reflexivity. Qed.
Lemma Currency_roundtrip (v : Currency) : Currency_item (PyStr (currency_string v)) = Ok v.
Proof. destruct v; reflexivity. Qed.
Lemma Broker_roundtrip (v : Broker) : Broker_item (PyStr (broker_string v)) = Ok v.
Proof. destruct v; reflexivity. Qed.
Lemma SecurityType_roundtrip (v : SecurityType) :
  SecurityType_item (PyStr (security_type_string v)) = Ok v.
Proof. destruct v; reflexivity. Qed.

(** The name tables are invertible the other way too. *)
Lemma enum_member_name {E : Type} (name_of : E -> string) (members : list E) (s : string) (m : E) :
  enum_member name_of members (PyStr s) = Ok m -> name_of m = s.
Proof.
  unfold enum_member. destruct (find _ members) eqn:F; [|discriminate].
  intros [= <-]. apply find_some in F as [_ F]. now apply String.eqb_eq.
Qed.

(** ** Orders *)

Ltac split_valid H :=
  repeat match type of H with
         | (_ && _) = true => let H' := fresh H in apply andb_true_iff in H as [H H']; split_valid H'
         end.

Lemma valid_order_parts (o : Order) :
  valid_order o = true ->
  valid_id (Order.id o) = true /\ valid_id (Order.symbol o) = true /\
  valid_time (Order.timestamp o) = true /\ valid_opt valid_price (Order.price o) = true /\
  valid_opt valid_label (Order.label o) = true /\ valid_time (Order.expire_time o) = true /\
  valid_guid (Order.init_id o) = true.
Proof.
  unfold valid_order. intros H.
  repeat (apply andb_true_iff in H as [H ?]). tauto.
Qed.

Lemma order_package_text (o : Order) :
  valid_order o = true -> forallb text_entry (MsgPackOrderSerializer.package o) = true.
Proof.
  intros H. apply valid_order_parts in H as (H1 & H2 & H3 & H4 & H5 & H6 & H7).
  unfold MsgPackOrderSerializer.package. apply forallb_assign; [reflexivity|].
  cbn [forallb fst snd text_entry]. unfold valid_id in *.
  rewrite H1, H2, order_side_string_text, order_type_string_text, time_in_force_string_text.
  rewrite valid_price_opt_text, valid_label_opt_text, !valid_time_text, valid_guid_text
    by assumption.
  reflexivity.
Qed.

Arguments new_id : simpl never.
Arguments parse_symbol : simpl never.
Arguments new_Quantity : simpl never.
Arguments new_Price : simpl never.
Arguments new_Money : simpl never.
Arguments new_Decimal : simpl never.
Arguments GUID_of_UUID : simpl never.
Arguments convert_string_to_datetime : simpl never.
Arguments convert_string_to_price : simpl never.
Arguments convert_string_to_label : simpl never.
Arguments convert_datetime_to_string : simpl never.
Arguments convert_price_to_string : simpl never.
Arguments convert_label_to_string : simpl never.
Arguments OrderSide_item : simpl never.
Arguments OrderType_item : simpl never.
Arguments TimeInForce_item : simpl never.
Arguments Currency_item : simpl never.
Arguments Broker_item : simpl never.
Arguments SecurityType_item : simpl never.
Arguments order_side_string : simpl never.
Arguments order_type_string : simpl never.
Arguments time_in_force_string : simpl never.
Arguments currency_string : simpl never.
Arguments broker_string : simpl never.
Arguments security_type_string : simpl never.


(** Rewrites every constructor applied to what the matching accessor
    gave; the side conditions are validity facts of the context. *)
Ltac read_back :=
  repeat first
    [ rewrite id_roundtrip | rewrite symbol_roundtrip | rewrite Quantity_roundtrip
    | rewrite OrderSide_roundtrip | rewrite OrderType_roundtrip
    | rewrite TimeInForce_roundtrip | rewrite Currency_roundtrip
    | rewrite Broker_roundtrip | rewrite SecurityType_roundtrip
    | rewrite GUID_roundtrip by assumption
    | rewrite datetime_roundtrip by assumption
    | rewrite price_opt_roundtrip by assumption
    | rewrite label_opt_roundtrip by assumption
    | rewrite Price_roundtrip by assumption
    | rewrite Money_roundtrip by assumption
    | rewrite Decimal_roundtrip by assumption
    | progress cbn [bind] ].

Lemma order_from_package (g : GUID) (o : Order) :
  valid_order o = true ->
  MsgPackOrderSerializer.from_unpacked g (MsgPackOrderSerializer.package o)
  = Ok (Some (Order.with_init_id g o)).
Proof.
  intros H. apply valid_order_parts in H as (H1 & H2 & H3 & H4 & H5 & H6 & H7).
  unfold MsgPackOrderSerializer.from_unpacked. cbn. read_back. reflexivity.
Qed.

(** An order that is serialized is read back with every field but
    [init_id], which is the identifier the constructor was handed. *)
Lemma order_roundtrip (g : GUID) (o : Order) (bs : list byte) :
  valid_order o = true ->
  MsgPackOrderSerializer.serialize (Some o) = Ok bs ->
  MsgPackOrderSerializer.deserialize g bs = Ok (Some (Order.with_init_id g o)).
Proof.
  intros Hv Hs. cbn [MsgPackOrderSerializer.serialize] in Hs.
  apply unpackb_packb_text in Hs as [Hu Hlen].
  - unfold MsgPackOrderSerializer.deserialize.
    rewrite not_empty_ok, Hu by assumption. cbn [bind as_dict].
    now apply order_from_package.
  - now apply order_package_text.
  - apply NoDup_keys_assign. constructor.
Qed.

Lemma null_order_bytes : MsgPackOrderSerializer.serialize None = Ok [x80].
Proof. reflexivity. Qed.

Lemma null_order_read (g : GUID) : MsgPackOrderSerializer.deserialize g [x80] = Ok None.
Proof. reflexivity. Qed.

Lemma order_opt_roundtrip (g : GUID) (o : option Order) (bs : list byte) :
  valid_opt valid_order o = true ->
  MsgPackOrderSerializer.serialize o = Ok bs ->
  MsgPackOrderSerializer.deserialize g bs = Ok (rebuilt_order g o).
Proof.
  destruct o as [o|]; cbn [valid_opt rebuilt_order option_map].
  - apply order_roundtrip.
  - intros _. rewrite null_order_bytes. intros [= <-]. apply null_order_read.
Qed.

(** ** Events *)

Ltac valid_parts :=
  repeat match goal with
         | H : (_ && _) = true |- _ => apply andb_true_iff in H as [? ?]
         end.

Ltac text_facts :=
  unfold valid_id in *;
  repeat first
    [ rewrite order_side_string_text | rewrite order_type_string_text
    | rewrite time_in_force_string_text | rewrite currency_string_text
    | rewrite broker_string_text | rewrite security_type_string_text
    | rewrite valid_time_text by assumption
    | rewrite valid_guid_text by assumption
    | match goal with
      | H : decimal_shape ?s = true |- context [is_text ?s] => rewrite (decimal_shape_text s H)
      end
    | match goal with H : is_text ?s = true |- context [is_text ?s] => rewrite H end ].

Lemma event_package_text (e : Event) :
  valid_event e = true -> forallb text_entry (MsgPackEventSerializer.package e) = true.
Proof.
  intros H. unfold valid_event in H.
  destruct e; cbn [event_id_of event_timestamp_of] in H; valid_parts;
    unfold valid_price, valid_money, valid_decimal in *;
    unfold MsgPackEventSerializer.package;
    (apply forallb_assign;
     [ apply forallb_assign; [reflexivity|];
       cbn [forallb fst snd text_entry class_name event_id_of event_timestamp_of]
     | cbn [forallb fst snd text_entry] ]);
    text_facts; reflexivity.
Qed.

Lemma event_from_package (e : Event) :
  valid_event e = true ->
  MsgPackEventSerializer.from_unpacked (MsgPackEventSerializer.package e) = decoded e.
Proof.
  intros H. unfold valid_event in H.
  destruct e; cbn [event_id_of event_timestamp_of] in H; valid_parts;
    unfold MsgPackEventSerializer.from_unpacked; cbn; read_back; reflexivity.
Qed.

(** What comes back from the wire for a serialized event. *)
Lemma event_decode (e : Event) (bs : list byte) :
  valid_event e = true ->
  MsgPackEventSerializer.serialize e = Ok bs ->
  MsgPackEventSerializer.deserialize bs = decoded e.
Proof.
  intros Hv Hs. unfold MsgPackEventSerializer.serialize in Hs.
  apply unpackb_packb_text in Hs as [Hu Hlen].
  - unfold MsgPackEventSerializer.deserialize.
    rewrite not_empty_ok, Hu by assumption. cbn [bind as_dict].
    now apply event_from_package.
  - now apply event_package_text.
  - unfold MsgPackEventSerializer.package.
    destruct e; repeat apply NoDup_keys_assign; constructor.
Qed.

(** ** Commands *)

Arguments utf8_encode : simpl never.
Arguments MsgPackOrderSerializer.deserialize : simpl never.
Arguments MsgPackOrderSerializer.serialize : simpl never.

Lemma command_entry_flat (kv : atom * pyval) :
  command_entry kv = true -> flat_entry true kv = true.
Proof. destruct kv as [[] [[]| |]]; simpl; try discriminate; reflexivity. Qed.

Lemma command_entry_str_key (kv : atom * pyval) : command_entry kv = true -> str_key kv = true.
Proof. destruct kv as [[] ?]; simpl; try discriminate; reflexivity. Qed.

(** The loop "manually unpack and decode" undoes the view that
    [raw=True] gives of a command message. *)
Lemma decode_items_view (d acc : pydict) :
  forallb command_entry d = true ->
  NoDup (keys acc ++ keys d) ->
  MsgPackCommandSerializer.decode_items (map (view_entry true) d) acc = Ok (acc ++ d).
Proof.
  revert acc. induction d as [|[k v] d IH]; intros acc Hc Hnd.
  - simpl. now rewrite app_nil_r.
  - cbn [forallb] in Hc. apply andb_true_iff in Hc as [Hkv Hd].
    assert (Hfresh : ~ In k (keys acc)).
    { intros Hin. apply NoDup_app in Hnd as (_ & Hdisj & _).
      apply (Hdisj k); [now apply list_elem_of_In | left]. }
    assert (Hnext : forall v', NoDup (keys (acc ++ [(k, v')]) ++ keys d)).
    { intros v'. unfold keys at 1. rewrite map_app. simpl. rewrite <- app_assoc. exact Hnd. }
    destruct k as [| | | | |k|]; try discriminate.
    destruct v as [[| | | |p|s|]| |]; try discriminate; cbn [command_entry] in Hkv.
    + (* an integer *)
      apply andb_true_iff in Hkv as [Hk Hok].
      cbn [map view_entry wire_view MsgPackCommandSerializer.decode_items
           MsgPackCommandSerializer.decode_item].
      change (utf8_encode k) with (b k). unfold MsgPackCommandSerializer.decode_item. rewrite Hok.
      cbn [decode_method]. change (b k) with (utf8_encode k).
      rewrite utf8_decode_encode by assumption. cbn [bind].
      rewrite setitem_fresh by assumption.
      rewrite IH; [now rewrite <- app_assoc | assumption | apply Hnext].
    + (* the bytes of a nested order *)
      apply andb_true_iff in Hkv as [Hk Hok].
      cbn [map view_entry wire_view MsgPackCommandSerializer.decode_items
           MsgPackCommandSerializer.decode_item].
      change (utf8_encode k) with (b k). unfold MsgPackCommandSerializer.decode_item. rewrite Hok.
      cbn [negb decode_method]. change (b k) with (utf8_encode k).
      rewrite utf8_decode_encode by assumption. cbn [bind].
      rewrite setitem_fresh by assumption.
      rewrite IH; [now rewrite <- app_assoc | assumption | apply Hnext].
    + (* a text *)
      apply andb_true_iff in Hkv as [Hkv Hok]. apply andb_true_iff in Hkv as [Hk Hs].
      cbn [map view_entry wire_view MsgPackCommandSerializer.decode_items
           MsgPackCommandSerializer.decode_item].
      change (utf8_encode k) with (b k). unfold MsgPackCommandSerializer.decode_item. rewrite Hok.
      cbn [decode_method]. change (b k) with (utf8_encode k).
      rewrite !utf8_decode_encode by assumption. cbn [bind].
      rewrite setitem_fresh by assumption.
      rewrite IH; [now rewrite <- app_assoc | assumption | apply Hnext].
Qed.

Lemma dict_get_view (d : pydict) (k : string) :
  forallb str_key d = true ->
  dict_get (map (view_entry true) d) (ABytes (b k)) =
  option_map (fun v => snd (view_entry true (AStr k, v))) (dict_get d (AStr k)).
Proof.
  induction d as [|[k' v] d IH]; intros Hk; [reflexivity|].
  cbn [forallb] in Hk. apply andb_true_iff in Hk as [Hk' Hd].
  destruct k' as [| | | | |k'|]; try discriminate.
  cbn [map dict_get].
  assert (E : fst (view_entry true (AStr k', v)) = ABytes (utf8_encode k'))
    by (destruct v as [[]| |]; reflexivity).
  destruct (view_entry true (AStr k', v)) as [kk vv] eqn:Ev. cbn [fst] in E. subst kk.
  cbn [atom_eqb].
  destruct (String.eqb_spec k' k) as [->|Hne].
  - replace (bytes_eqb (utf8_encode k) (b k)) with true
      by (symmetry; now apply bytes_eqb_eq).
    cbn [option_map]. f_equal.
    destruct v as [[]| |]; cbn in Ev |- *; congruence.
  - replace (bytes_eqb (utf8_encode k') (b k)) with false.
    + now apply IH.
    + symmetry. destruct (bytes_eqb (utf8_encode k') (b k)) eqn:E; [|reflexivity].
      apply bytes_eqb_eq in E. apply utf8_encode_inj in E. contradiction.
Qed.

(** From the map [unpackb] returns for a packed command message, the
    deserializer goes on with the message's own map. *)
Lemma from_raw_view (g : nat -> GUID) (d : pydict) :
  forallb command_entry d = true -> NoDup (keys d) ->
  dict_get d (AStr TYPE) = Some (PyStr COMMAND) ->
  MsgPackCommandSerializer.from_raw g (map (view_entry true) d) =
  MsgPackCommandSerializer.from_unpacked g d.
Proof.
  intros Hc Hnd Ht. unfold MsgPackCommandSerializer.from_raw, getitem.
  rewrite (dict_get_view d "Type") by (revert Hc; apply forallb_impl, command_entry_str_key).
  change "Type"%string with TYPE. rewrite Ht.
  cbn [option_map view_entry wire_view snd bind decode_method].
  rewrite utf8_decode_encode by reflexivity. cbn [bind].
  rewrite String.eqb_refl. cbn [negb].
  rewrite decode_items_view by assumption. reflexivity.
Qed.

Lemma command_wire (g : nat -> GUID) (d : pydict) (bs : list byte) :
  forallb command_entry d = true -> NoDup (keys d) ->
  dict_get d (AStr TYPE) = Some (PyStr COMMAND) ->
  packb (PyDict d) = Ok bs ->
  MsgPackCommandSerializer.deserialize g bs = MsgPackCommandSerializer.from_unpacked g d.
Proof.
  intros Hc Hnd Ht Hp.
  destruct (unpackb_packb_flat true d bs) as [Hu Hlen]; try assumption.
  { revert Hc. apply forallb_impl, command_entry_flat. }
  unfold MsgPackCommandSerializer.deserialize.
  rewrite not_empty_ok, Hu by assumption. cbn [bind as_dict].
  rewrite reread_view; [now apply from_raw_view | | assumption].
  revert Hc. apply forallb_impl, command_entry_str_key.
Qed.

Ltac command_package_facts :=
  repeat apply forallb_assign; try reflexivity;
  cbn [forallb fst snd command_entry command_id_of command_timestamp_of];
  unfold valid_price in *;
  text_facts; reflexivity.

(** What comes back from the wire for a serialized command: the
    command, its nested orders rebuilt by the [Order] constructor. *)
Lemma command_decode (g : nat -> GUID) (c : Command) (bs : list byte) :
  valid_command c = true ->
  MsgPackCommandSerializer.serialize c = Ok bs ->
  MsgPackCommandSerializer.deserialize g bs = Ok (rebuilt g c).
Proof.
  intros Hv Hs. unfold MsgPackCommandSerializer.serialize in Hs.
  inv_bind Hs. rename x into d.
  unfold valid_command in Hv.
  destruct c as [id ts | tid sid pid o id ts | tid sid pid [e sl tp] id ts
                | tid sid oid p id ts | tid sid oid r id ts];
    cbn [command_id_of command_timestamp_of] in Hv; unfold valid_atomic_order in Hv;
    cbn [entry stop_loss take_profit] in Hv; valid_parts;
    unfold MsgPackCommandSerializer.package in Hs0;
    repeat (let H := fresh "Hser" in
            apply bind_Ok in Hs0 as (? & H & Hs0));
    injection Hs0 as <-.
  - match type of Hs with packb (PyDict ?d) = _ => rewrite (command_wire g d bs) end;
      try assumption.
    + unfold MsgPackCommandSerializer.from_unpacked. cbn. read_back. reflexivity.
    + command_package_facts.
    + apply distinct_NoDup. reflexivity.
    + reflexivity.
  - match type of Hs with packb (PyDict ?d) = _ => rewrite (command_wire g d bs) end;
      try assumption.
    + unfold MsgPackCommandSerializer.from_unpacked. cbn. read_back.
      rewrite (order_opt_roundtrip _ o) by assumption. reflexivity.
    + command_package_facts.
    + apply distinct_NoDup. reflexivity.
    + reflexivity.
  - match type of Hs with packb (PyDict ?d) = _ => rewrite (command_wire g d bs) end;
      try assumption.
    + unfold MsgPackCommandSerializer.from_unpacked.
      cbn [entry stop_loss take_profit] in *. cbn. read_back.
      rewrite (order_opt_roundtrip _ e) by assumption. cbn [bind].
      rewrite (order_opt_roundtrip _ sl) by assumption. cbn [bind].
      rewrite (order_opt_roundtrip _ tp) by assumption. reflexivity.
    + command_package_facts.
    + apply distinct_NoDup. reflexivity.
    + reflexivity.
  - match type of Hs with packb (PyDict ?d) = _ => rewrite (command_wire g d bs) end;
      try assumption.
    + unfold MsgPackCommandSerializer.from_unpacked. cbn. read_back. reflexivity.
    + command_package_facts.
    + apply distinct_NoDup. reflexivity.
    + reflexivity.
  - match type of Hs with packb (PyDict ?d) = _ => rewrite (command_wire g d bs) end;
      try assumption.
    + unfold MsgPackCommandSerializer.from_unpacked. cbn. read_back. reflexivity.
    + command_package_facts.
    + apply distinct_NoDup. reflexivity.
    + reflexivity.
Qed.

(** ** The event round trip *)

(** Inverts a successful run: every [bind] succeeded, every branch
    taken ended in [Ok]. *)
Ltac invert_result H :=
  repeat match type of H with
         | (if ?c then _ else _) = Ok _ => destruct c eqn:?
         | bind _ _ = Ok _ => inv_bind H
         | Raise _ = Ok _ => discriminate H
         end.


(** For every valid event that can be packed, serializing and then
    deserializing gives [decoded e]: the event itself for ten of the
    twelve classes. *)
Lemma event_roundtrip_decoded (e : Event) :
  valid_event e = true ->
  returns (MsgPackEventSerializer.serialize e) = true ->
  event_roundtrip e = decoded e.
Proof.
  intros Hv Hr. unfold event_roundtrip.
  destruct (MsgPackEventSerializer.serialize e) as [bs|] eqn:Hs; [|discriminate].
  cbn [bind]. now apply event_decode.
Qed.

(** An event whose fields the packer accepts is serialized. *)
Lemma event_serialized (e : Event) :
  packable_dict (MsgPackEventSerializer.package e) = true ->
  returns (MsgPackEventSerializer.serialize e) = true.
Proof. apply packb_ok. Qed.

Lemma event_roundtrip_recognized (e : Event) :
  valid_event e = true ->
  returns (MsgPackEventSerializer.serialize e) = true ->
  class_name e <> "OrderInitialized" ->
  class_name e <> "AccountEvent" ->
  event_roundtrip e = Ok e.
Proof.
  intros Hv Hr H1 H2. rewrite event_roundtrip_decoded by assumption.
  destruct e; try reflexivity; contradiction.
Qed.

Example order_filled_roundtrip : event_roundtrip sample_order_filled = Ok sample_order_filled.
Proof. apply event_roundtrip_recognized; [reflexivity | reflexivity | discriminate | discriminate]. Qed.

(** C1.  The event round trip does not hold for all twelve classes:
    the serialization of a valid [OrderInitialized] event is rejected by
    the deserializer, and the serialization of a valid [AccountEvent]
    comes back as a different event. *)
Theorem event_roundtrip_fails :
  valid_event sample_order_initialized = true /\
  event_roundtrip sample_order_initialized
  = Raise (ValueError "Cannot deserialize event (unrecognized event).") /\
  valid_event sample_account_event = true /\
  (exists e, event_roundtrip sample_account_event = Ok e /\ e <> sample_account_event).
Proof.
  split; [reflexivity|]. split; [|split; [reflexivity|]].
  - rewrite event_roundtrip_decoded by reflexivity. reflexivity.
  - eexists. split.
    + rewrite event_roundtrip_decoded by reflexivity. reflexivity.
    + discriminate.
Qed.

(** Whatever bytes it is given, the deserializer returns an
    [AccountEvent] only with the margin call status [NONE]. *)
Lemma deserialized_margin_call_status (bs : list byte)
    (order_id : AccountId) (broker : Broker) (account_number : AccountNumber)
    (currency : Currency) (b1 b2 b3 m1 m2 : Money) (ratio : Decimal)
    (status : ValidString) (id : GUID) (ts : option datetime) :
  MsgPackEventSerializer.deserialize bs
  = Ok (AccountEvent order_id broker account_number currency b1 b2 b3 m1 m2 ratio status id ts) ->
  status = MkId "NONE".
Proof.
  unfold MsgPackEventSerializer.deserialize, MsgPackEventSerializer.from_unpacked.
  intros H. invert_result H; try discriminate.
  match goal with
  | Hn : new_id (PyStr "NONE") = Ok _ |- _ => cbv in Hn; injection Hn as <-
  end.
  congruence.
Qed.

(** C2.  The margin call status of an [AccountEvent] does not survive
    the round trip: the event is serialized with the status
    [MARGIN_CALL] and comes back with [NONE]. *)
Theorem account_event_margin_call_status_lost :
  margin_call_status_of sample_account_event = Some (MkId "MARGIN_CALL") /\
  exists e, event_roundtrip sample_account_event = Ok e /\
            margin_call_status_of e = Some (MkId "NONE").
Proof.
  split; [reflexivity|]. eexists. split.
  - rewrite event_roundtrip_decoded by reflexivity. reflexivity.
  - reflexivity.
Qed.

(** The deserializer returns no [OrderInitialized] event, whatever the
    bytes. *)
Lemma never_order_initialized (bs : list byte) (e : Event) :
  MsgPackEventSerializer.deserialize bs = Ok e -> class_name e <> "OrderInitialized".
Proof.
  unfold MsgPackEventSerializer.deserialize, MsgPackEventSerializer.from_unpacked.
  intros H. invert_result H; try discriminate; injection H as <-; discriminate.
Qed.

(** C6.  A well-formed [OrderInitialized] message, as the serializer
    itself writes it, is not decoded: the deserializer raises the
    "unrecognized event" error, and it returns an [OrderInitialized]
    event for no input at all. *)
Theorem order_initialized_not_decoded :
  (exists bs, MsgPackEventSerializer.serialize sample_order_initialized = Ok bs /\
              MsgPackEventSerializer.deserialize bs
              = Raise (ValueError "Cannot deserialize event (unrecognized event).")) /\
  (forall bs e, MsgPackEventSerializer.deserialize bs = Ok e ->
                class_name e <> "OrderInitialized").
Proof.
  split; [|apply never_order_initialized].
  destruct (MsgPackEventSerializer.serialize sample_order_initialized) as [bs|] eqn:Hs;
    [|discriminate Hs].
  exists bs. split; [reflexivity|].
  now rewrite (event_decode sample_order_initialized bs eq_refl Hs).
Qed.

(** ** The command round trip *)

(** For every valid command that can be packed, serializing and then
    deserializing gives the command with its nested orders rebuilt. *)
Lemma command_roundtrip_rebuilt (new_guid : nat -> GUID) (c : Command) :
  valid_command c = true ->
  returns (MsgPackCommandSerializer.serialize c) = true ->
  command_roundtrip new_guid c = Ok (rebuilt new_guid c).
Proof.
  intros Hv Hr. unfold command_roundtrip.
  destruct (MsgPackCommandSerializer.serialize c) as [bs|] eqn:Hs; [|discriminate].
  cbn [bind]. now apply command_decode.
Qed.

(** A command without nested orders comes back as it was, its prices
    letter for letter. *)
Lemma command_roundtrip_plain (new_guid : nat -> GUID) (c : Command) :
  valid_command c = true ->
  returns (MsgPackCommandSerializer.serialize c) = true ->
  order_of c = None -> atomic_order_of c = None ->
  command_roundtrip new_guid c = Ok c.
Proof.
  intros Hv Hr Ho Ha. rewrite command_roundtrip_rebuilt by assumption.
  destruct c; try reflexivity; simpl in *; [now subst | discriminate].
Qed.

Lemma with_init_id_same (g : GUID) (o : Order) :
  Order.with_init_id g o = o -> g = Order.init_id o.
Proof. destruct o. unfold Order.with_init_id. simpl. congruence. Qed.

(** C5.  The command round trip does not hold for a command with a
    nested order: the [InitId] that the order serializer writes is not
    read back, and the order comes back with the identifier its
    constructor was handed, whatever that is. *)
Theorem submit_order_init_id_not_restored :
  valid_command sample_submit_order = true /\
  forall new_guid : nat -> GUID,
    command_roundtrip new_guid sample_submit_order = Ok (rebuilt new_guid sample_submit_order) /\
    order_of (rebuilt new_guid sample_submit_order)
    = Some (Order.with_init_id (new_guid 0%nat) sample_order) /\
    (new_guid 0%nat <> Order.init_id sample_order ->
     command_roundtrip new_guid sample_submit_order <> Ok sample_submit_order).
Proof.
  split; [reflexivity|]. intros new_guid.
  assert (H : command_roundtrip new_guid sample_submit_order
              = Ok (rebuilt new_guid sample_submit_order)).
  { apply command_roundtrip_rebuilt; reflexivity. }
  split; [exact H|]. split; [reflexivity|].
  intros Hne. rewrite H. intros [= E]. apply Hne.
  now apply with_init_id_same.
Qed.

(** C4.  The null order is written as the empty map and read back as
    no order, and in a [SubmitAtomicOrder] round trip a stop-loss or
    take-profit leg is absent afterwards exactly when it was absent
    before. *)
Theorem null_order_law (g : GUID) (new_guid : nat -> GUID)
    (trader_id : TraderId) (strategy_id : StrategyId) (position_id : PositionId)
    (a : AtomicOrder) (id : GUID) (ts : option datetime) (bs : list byte) :
  valid_command (SubmitAtomicOrder trader_id strategy_id position_id a id ts) = true ->
  MsgPackCommandSerializer.serialize
    (SubmitAtomicOrder trader_id strategy_id position_id a id ts) = Ok bs ->
  MsgPackOrderSerializer.serialize None = packb (PyDict []) /\
  (exists nb, MsgPackOrderSerializer.serialize None = Ok nb /\
              MsgPackOrderSerializer.deserialize g nb = Ok None) /\
  exists a',
    MsgPackCommandSerializer.deserialize new_guid bs
    = Ok (SubmitAtomicOrder trader_id strategy_id position_id a' id ts) /\
    entry a' = rebuilt_order (new_guid 0%nat) (entry a) /\
    (stop_loss a' = None <-> stop_loss a = None) /\
    (take_profit a' = None <-> take_profit a = None).
Proof.
  intros Hv Hs. split; [reflexivity|]. split.
  { exists [x80]. split; [apply null_order_bytes | apply null_order_read]. }
  eexists. split; [exact (command_decode new_guid _ bs Hv Hs)|].
  cbn [entry stop_loss take_profit]. split; [reflexivity|].
  split; destruct a as [e [sl|] [tp|]]; simpl; split; congruence.
Qed.

Lemma null_order_law_witness :
  MsgPackOrderSerializer.serialize None = packb (PyDict []) /\
  (exists nb, MsgPackOrderSerializer.serialize None = Ok nb /\
              MsgPackOrderSerializer.deserialize sample_guid nb = Ok None) /\
  exists a',
    MsgPackCommandSerializer.deserialize (fun _ => other_guid) sample_atomic_bytes
    = Ok (SubmitAtomicOrder (MkId "Trader-001") (MkId "Strategy-001") (MkId "P-1") a'
                            sample_guid sample_time) /\
    entry a' = rebuilt_order other_guid (Some sample_order) /\
    (stop_loss a' = None <-> @None Order = None) /\
    (take_profit a' = None <-> @None Order = None).
Proof.
  apply (null_order_law sample_guid (fun _ => other_guid) (MkId "Trader-001")
           (MkId "Strategy-001") (MkId "P-1") (MkAtomicOrder (Some sample_order) None None)
           sample_guid sample_time sample_atomic_bytes).
  - reflexivity.
  - vm_compute. reflexivity.
Defined.

(** ** Empty input *)

(** C3.  On the empty buffer the order, command and event deserializers
    raise the precondition violation and the instrument deserializer,
    which checks no precondition, raises the unpacker's error: none
    returns an object, and three of the four fail as the contract
    says. *)
Theorem empty_buffer_rejected :
  (forall g, MsgPackOrderSerializer.deserialize g [] = Raise (PreconditionError "order_bytes")) /\
  (forall g, MsgPackCommandSerializer.deserialize g []
             = Raise (PreconditionError "command_bytes")) /\
  MsgPackEventSerializer.deserialize [] = Raise (PreconditionError "event_bytes") /\
  MsgPackInstrumentSerializer.deserialize [] = Raise UnpackError /\
  is_precondition_violation (MsgPackInstrumentSerializer.deserialize []) = false.
Proof. repeat split. Qed.

(** ** The maps [unpackb] returns *)

Lemma unpack_map_NoDup (raw : bool) (fuel : nat) :
  forall (n : N) (bs : list byte) (acc : pydict) (v : pyval) (rest : list byte),
    NoDup (keys acc) ->
    unpack_map raw fuel n bs acc = Ok (v, rest) ->
    exists d, v = PyDict d /\ NoDup (keys d).
Proof.
  induction fuel as [|f IH]; intros n bs acc v rest Hnd H; [discriminate|].
  rewrite unpack_map_S in H. destruct (n =? 0).
  - injection H as <- <-. eauto.
  - inv_bind H. inv_bind H. inv_bind H.
    apply IH in H; [assumption|]. now apply NoDup_keys_setitem.
Qed.

Lemma unpack_array_list (raw : bool) (fuel : nat) :
  forall (n : N) (bs : list byte) (acc : list pyval) (v : pyval) (rest : list byte),
    unpack_array raw fuel n bs acc = Ok (v, rest) -> exists l, v = PyList l.
Proof.
  induction fuel as [|f IH]; intros n bs acc v rest H; [discriminate|].
  rewrite unpack_array_S in H. destruct (n =? 0).
  - injection H as <- <-. eauto.
  - inv_bind H. now apply IH in H.
Qed.

Lemma unpack_obj_dict_NoDup (raw : bool) (fuel : nat) (bs rest : list byte) (d : pydict) :
  unpack_obj raw fuel bs = Ok (PyDict d, rest) -> NoDup (keys d).
Proof.
  destruct fuel as [|f]; [discriminate|]. rewrite unpack_obj_S. intros H.
  inv_bind H. destruct (fst x) eqn:Eh.
  - discriminate.
  - destruct (take_bytes n (snd x)) as [[p r]|]; [|discriminate].
    unfold raw_value in H. destruct raw; [discriminate H|].
    inv_bind H. inv_bind H1. congruence.
  - destruct (take_bytes n (snd x)) as [[p r]|]; discriminate.
  - destruct (snd x); [discriminate|].
    destruct (take_bytes n l) as [[p r]|]; discriminate.
  - destruct (take_bytes w (snd x)) as [[p r]|]; discriminate.
  - apply unpack_array_list in H as [l Hl]. discriminate.
  - apply unpack_map_NoDup in H as (d' & [= ->] & Hnd); [assumption | constructor].
Qed.

(** The keys of a map read from the wire are distinct. *)
Lemma unpackb_dict_NoDup (raw : bool) (bs : list byte) (d : pydict) :
  unpackb raw bs = Ok (PyDict d) -> NoDup (keys d).
Proof.
  unfold unpackb. intros H. inv_bind H. destruct x as [v rest]. simpl in H.
  destruct rest; [|discriminate]. injection H as ->.
  now apply unpack_obj_dict_NoDup in H0.
Qed.

Lemma unpackb_nonempty (raw : bool) (bs : list byte) (v : pyval) :
  unpackb raw bs = Ok v -> (1 <= length bs)%nat.
Proof. destruct bs; [discriminate | simpl; lia]. Qed.

(** ** The decoding loop of the command deserializer *)

Lemma utf8_decode_Ok (bs : list byte) (s : string) :
  utf8_decode bs = Ok s -> utf8_valid bs = true /\ s = string_of_list_byte bs.
Proof. unfold utf8_decode. destruct (utf8_valid bs); [intros [= <-]; auto | discriminate]. Qed.

Lemma decode_method_Ok (k : atom) (s : string) :
  decode_method (PyAtom k) = Ok s ->
  exists kb, k = ABytes kb /\ utf8_valid kb = true /\ s = string_of_list_byte kb.
Proof.
  destruct k; try discriminate. cbn [decode_method]. intros H.
  apply utf8_decode_Ok in H as [H1 H2]. eauto.
Qed.

(** One round of the loop: the key is a byte string that decodes, and
    the value is stored as it is under an order key, decoded if it is a
    byte string under another key. *)
Lemma decode_item_Ok (acc u : pydict) (k : atom) (v : pyval) :
  MsgPackCommandSerializer.decode_item acc k v = Ok u ->
  exists kb, k = ABytes kb /\ utf8_valid kb = true /\
             u = setitem acc (AStr (string_of_list_byte kb)) (decoded_value k v) /\
             (MsgPackCommandSerializer.is_order_key k = false ->
              forall vb, v = PyBytes vb -> utf8_valid vb = true).
Proof.
  unfold MsgPackCommandSerializer.decode_item, decoded_value.
  destruct (MsgPackCommandSerializer.is_order_key k) eqn:Ek; cbn [negb].
  - intros H. inv_bind H. injection H as <-.
    apply decode_method_Ok in H0 as (kb & -> & Hv & ->).
    exists kb. repeat split; try assumption. discriminate.
  - destruct v as [[| | | |vb| |]| |]; intros H; repeat inv_bind H; injection H as <-;
      try (apply decode_method_Ok in H0 as (kb & -> & Hv & ->);
           exists kb; repeat split; try assumption; intros _ ? [=]).
    apply utf8_decode_Ok in H0 as [Hvb ->].
    apply decode_method_Ok in H1 as (kb & -> & Hv & ->).
    exists kb. repeat split; try assumption. now intros _ ? [= <-].
Qed.

Lemma string_of_list_byte_inj (x y : list byte) :
  string_of_list_byte x = string_of_list_byte y -> x = y.
Proof.
  intros H. rewrite <- (list_byte_of_string_of_list_byte x),
                    <- (list_byte_of_string_of_list_byte y). now rewrite H.
Qed.

(** Entries stored before the loop reaches a key with another name are
    not touched by the rest of the loop. *)
Lemma decode_items_keeps (d acc u : pydict) (name : string) :
  MsgPackCommandSerializer.decode_items d acc = Ok u ->
  ~ In (ABytes (list_byte_of_string name)) (keys d) ->
  dict_get u (AStr name) = dict_get acc (AStr name).
Proof.
  revert acc. induction d as [|[k v] d IH]; intros acc H Hnot.
  - injection H as <-. reflexivity.
  - cbn [MsgPackCommandSerializer.decode_items] in H. inv_bind H.
    apply decode_item_Ok in H0 as (kb & -> & Hv & -> & _).
    rewrite (IH _ H) by (intros Hin; apply Hnot; now right).
    rewrite dict_get_setitem. cbn [atom_eqb].
    destruct (String.eqb_spec (string_of_list_byte kb) name) as [E|_]; [|reflexivity].
    exfalso. apply Hnot. left. f_equal. subst name.
    now rewrite list_byte_of_string_of_list_byte.
Qed.

(** What the loop leaves under the name of a key of the unpacked map. *)
Lemma decode_items_lookup (d acc u : pydict) (kb : list byte) (v : pyval) :
  NoDup (keys d) ->
  MsgPackCommandSerializer.decode_items d acc = Ok u ->
  dict_get d (ABytes kb) = Some v ->
  utf8_valid kb = true /\
  dict_get u (AStr (string_of_list_byte kb)) = Some (decoded_value (ABytes kb) v) /\
  (MsgPackCommandSerializer.is_order_key (ABytes kb) = false ->
   forall vb, v = PyBytes vb -> utf8_valid vb = true).
Proof.
  revert acc. induction d as [|[k v0] d IH]; intros acc Hnd H Hget; [discriminate|].
  cbn [keys map fst] in Hnd. apply NoDup_cons in Hnd as [Hk Hnd].
  cbn [MsgPackCommandSerializer.decode_items] in H. inv_bind H.
  cbn [dict_get] in Hget. destruct (atom_eqb k (ABytes kb)) eqn:E.
  - apply atom_eqb_eq in E. subst k. injection Hget as ->.
    apply decode_item_Ok in H0 as (kb' & [= <-] & Hv & -> & Hvb).
    split; [assumption|]. split; [|assumption].
    rewrite (decode_items_keeps _ _ _ _ H).
    + rewrite dict_get_setitem, atom_eqb_refl. reflexivity.
    + rewrite list_byte_of_string_of_list_byte. intros Hin. apply Hk.
      now apply list_elem_of_In.
  - now apply (IH x).
Qed.

(** Nothing is under a name in the decoded map unless the unpacked map
    has the key. *)
Lemma decode_items_origin (d u : pydict) (name : string) (x : pyval) :
  NoDup (keys d) ->
  MsgPackCommandSerializer.decode_items d [] = Ok u ->
  dict_get u (AStr name) = Some x ->
  exists v, dict_get d (ABytes (b name)) = Some v /\
            x = decoded_value (ABytes (b name)) v.
Proof.
  intros Hnd H Hx. destruct (dict_get d (ABytes (b name))) as [v|] eqn:E.
  - exists v. split; [reflexivity|].
    destruct (decode_items_lookup d [] u (b name) v Hnd H E) as (_ & Hl & _).
    unfold b in *. rewrite string_of_list_byte_of_string in Hl. congruence.
  - apply dict_get_None in E.
    rewrite (decode_items_keeps d [] u name H) in Hx by exact E. discriminate.
Qed.

Lemma is_order_key_names (kb : list byte) :
  MsgPackCommandSerializer.is_order_key (ABytes kb) = true <->
  In (string_of_list_byte kb) order_names.
Proof.
  unfold MsgPackCommandSerializer.is_order_key, order_names.
  rewrite existsb_exists. split.
  - intros (k & Hin & E). apply atom_eqb_eq in E. subst k.
    cbn [In] in Hin.
    repeat (destruct Hin as [[= <-]|Hin]; [vm_compute; tauto|]). contradiction.
  - intros Hin. exists (ABytes kb). split; [|apply atom_eqb_refl].
    assert (E : forall name, string_of_list_byte kb = name -> kb = b name).
    { intros name <-. unfold b. now rewrite list_byte_of_string_of_list_byte. }
    cbn [In] in Hin |- *.
    repeat (destruct Hin as [Hin|Hin]; [symmetry in Hin; apply E in Hin; rewrite Hin; tauto|]).
    contradiction.
Qed.

(** The nested order of a deserialized [SubmitOrder] is what the order
    deserializer makes of the bytes found under [Order] in the unpacked
    map. *)
Lemma submit_order_from_raw_bytes (new_guid : nat -> GUID) (bs : list byte)
    (unpacked_raw : pydict) (t : TraderId) (s : StrategyId) (p : PositionId)
    (o : option Order) (id : GUID) (ts : option datetime) :
  unpackb true bs = Ok (PyDict unpacked_raw) ->
  MsgPackCommandSerializer.deserialize new_guid bs = Ok (SubmitOrder t s p o id ts) ->
  exists ob, dict_get unpacked_raw (ABytes (b ORDER)) = Some (PyBytes ob) /\
             MsgPackOrderSerializer.deserialize (new_guid 0%nat) ob = Ok o.
Proof.
  intros Hu H. pose proof (unpackb_dict_NoDup _ _ _ Hu) as Hnd.
  unfold MsgPackCommandSerializer.deserialize in H.
  rewrite not_empty_ok, Hu in H by (now apply unpackb_nonempty in Hu).
  cbn [bind as_dict] in H.
  unfold MsgPackCommandSerializer.from_raw in H. invert_result H.
  unfold MsgPackCommandSerializer.from_unpacked in H. invert_result H; try discriminate.
  injection H as <- <- <- <- <- <-.
  match goal with
  | Hf : field _ ORDER _ = Ok _ |- _ => unfold field, getitem in Hf; inv_bind Hf
  end.
  match goal with
  | Hg : match dict_get ?u (AStr ORDER) with _ => _ end = Ok ?x |- _ =>
    destruct (dict_get u (AStr ORDER)) as [x'|] eqn:Ex; [injection Hg as ->|discriminate Hg]
  end.
  match goal with
  | Hd : MsgPackCommandSerializer.decode_items unpacked_raw [] = Ok _ |- _ =>
    destruct (decode_items_origin _ _ _ _ Hnd Hd Ex) as (v & Hv & ->)
  end.
  unfold decoded_value in *.
  replace (MsgPackCommandSerializer.is_order_key (ABytes (b ORDER))) with true in * by reflexivity.
  destruct v as [[| | | |ob| |]| |]; try discriminate.
  exists ob. split; assumption.
Qed.

(** The legs of a deserialized [SubmitAtomicOrder] are what the order
    deserializer makes of the bytes found under [Entry], [StopLoss] and
    [TakeProfit] in the unpacked map, in that order. *)
Lemma submit_atomic_order_from_raw_bytes (new_guid : nat -> GUID) (bs : list byte)
    (unpacked_raw : pydict) (t : TraderId) (s : StrategyId) (p : PositionId)
    (a : AtomicOrder) (id : GUID) (ts : option datetime) :
  unpackb true bs = Ok (PyDict unpacked_raw) ->
  MsgPackCommandSerializer.deserialize new_guid bs = Ok (SubmitAtomicOrder t s p a id ts) ->
  exists eb sb tb,
    dict_get unpacked_raw (ABytes (b ENTRY)) = Some (PyBytes eb) /\
    dict_get unpacked_raw (ABytes (b STOP_LOSS)) = Some (PyBytes sb) /\
    dict_get unpacked_raw (ABytes (b TAKE_PROFIT)) = Some (PyBytes tb) /\
    MsgPackOrderSerializer.deserialize (new_guid 0%nat) eb = Ok (entry a) /\
    MsgPackOrderSerializer.deserialize (new_guid 1%nat) sb = Ok (stop_loss a) /\
    MsgPackOrderSerializer.deserialize (new_guid 2%nat) tb = Ok (take_profit a).
Proof.
  intros Hu H. pose proof (unpackb_dict_NoDup _ _ _ Hu) as Hnd.
  unfold MsgPackCommandSerializer.deserialize in H.
  rewrite not_empty_ok, Hu in H by (now apply unpackb_nonempty in Hu).
  cbn [bind as_dict] in H.
  unfold MsgPackCommandSerializer.from_raw in H. invert_result H.
  unfold MsgPackCommandSerializer.from_unpacked in H. invert_result H; try discriminate.
  injection H as <- <- <- <- <- <-. cbn [entry stop_loss take_profit].
  match goal with
  | Hd : MsgPackCommandSerializer.decode_items unpacked_raw [] = Ok _ |- _ =>
    rename Hd into Hloop
  end.
  assert (R : forall name g (o : option Order) u,
             MsgPackCommandSerializer.decode_items unpacked_raw [] = Ok u ->
             MsgPackCommandSerializer.is_order_key (ABytes (b name)) = true ->
             field u name (MsgPackOrderSerializer.deserialize_value g) = Ok o ->
             exists ob, dict_get unpacked_raw (ABytes (b name)) = Some (PyBytes ob) /\
                        MsgPackOrderSerializer.deserialize g ob = Ok o).
  { intros name g o u Hl Hkey Hf. unfold field, getitem in Hf. inv_bind Hf.
    destruct (dict_get u (AStr name)) as [x'|] eqn:Ex; [|discriminate].
    match goal with Hg : Ok x' = Ok _ |- _ => injection Hg as <- end.
    destruct (decode_items_origin _ _ _ _ Hnd Hl Ex) as (v & Hv & ->).
    unfold decoded_value in Hf. rewrite Hkey in Hf.
    destruct v as [[| | | |ob| |]| |]; try discriminate Hf.
    exists ob. split; assumption. }
  repeat match goal with
         | Hf : field _ ?name (MsgPackOrderSerializer.deserialize_value _) = Ok _ |- _ =>
           apply (R name _ _ _ Hloop eq_refl) in Hf; destruct Hf as (? & ? & ?)
         end.
  eauto 10.
Qed.

(** *** The deserializer on a buffer read field by field *)

(** Once the loop went through and [Type] says [Command], the result is
    that of the dispatch on the decoded map. *)
Lemma command_from_decoded (new_guid : nat -> GUID) (bs : list byte)
    (unpacked_raw unpacked : pydict) :
  unpackb true bs = Ok (PyDict unpacked_raw) ->
  MsgPackCommandSerializer.decode_items unpacked_raw [] = Ok unpacked ->
  command_field bs TYPE = Some COMMAND ->
  MsgPackCommandSerializer.deserialize new_guid bs
  = MsgPackCommandSerializer.from_unpacked new_guid unpacked.
Proof.
  intros Hu Hd Ht. unfold MsgPackCommandSerializer.deserialize.
  rewrite not_empty_ok, Hu by (now apply unpackb_nonempty in Hu). cbn [bind as_dict].
  unfold command_field in Ht. rewrite Hu in Ht. change (b TYPE) with (b "Type") in Ht.
  unfold MsgPackCommandSerializer.from_raw, getitem.
  destruct (dict_get unpacked_raw (ABytes (b "Type"))) as [[[| | | |t| |]| |]|];
    try discriminate Ht.
  cbn [bind decode_method]. destruct (utf8_decode t) as [m|]; [|discriminate Ht].
  injection Ht as ->. cbn [bind]. rewrite Hd. reflexivity.
Qed.

(** A text of the buffer, under a key that is not one of the four
    order keys, is in the decoded map as a text. *)
Lemma decoded_text_field (bs : list byte) (unpacked_raw unpacked : pydict) (key s : string) :
  unpackb true bs = Ok (PyDict unpacked_raw) ->
  MsgPackCommandSerializer.decode_items unpacked_raw [] = Ok unpacked ->
  MsgPackCommandSerializer.is_order_key (ABytes (b key)) = false ->
  command_field bs key = Some s ->
  dict_get unpacked (AStr key) = Some (PyStr s).
Proof.
  intros Hu Hd Hkey Hf. pose proof (unpackb_dict_NoDup _ _ _ Hu) as Hnd.
  unfold command_field in Hf. rewrite Hu in Hf.
  destruct (dict_get unpacked_raw (ABytes (b key))) as [[[| | | |t| |]| |]|] eqn:Hg;
    try discriminate Hf.
  destruct (utf8_decode t) as [m|] eqn:Em; [|discriminate Hf]. injection Hf as ->.
  apply utf8_decode_Ok in Em as [_ ->].
  destruct (decode_items_lookup _ _ _ _ _ Hnd Hd Hg) as (_ & Hl & _).
  unfold decoded_value in Hl. rewrite Hkey in Hl.
  unfold b in Hl. now rewrite string_of_list_byte_of_string in Hl.
Qed.

(** The value under an order key is in the decoded map as it is. *)
Lemma raw_order_field (bs : list byte) (unpacked_raw unpacked : pydict) (key : string)
    (v : pyval) :
  unpackb true bs = Ok (PyDict unpacked_raw) ->
  MsgPackCommandSerializer.decode_items unpacked_raw [] = Ok unpacked ->
  MsgPackCommandSerializer.is_order_key (ABytes (b key)) = true ->
  dict_get unpacked_raw (ABytes (b key)) = Some v ->
  dict_get unpacked (AStr key) = Some v.
Proof.
  intros Hu Hd Hkey Hg. pose proof (unpackb_dict_NoDup _ _ _ Hu) as Hnd.
  destruct (decode_items_lookup _ _ _ _ _ Hnd Hd Hg) as (_ & Hl & _).
  unfold decoded_value in Hl. rewrite Hkey in Hl.
  unfold b in Hl. now rewrite string_of_list_byte_of_string in Hl.
Qed.

(** Evaluates the dispatch of [from_unpacked] on a decoded map whose
    entries are known. *)
Ltac read_decoded Hu Hd :=
  repeat match goal with
         | H : command_field _ ?key = Some _ |- _ =>
           apply (decoded_text_field _ _ _ key _ Hu Hd eq_refl) in H
         | H : dict_get _ (ABytes (b ?key)) = Some _ |- _ =>
           apply (raw_order_field _ _ _ key _ Hu Hd eq_refl) in H
         end;
  unfold MsgPackCommandSerializer.from_unpacked, field, getitem;
  repeat match goal with
         | H : dict_get ?u (AStr ?key) = Some _ |- context [dict_get ?u (AStr ?key)] =>
           rewrite H
         end;
  cbn [bind typed_str];
  repeat match goal with
         | |- context [str_eq (Some ?x) ?y] =>
           let r := eval vm_compute in (str_eq (Some x) y) in
           change (str_eq (Some x) y) with r
         end;
  cbv iota;
  repeat match goal with
         | H : ?m = Ok _ |- context [?m] => rewrite H
         end;
  unfold new_id, new_Price, decimal_string, as_str,
    MsgPackOrderSerializer.deserialize_value;
  cbn [bind].

(** C10.  For every buffer the command deserializer unpacks and whose
    entries its loop decodes: the values under [Order], [Entry],
    [StopLoss] and [TakeProfit] are in the decoded map as the unpacked
    map has them, and every other byte string is there UTF-8 decoded to
    a text; the nested orders of a returned [SubmitOrder] or
    [SubmitAtomicOrder] are what the order deserializer returned for
    the bytes under those keys; and when the message is a [SubmitOrder]
    or a [SubmitAtomicOrder] with a well-formed identifier and
    timestamp, the result is the command built from the decoded texts of
    the other fields and from the order deserializer's results on those
    raw bytes, called in the order entry, stop-loss, take-profit, an
    error of one of them being the error of the whole. *)
Theorem nested_order_bytes_stay_raw (new_guid : nat -> GUID) (bs : list byte)
    (unpacked_raw unpacked : pydict) :
  unpackb true bs = Ok (PyDict unpacked_raw) ->
  MsgPackCommandSerializer.decode_items unpacked_raw [] = Ok unpacked ->
  (forall kb v,
      dict_get unpacked_raw (ABytes kb) = Some v ->
      exists k,
        utf8_decode kb = Ok k /\
        (In k order_names -> dict_get unpacked (AStr k) = Some v) /\
        (~ In k order_names ->
         (forall vb, v = PyBytes vb ->
                     exists s, utf8_decode vb = Ok s /\
                               dict_get unpacked (AStr k) = Some (PyStr s)) /\
         (is_bytes v = false -> dict_get unpacked (AStr k) = Some v))) /\
  (forall t s p o id ts,
      MsgPackCommandSerializer.deserialize new_guid bs = Ok (SubmitOrder t s p o id ts) ->
      exists ob, dict_get unpacked_raw (ABytes (b ORDER)) = Some (PyBytes ob) /\
                 MsgPackOrderSerializer.deserialize (new_guid 0%nat) ob = Ok o) /\
  (forall t s p a id ts,
      MsgPackCommandSerializer.deserialize new_guid bs = Ok (SubmitAtomicOrder t s p a id ts) ->
      exists eb sb tb,
        dict_get unpacked_raw (ABytes (b ENTRY)) = Some (PyBytes eb) /\
        dict_get unpacked_raw (ABytes (b STOP_LOSS)) = Some (PyBytes sb) /\
        dict_get unpacked_raw (ABytes (b TAKE_PROFIT)) = Some (PyBytes tb) /\
        MsgPackOrderSerializer.deserialize (new_guid 0%nat) eb = Ok (entry a) /\
        MsgPackOrderSerializer.deserialize (new_guid 1%nat) sb = Ok (stop_loss a) /\
        MsgPackOrderSerializer.deserialize (new_guid 2%nat) tb = Ok (take_profit a)) /\
  (forall id_text id time_text ts trader strategy position,
      command_field bs TYPE = Some COMMAND ->
      command_field bs COMMAND_ID = Some id_text -> GUID_of_UUID (PyStr id_text) = Ok id ->
      command_field bs COMMAND_TIMESTAMP = Some time_text ->
      convert_string_to_datetime (PyStr time_text) = Ok ts ->
      command_field bs TRADER_ID = Some trader ->
      command_field bs STRATEGY_ID = Some strategy ->
      command_field bs POSITION_ID = Some position ->
      (forall ob,
          command_field bs COMMAND = Some SUBMIT_ORDER ->
          dict_get unpacked_raw (ABytes (b ORDER)) = Some (PyBytes ob) ->
          MsgPackCommandSerializer.deserialize new_guid bs
          = (o <- MsgPackOrderSerializer.deserialize (new_guid 0%nat) ob ;;
             Ok (SubmitOrder (MkId trader) (MkId strategy) (MkId position) o id ts))) /\
      (forall eb sb tb,
          command_field bs COMMAND = Some SUBMIT_ATOMIC_ORDER ->
          dict_get unpacked_raw (ABytes (b ENTRY)) = Some (PyBytes eb) ->
          dict_get unpacked_raw (ABytes (b STOP_LOSS)) = Some (PyBytes sb) ->
          dict_get unpacked_raw (ABytes (b TAKE_PROFIT)) = Some (PyBytes tb) ->
          MsgPackCommandSerializer.deserialize new_guid bs
          = (e <- MsgPackOrderSerializer.deserialize (new_guid 0%nat) eb ;;
             sl <- MsgPackOrderSerializer.deserialize (new_guid 1%nat) sb ;;
             tp <- MsgPackOrderSerializer.deserialize (new_guid 2%nat) tb ;;
             Ok (SubmitAtomicOrder (MkId trader) (MkId strategy) (MkId position)
                   (MkAtomicOrder e sl tp) id ts)))).
Proof.
  intros Hu Hd. pose proof (unpackb_dict_NoDup _ _ _ Hu) as Hnd.
  split; [|split; [|split; [|]]].
  - intros kb v Hget.
    destruct (decode_items_lookup _ _ _ _ _ Hnd Hd Hget) as (Hkb & Hl & Hvb).
    exists (string_of_list_byte kb). unfold utf8_decode at 1. rewrite Hkb.
    split; [reflexivity|]. unfold decoded_value in Hl. split.
    + intros Hin. apply is_order_key_names in Hin. now rewrite Hin in Hl.
    + intros Hnot.
      assert (E : MsgPackCommandSerializer.is_order_key (ABytes kb) = false).
      { destruct (MsgPackCommandSerializer.is_order_key (ABytes kb)) eqn:E; [|reflexivity].
        apply is_order_key_names in E. contradiction. }
      rewrite E in Hl. split.
      * intros vb ->. exists (string_of_list_byte vb). split; [|assumption].
        unfold utf8_decode. now rewrite (Hvb E vb eq_refl).
      * intros Hb. destruct v as [[]| |]; try discriminate; assumption.
  - intros t s p o id ts H. now apply (submit_order_from_raw_bytes new_guid bs _ t s p o id ts).
  - intros t s p a id ts H.
    now apply (submit_atomic_order_from_raw_bytes new_guid bs _ t s p a id ts).
  - intros id_text id time_text ts trader strategy position Ht Hid Hguid Htime Hts Htr Hst Hpo.
    rewrite (command_from_decoded new_guid bs _ _ Hu Hd Ht). clear Ht. split.
    + intros ob Hc Hob. read_decoded Hu Hd. reflexivity.
    + intros eb sb tb Hc Heb Hsb Htb. read_decoded Hu Hd. reflexivity.
Qed.

(** On the sample [SubmitOrder] message: the order is read from the
    bytes under [Order] as the unpacked map has them. *)
Lemma nested_order_bytes_stay_raw_witness :
  dict_get sample_unpacked_raw (ABytes (b ORDER)) = Some (PyBytes sample_order_bytes) /\
  dict_get sample_unpacked (AStr ORDER) = Some (PyBytes sample_order_bytes) /\
  MsgPackCommandSerializer.deserialize (fun _ => other_guid) sample_submit_order_bytes
  = (o <- MsgPackOrderSerializer.deserialize other_guid sample_order_bytes ;;
     Ok (SubmitOrder (MkId "Trader-001") (MkId "Strategy-001") (MkId "P-1") o
           sample_guid sample_time)).
Proof.
  destruct (nested_order_bytes_stay_raw (fun _ => other_guid) sample_submit_order_bytes
              sample_unpacked_raw sample_unpacked
              ltac:(vm_compute; reflexivity) ltac:(vm_compute; reflexivity))
    as (Hloop & _ & _ & Hread).
  split; [vm_compute; reflexivity|]. split.
  - destruct (Hloop (b ORDER) (PyBytes sample_order_bytes) ltac:(vm_compute; reflexivity))
      as (k & Hk & Hin & _).
    vm_compute in Hk. injection Hk as <-. apply Hin. simpl. tauto.
  - apply (Hread (guid_value sample_guid) sample_guid
             (convert_datetime_to_string sample_time) sample_time
             "Trader-001"%string "Strategy-001"%string "P-1"%string);
      vm_compute; reflexivity.
Defined.

(** ** Messages of another type or of an unknown variant *)

Lemma not_in_names (names : list string) (tag name : string) :
  ~ In tag names -> In name names -> String.eqb tag name = false.
Proof.
  intros Hnot Hin. destruct (String.eqb_spec tag name) as [->|]; [contradiction | reflexivity].
Qed.

Lemma event_field_Some (bs : list byte) (key s : string) :
  event_field bs key = Some s ->
  exists d, unpackb false bs = Ok (PyDict d) /\ dict_get d (AStr key) = Some (PyStr s).
Proof.
  unfold event_field. destruct (unpackb false bs) as [[| |d]|]; try discriminate.
  destruct (dict_get d (AStr key)) as [[[]| |]|] eqn:E; try discriminate.
  intros [= ->]. eauto.
Qed.

Lemma command_field_Some (bs : list byte) (key s : string) :
  command_field bs key = Some s ->
  exists d t, unpackb true bs = Ok (PyDict d) /\
              dict_get d (ABytes (b key)) = Some (PyBytes t) /\ utf8_decode t = Ok s.
Proof.
  unfold command_field. destruct (unpackb true bs) as [[| |d]|]; try discriminate.
  destruct (dict_get d (ABytes (b key))) as [[[| | | |t| |]| |]|] eqn:Eg; try discriminate.
  destruct (utf8_decode t) eqn:E; [|discriminate].
  intros [= ->]. eauto.
Qed.

Lemma event_wrong_type (bs : list byte) (t : string) :
  event_field bs TYPE = Some t -> t <> EVENT ->
  MsgPackEventSerializer.deserialize bs
  = Raise (ValueError "Cannot deserialize event (the message is not a type of event).").
Proof.
  intros H Hne. apply event_field_Some in H as (d & Hu & Ht).
  unfold MsgPackEventSerializer.deserialize.
  rewrite not_empty_ok, Hu by (now apply unpackb_nonempty in Hu). cbn [bind as_dict].
  unfold MsgPackEventSerializer.from_unpacked, field, getitem. rewrite Ht.
  cbn [bind typed_str str_eq].
  destruct (String.eqb_spec t EVENT); [contradiction | reflexivity].
Qed.

Lemma command_wrong_type (new_guid : nat -> GUID) (bs : list byte) (t : string) :
  command_field bs TYPE = Some t -> t <> COMMAND ->
  MsgPackCommandSerializer.deserialize new_guid bs
  = Raise (ValueError "Cannot deserialize command (the message is not a type of command).").
Proof.
  intros H Hne. apply command_field_Some in H as (d & tb & Hu & Ht & Hdec).
  unfold MsgPackCommandSerializer.deserialize.
  rewrite not_empty_ok, Hu by (now apply unpackb_nonempty in Hu). cbn [bind as_dict].
  unfold MsgPackCommandSerializer.from_raw, getitem.
  change (b "Type") with (b TYPE). rewrite Ht. cbn [bind decode_method]. rewrite Hdec.
  cbn [bind]. destruct (String.eqb_spec t COMMAND); [contradiction | reflexivity].
Qed.

Lemma event_unknown_tag (bs : list byte) (tag : string) :
  event_field bs TYPE = Some EVENT -> event_field bs EVENT = Some tag ->
  ~ In tag event_names ->
  returns (MsgPackEventSerializer.deserialize bs) = false /\
  (event_header_ok bs = true ->
   MsgPackEventSerializer.deserialize bs
   = Raise (ValueError "Cannot deserialize event (unrecognized event).")).
Proof.
  intros Ht Htag Hnot.
  apply event_field_Some in Ht as (d & Hu & Ht).
  apply event_field_Some in Htag as (d' & Hu' & Htag).
  rewrite Hu in Hu'. injection Hu' as <-.
  assert (E : MsgPackEventSerializer.deserialize bs =
              (event_id <- field d EVENT_ID GUID_of_UUID ;;
               event_timestamp <- field d EVENT_TIMESTAMP convert_string_to_datetime ;;
               Raise (ValueError "Cannot deserialize event (unrecognized event)."))).
  { unfold MsgPackEventSerializer.deserialize.
    rewrite not_empty_ok, Hu by (now apply unpackb_nonempty in Hu). cbn [bind as_dict].
    unfold MsgPackEventSerializer.from_unpacked.
    unfold field at 1 2, getitem. rewrite Ht, Htag. cbn [bind typed_str str_eq].
    rewrite String.eqb_refl. cbn [negb].
    repeat match goal with
           | |- context [String.eqb tag ?n] =>
             rewrite (not_in_names event_names tag n Hnot) by (vm_compute; tauto)
           end.
    reflexivity. }
  rewrite E. unfold event_header_ok. rewrite Hu.
  destruct (field d EVENT_ID GUID_of_UUID); cbn [bind returns andb];
    [|split; [reflexivity | intros [=]]].
  destruct (field d EVENT_TIMESTAMP convert_string_to_datetime); cbn [bind returns];
    split; try reflexivity; intros [=].
Qed.

Lemma command_unknown_tag (new_guid : nat -> GUID) (bs : list byte) (tag : string) :
  command_field bs TYPE = Some COMMAND -> command_field bs COMMAND = Some tag ->
  ~ In tag command_names ->
  returns (MsgPackCommandSerializer.deserialize new_guid bs) = false /\
  (command_header_ok bs = true ->
   MsgPackCommandSerializer.deserialize new_guid bs
   = Raise (ValueError "Cannot deserialize command (unrecognized bytes pattern).")).
Proof.
  intros Ht Htag Hnot.
  apply command_field_Some in Ht as (d & tb & Hu & Ht & Hdec).
  apply command_field_Some in Htag as (d' & gb & Hu' & Htag & Hgdec).
  rewrite Hu in Hu'. injection Hu' as <-.
  pose proof (unpackb_dict_NoDup _ _ _ Hu) as Hnd.
  assert (E : MsgPackCommandSerializer.deserialize new_guid bs =
              (u <- MsgPackCommandSerializer.decode_items d [] ;;
               MsgPackCommandSerializer.from_unpacked new_guid u)).
  { unfold MsgPackCommandSerializer.deserialize.
    rewrite not_empty_ok, Hu by (now apply unpackb_nonempty in Hu). cbn [bind as_dict].
    unfold MsgPackCommandSerializer.from_raw, getitem.
    change (b "Type") with (b TYPE). rewrite Ht. cbn [bind decode_method]. rewrite Hdec.
    cbn [bind]. rewrite String.eqb_refl. reflexivity. }
  rewrite E. unfold command_header_ok. rewrite Hu.
  destruct (MsgPackCommandSerializer.decode_items d []) as [u|] eqn:Hd; cbn [bind returns];
    [|split; [reflexivity | intros [=]]].
  destruct (decode_items_lookup _ _ _ _ _ Hnd Hd Htag) as (_ & Hl & _).
  apply utf8_decode_Ok in Hgdec as [Hgv ->].
  unfold decoded_value in Hl.
  replace (MsgPackCommandSerializer.is_order_key (ABytes (b COMMAND))) with false in Hl
    by reflexivity.
  change (string_of_list_byte (b COMMAND)) with COMMAND in Hl.
  assert (E' : MsgPackCommandSerializer.from_unpacked new_guid u =
               (command_id <- field u COMMAND_ID GUID_of_UUID ;;
                command_timestamp <- field u COMMAND_TIMESTAMP convert_string_to_datetime ;;
                Raise (ValueError "Cannot deserialize command (unrecognized bytes pattern)."))).
  { unfold MsgPackCommandSerializer.from_unpacked.
    unfold field at 1, getitem. rewrite Hl. cbn [bind typed_str str_eq].
    repeat match goal with
           | |- context [String.eqb (string_of_list_byte gb) ?n] =>
             rewrite (not_in_names command_names _ n Hnot) by (vm_compute; tauto)
           end.
    reflexivity. }
  rewrite E'.
  destruct (field u COMMAND_ID GUID_of_UUID); cbn [bind returns andb];
    [|split; [reflexivity | intros [=]]].
  destruct (field u COMMAND_TIMESTAMP convert_string_to_datetime); cbn [bind returns];
    split; try reflexivity; intros [=].
Qed.

(** C7, as the code has it.  A buffer whose [Type] is a text other than
    the expected one is rejected with the [ValueError] of the source.  A
    buffer of the expected type whose variant name the deserializer has
    no branch for gives no object: the [ValueError] "unrecognized" when
    the identifier and the timestamp of the message are present and
    well formed, and otherwise the error of the field that is not. *)
Theorem unrecognized_message_rejected (new_guid : nat -> GUID) (cb eb : list byte)
    (ctag etag : string) :
  command_field cb TYPE = Some COMMAND -> command_field cb COMMAND = Some ctag ->
  ~ In ctag command_names ->
  event_field eb TYPE = Some EVENT -> event_field eb EVENT = Some etag ->
  ~ In etag event_names ->
  (returns (MsgPackCommandSerializer.deserialize new_guid cb) = false /\
   (command_header_ok cb = true ->
    MsgPackCommandSerializer.deserialize new_guid cb
    = Raise (ValueError "Cannot deserialize command (unrecognized bytes pattern)."))) /\
  (returns (MsgPackEventSerializer.deserialize eb) = false /\
   (event_header_ok eb = true ->
    MsgPackEventSerializer.deserialize eb
    = Raise (ValueError "Cannot deserialize event (unrecognized event)."))) /\
  (forall bs t, command_field bs TYPE = Some t -> t <> COMMAND ->
     MsgPackCommandSerializer.deserialize new_guid bs
     = Raise (ValueError "Cannot deserialize command (the message is not a type of command).")) /\
  (forall bs t, event_field bs TYPE = Some t -> t <> EVENT ->
     MsgPackEventSerializer.deserialize bs
     = Raise (ValueError "Cannot deserialize event (the message is not a type of event).")).
Proof.
  intros H1 H2 H3 H4 H5 H6. split; [|split; [|split]].
  - now apply (command_unknown_tag new_guid cb ctag).
  - now apply (event_unknown_tag eb etag).
  - apply command_wrong_type.
  - apply event_wrong_type.
Qed.

Lemma unrecognized_message_rejected_witness :
  (returns (MsgPackCommandSerializer.deserialize (fun _ => other_guid) bogus_command_bytes)
   = false /\
   (command_header_ok bogus_command_bytes = true ->
    MsgPackCommandSerializer.deserialize (fun _ => other_guid) bogus_command_bytes
    = Raise (ValueError "Cannot deserialize command (unrecognized bytes pattern)."))) /\
  (returns (MsgPackEventSerializer.deserialize sample_order_initialized_bytes) = false /\
   (event_header_ok sample_order_initialized_bytes = true ->
    MsgPackEventSerializer.deserialize sample_order_initialized_bytes
    = Raise (ValueError "Cannot deserialize event (unrecognized event)."))) /\
  (forall bs t, command_field bs TYPE = Some t -> t <> COMMAND ->
     MsgPackCommandSerializer.deserialize (fun _ => other_guid) bs
     = Raise (ValueError "Cannot deserialize command (the message is not a type of command).")) /\
  (forall bs t, event_field bs TYPE = Some t -> t <> EVENT ->
     MsgPackEventSerializer.deserialize bs
     = Raise (ValueError "Cannot deserialize event (the message is not a type of event).")).
Proof.
  apply (unrecognized_message_rejected (fun _ => other_guid) bogus_command_bytes
           sample_order_initialized_bytes "LiquidateAll" "OrderInitialized").
  - vm_compute. reflexivity.
  - vm_compute. reflexivity.
  - vm_compute. intuition discriminate.
  - vm_compute. reflexivity.
  - vm_compute. reflexivity.
  - vm_compute. intuition discriminate.
Defined.

(** The claim as it was stated fails on a command message of an unknown
    variant that carries no identifier: the lookup of [CommandId] comes
    before the variant is examined, and raises [KeyError], which is not
    a [ValueError]. *)
Lemma headless_command_raises_KeyError :
  command_field headless_command_bytes TYPE = Some COMMAND /\
  command_field headless_command_bytes COMMAND = Some "LiquidateAll"%string /\
  ~ In "LiquidateAll"%string command_names /\
  MsgPackCommandSerializer.deserialize (fun _ => other_guid) headless_command_bytes
  = Raise (KeyError "CommandId") /\
  is_ValueError (KeyError "CommandId") = false.
Proof.
  split; [vm_compute; reflexivity|]. split; [vm_compute; reflexivity|].
  split; [vm_compute; intuition discriminate|].
  split; [vm_compute; reflexivity | reflexivity].
Qed.

(** ** Quantities, prices and money on the wire *)

Lemma packed_integer (z : Z) (bs : list byte) :
  pack (PyInt z) = Ok bs -> integer_on_wire bs z.
Proof. intros H rest. now apply read_head_int. Qed.

Lemma packed_text (s : string) (bs : list byte) :
  pack (PyStr s) = Ok bs -> text_on_wire bs s.
Proof. intros H. now apply pack_raw_head in H. Qed.

Ltac pick_field H :=
  cbn [In] in H;
  repeat (destruct H as [[= <- <-]|H]; [reflexivity|]);
  try contradiction.

Lemma package_quantities (m : message) (d : pydict) (k : string) (q : Quantity) :
  package_of m = Ok d -> In (k, q) (quantities_of m) ->
  dict_get d (AStr k) = Some (PyInt (quantity_value q)).
Proof.
  intros Hp Hin. destruct m as [o|c|e|i]; cbn [package_of quantities_of] in *.
  - injection Hp as <-. pick_field Hin.
  - contradiction.
  - injection Hp as <-. destruct e; pick_field Hin.
  - contradiction.
Qed.

Lemma package_decimals (m : message) (d : pydict) (k s : string) :
  package_of m = Ok d -> In (k, s) (decimals_of m) ->
  dict_get d (AStr k) = Some (PyStr s).
Proof.
  intros Hp Hin. destruct m as [o|c|e|i]; cbn [package_of decimals_of] in *.
  - injection Hp as <-. destruct o as [? ? ? ? ? ? [p|] ? ? ? ?]; cbn [Order.price] in Hin;
      pick_field Hin.
  - destruct c; try contradiction. injection Hp as <-. pick_field Hin.
  - injection Hp as <-. destruct e; pick_field Hin.
  - contradiction.
Qed.

Lemma package_numeric_fields (m : message) (d : pydict) :
  package_of m = Ok d -> numeric_fields_ok d = true.
Proof.
  intros Hp. destruct m as [o|c|e|i]; cbn [package_of] in Hp.
  - injection Hp as <-. reflexivity.
  - unfold MsgPackCommandSerializer.package in Hp.
    destruct c; repeat inv_bind Hp; injection Hp as <-; reflexivity.
  - injection Hp as <-. destruct e; reflexivity.
  - injection Hp as <-. reflexivity.
Qed.

Lemma serialize_message_package (m : message) :
  serialize_message m = (d <- package_of m ;; packb (PyDict d)).
Proof. destruct m; reflexivity. Qed.

Lemma package_wire_form (m : message) (d : pydict) :
  package_of m = Ok d ->
  forallb (flat_entry true) d = true /\ forallb str_key d = true /\ NoDup (keys d).
Proof.
  intros Hp. destruct m as [o|c|e|i]; cbn [package_of] in Hp.
  - injection Hp as <-. repeat split; try reflexivity. apply distinct_NoDup. reflexivity.
  - unfold MsgPackCommandSerializer.package in Hp.
    destruct c; repeat inv_bind Hp; injection Hp as <-; repeat split; try reflexivity;
      apply distinct_NoDup; reflexivity.
  - injection Hp as <-. destruct e; repeat split; try reflexivity;
      apply distinct_NoDup; reflexivity.
  - injection Hp as <-. repeat split; try reflexivity. apply distinct_NoDup. reflexivity.
Qed.

(** C8.  In the bytes of every message the codec layer produces, a
    quantity is a MessagePack integer and a price or an amount of money
    is the raw string of its decimal text: that is what the unpacker
    finds under their names, and no value of a message is a float. *)
Theorem numbers_on_the_wire (m : message) (bs : list byte) :
  serialize_message m = Ok bs ->
  exists d,
    package_of m = Ok d /\
    unpackb true bs = Ok (PyDict (map (view_entry true) d)) /\
    numeric_fields_ok d = true /\
    (forall k q, In (k, q) (quantities_of m) ->
       dict_get d (AStr k) = Some (PyInt (quantity_value q)) /\
       dict_get (map (view_entry true) d) (ABytes (b k)) = Some (PyInt (quantity_value q))) /\
    (forall k s, In (k, s) (decimals_of m) ->
       dict_get d (AStr k) = Some (PyStr s) /\
       dict_get (map (view_entry true) d) (ABytes (b k)) = Some (PyBytes (utf8_encode s))) /\
    (forall z zb, pack (PyInt z) = Ok zb -> integer_on_wire zb z) /\
    (forall s sb, pack (PyStr s) = Ok sb -> text_on_wire sb s).
Proof.
  intros Hs. rewrite serialize_message_package in Hs. inv_bind Hs. rename x into d.
  exists d. destruct (package_wire_form m d Hs0) as (Hflat & Hkeys & Hnd).
  split; [assumption|]. split.
  { destruct (unpackb_packb_flat true d bs Hflat Hs) as [Hu _].
    now rewrite Hu, reread_view. }
  split; [now apply (package_numeric_fields m)|]. split; [|split; [|split]].
  - intros k q Hin. pose proof (package_quantities m d k q Hs0 Hin) as Hq.
    split; [assumption|]. rewrite dict_get_view, Hq by assumption. reflexivity.
  - intros k s Hin. pose proof (package_decimals m d k s Hs0 Hin) as Hq.
    split; [assumption|]. rewrite dict_get_view, Hq by assumption. reflexivity.
  - apply packed_integer.
  - apply packed_text.
Qed.

Lemma numbers_on_the_wire_witness :
  exists d,
    package_of (EventMessage sample_order_filled) = Ok d /\
    unpackb true sample_order_filled_bytes = Ok (PyDict (map (view_entry true) d)) /\
    numeric_fields_ok d = true /\
    (forall k q, In (k, q) (quantities_of (EventMessage sample_order_filled)) ->
       dict_get d (AStr k) = Some (PyInt (quantity_value q)) /\
       dict_get (map (view_entry true) d) (ABytes (b k)) = Some (PyInt (quantity_value q))) /\
    (forall k s, In (k, s) (decimals_of (EventMessage sample_order_filled)) ->
       dict_get d (AStr k) = Some (PyStr s) /\
       dict_get (map (view_entry true) d) (ABytes (b k)) = Some (PyBytes (utf8_encode s))) /\
    (forall z zb, pack (PyInt z) = Ok zb -> integer_on_wire zb z) /\
    (forall s sb, pack (PyStr s) = Ok sb -> text_on_wire sb s).
Proof.
  apply (numbers_on_the_wire (EventMessage sample_order_filled) sample_order_filled_bytes).
  vm_compute. reflexivity.
Defined.

(** ** The registries of the execution client *)

Set Warnings "-clear-no-such-hyp".

Section Registries.
Import ExecutionClient.

Lemma init_ok : registries_ok init.
Proof. unfold registries_ok, init. simpl. set_solver. Qed.

Lemma register_order_ok (s s' : t) (o : Order) (sid : StrategyId) (pid : PositionId) :
  registries_ok s -> _register_order s o sid pid = Some s' ->
  registries_ok s' /\ _orders_completed s' = _orders_completed s.
Proof.
  unfold registries_ok, _register_order. intros (H1 & H2 & H3) H.
  destruct (_order_book s !! Order.id o) eqn:E; [discriminate|].
  injection H as <-. simpl. apply not_elem_of_dom in E.
  rewrite !dom_insert_L. split; [|reflexivity]. set_solver.
Qed.

Lemma register_orders_ok (orders : list Order) (sid : StrategyId) (pid : PositionId) :
  forall s, registries_ok s ->
            registries_ok (register_orders s orders sid pid) /\
            _orders_completed (register_orders s orders sid pid) = _orders_completed s.
Proof.
  induction orders as [|o orders IH]; intros s Hs; simpl; [auto|].
  destruct (_register_order s o sid pid) as [s'|] eqn:E; [|auto].
  destruct (register_order_ok _ _ _ _ _ Hs E) as [Hs' Hc].
  destruct (IH s' Hs') as [H1 H2]. split; [assumption | congruence].
Qed.

Lemma execute_command_ok (s : t) (c : Command) :
  registries_ok s ->
  registries_ok (execute_command s c) /\
  _orders_completed (execute_command s c) = _orders_completed s.
Proof.
  intros Hs. destruct c; simpl; auto using register_orders_ok.
Qed.

Lemma handle_event_ok (s : t) (e : Event) :
  registries_ok s ->
  registries_ok (handle_event s e) /\
  dom (_orders_completed s) ⊆ dom (_orders_completed (handle_event s e)).
Proof.
  unfold registries_ok, handle_event. intros (H1 & H2 & H3).
  destruct (event_order_id e) as [oid|]; [|simpl; auto].
  destruct (_order_book s !! oid) as [o|] eqn:E; [|auto].
  destruct (apply_event o e) as [o'|]; [|auto].
  assert (oid ∈ dom (_order_book s)) by (apply elem_of_dom; eauto).
  destruct (terminal (status o')); simpl;
    rewrite ?dom_insert_L, ?dom_delete_L; set_solver.
Qed.

Lemma step_ok (s : t) (i : input) :
  registries_ok s ->
  registries_ok (step s i) /\
  dom (_orders_completed s) ⊆ dom (_orders_completed (step s i)).
Proof.
  intros Hs. destruct i as [c|e]; simpl.
  - destruct (execute_command_ok s c Hs) as [H1 H2]. rewrite H2. auto.
  - now apply handle_event_ok.
Qed.

Lemma run_ok (inputs : list input) :
  forall s, registries_ok s ->
            registries_ok (run s inputs) /\
            dom (_orders_completed s) ⊆ dom (_orders_completed (run s inputs)).
Proof.
  unfold run. induction inputs as [|i inputs IH]; intros s Hs; simpl; [auto|].
  destruct (step_ok s i Hs) as [H1 H2]. destruct (IH _ H1) as [H3 H4].
  split; [assumption | set_solver].
Qed.

Lemma order_active_dom (s : t) (oid : OrderId) :
  order_active s oid = true <-> oid ∈ dom (_orders_active s).
Proof. unfold order_active. rewrite bool_decide_eq_true, elem_of_dom. reflexivity. Qed.

Lemma order_complete_dom (s : t) (oid : OrderId) :
  order_complete s oid = true <-> oid ∈ dom (_orders_completed s).
Proof. unfold order_complete. rewrite bool_decide_eq_true, elem_of_dom. reflexivity. Qed.

(** C9.  After any sequence of commands and events, no order is both
    active and completed; and an order that is completed stays
    completed, and is not active, whatever is applied next. *)
Theorem registry_invariant (inputs more : list input) (order_id : OrderId) :
  let now := run init inputs in
  let later := run now more in
  ~ (order_active now order_id = true /\ order_complete now order_id = true) /\
  (order_complete now order_id = true ->
   order_complete later order_id = true /\ order_active later order_id = false).
Proof.
  intros now later.
  destruct (run_ok inputs init init_ok) as [(Hd & _) _]. fold now in Hd.
  destruct (run_ok more now) as [(Hd' & _) Hmono].
  { apply (run_ok inputs init init_ok). }
  fold later in Hd', Hmono. split.
  - rewrite order_active_dom, order_complete_dom. set_solver.
  - rewrite !order_complete_dom. intros Hc.
    assert (Hl : order_id ∈ dom (_orders_completed later)) by set_solver.
    split; [assumption|].
    destruct (order_active later order_id) eqn:Ea; [|reflexivity].
    apply order_active_dom in Ea. set_solver.
Qed.
End Registries.

(* ================================================================== *)
(** * Further properties of the serializers                             *)
(* ================================================================== *)

(** ** The order serializer on its own *)

(** X1.  An order that is serialized is deserialized to an order with
    the same identifier, symbol, side, type, quantity, timestamp,
    price, label, time in force and expire time; its initialization
    identifier is the one the constructor was handed. *)
Theorem order_serializer_roundtrip (g : GUID) (o : Order) (bs : list byte) :
  valid_order o = true ->
  MsgPackOrderSerializer.serialize (Some o) = Ok bs ->
  exists o',
    MsgPackOrderSerializer.deserialize g bs = Ok (Some o') /\
    Order.id o' = Order.id o /\ Order.symbol o' = Order.symbol o /\
    Order.side o' = Order.side o /\ Order.type o' = Order.type o /\
    Order.quantity o' = Order.quantity o /\ Order.timestamp o' = Order.timestamp o /\
    Order.price o' = Order.price o /\ Order.label o' = Order.label o /\
    Order.time_in_force o' = Order.time_in_force o /\
    Order.expire_time o' = Order.expire_time o /\
    Order.init_id o' = g.
Proof.
  intros Hv Hs. exists (Order.with_init_id g o).
  split; [now apply order_roundtrip|]. repeat split.
Qed.

Lemma order_serializer_roundtrip_witness :
  exists o',
    MsgPackOrderSerializer.deserialize other_guid sample_order_bytes = Ok (Some o') /\
    Order.id o' = Order.id sample_order /\ Order.symbol o' = Order.symbol sample_order /\
    Order.side o' = Order.side sample_order /\ Order.type o' = Order.type sample_order /\
    Order.quantity o' = Order.quantity sample_order /\
    Order.timestamp o' = Order.timestamp sample_order /\
    Order.price o' = Order.price sample_order /\ Order.label o' = Order.label sample_order /\
    Order.time_in_force o' = Order.time_in_force sample_order /\
    Order.expire_time o' = Order.expire_time sample_order /\
    Order.init_id o' = other_guid.
Proof.
  apply (order_serializer_roundtrip other_guid sample_order sample_order_bytes);
    vm_compute; reflexivity.
Defined.

(** X2.  The order deserializer returns the null order for the buffers
    that hold an empty map, and for no other buffer. *)
Theorem null_order_iff_empty_map (g : GUID) (bs : list byte) :
  MsgPackOrderSerializer.deserialize g bs = Ok None <-> unpackb false bs = Ok (PyDict []).
Proof.
  unfold MsgPackOrderSerializer.deserialize. split.
  - intros H. inv_bind H. inv_bind H. inv_bind H.
    match goal with
    | Hd : as_dict ?v = Ok _ |- _ => destruct v as [| |d]; try discriminate Hd; injection Hd as <-
    end.
    destruct d as [|kv d]; [assumption|].
    unfold MsgPackOrderSerializer.from_unpacked in H.
    change (length (kv :: d) =? 0)%nat with false in H. cbv iota in H.
    invert_result H. discriminate H.
  - intros H. pose proof (unpackb_nonempty _ _ _ H) as Hlen.
    rewrite not_empty_ok, H by assumption. reflexivity.
Qed.

(** X3.  The order deserializer returns no order for a non-empty map
    that lacks one of the ten fields it reads; when the identifier is
    the one that is missing, the error is the [KeyError] of the
    lookup. *)
Theorem order_requires_every_field (g : GUID) (bs : list byte) (d : pydict) (k : string) :
  unpackb false bs = Ok (PyDict d) -> d <> [] ->
  In k order_field_names -> dict_get d (AStr k) = None ->
  returns (MsgPackOrderSerializer.deserialize g bs) = false /\
  (k = ID -> MsgPackOrderSerializer.deserialize g bs = Raise (KeyError ID)).
Proof.
  intros Hu Hd Hin Hk. pose proof (unpackb_nonempty _ _ _ Hu) as Hlen.
  unfold MsgPackOrderSerializer.deserialize. rewrite not_empty_ok, Hu by assumption.
  cbn [bind as_dict]. unfold MsgPackOrderSerializer.from_unpacked.
  destruct d as [|kv d]; [contradiction|].
  change (length (kv :: d) =? 0)%nat with false. cbv iota.
  split.
  - match goal with |- returns ?m = false => destruct m as [r|] eqn:H; [exfalso|reflexivity] end.
    invert_result H.
    repeat match goal with
           | F : field _ _ _ = Ok _ |- _ =>
             unfold field, getitem in F; apply bind_Ok in F as (? & F & _)
           end.
    cbn [order_field_names In] in Hin.
    repeat (destruct Hin as [<-|Hin];
            [solve [match goal with
                    | F : _ = Ok _ |- _ => rewrite Hk in F; discriminate F
                    end]|]).
    contradiction.
  - intros ->. unfold field at 1, getitem. rewrite Hk. reflexivity.
Qed.

Lemma order_requires_every_field_witness :
  returns (MsgPackOrderSerializer.deserialize other_guid symbol_only_bytes) = false /\
  (ID = ID ->
   MsgPackOrderSerializer.deserialize other_guid symbol_only_bytes = Raise (KeyError ID)).
Proof.
  apply (order_requires_every_field other_guid symbol_only_bytes
           (assign [] [(SYMBOL, PyStr "AUDUSD.FXCM")]) ID).
  - vm_compute. reflexivity.
  - discriminate.
  - simpl. tauto.
  - reflexivity.
Defined.

(** ** The instrument serializer *)

Lemma instrument_package_text (i : Instrument) :
  valid_instrument i = true ->
  forallb text_entry (MsgPackInstrumentSerializer.package i) = true.
Proof.
  intros H. unfold valid_instrument in H. valid_parts.
  unfold valid_decimal in *.
  unfold MsgPackInstrumentSerializer.package. apply forallb_assign; [reflexivity|].
  cbn [forallb fst snd text_entry]. text_facts. reflexivity.
Qed.

Lemma instrument_from_package (i : Instrument) :
  valid_instrument i = true ->
  MsgPackInstrumentSerializer.from_unpacked (MsgPackInstrumentSerializer.package i) = Ok i.
Proof.
  intros H. unfold valid_instrument in H. valid_parts.
  unfold MsgPackInstrumentSerializer.from_unpacked. cbn. read_back.
  destruct i; reflexivity.
Qed.

Lemma instrument_decode (i : Instrument) (bs : list byte) :
  valid_instrument i = true ->
  MsgPackInstrumentSerializer.serialize i = Ok bs ->
  MsgPackInstrumentSerializer.deserialize bs = Ok i.
Proof.
  intros Hv Hs. unfold MsgPackInstrumentSerializer.serialize in Hs.
  apply unpackb_packb_text in Hs as [Hu Hlen].
  - unfold MsgPackInstrumentSerializer.deserialize. rewrite Hu. cbn [bind as_dict].
    now apply instrument_from_package.
  - now apply instrument_package_text.
  - apply NoDup_keys_assign. constructor.
Qed.

(** X4.  An instrument that is serialized is deserialized to the same
    instrument, field for field. *)
Theorem instrument_serializer_roundtrip (i : Instrument) :
  valid_instrument i = true ->
  returns (MsgPackInstrumentSerializer.serialize i) = true ->
  instrument_roundtrip i = Ok i.
Proof.
  intros Hv Hr. unfold instrument_roundtrip.
  destruct (MsgPackInstrumentSerializer.serialize i) as [bs|] eqn:Hs; [|discriminate].
  cbn [bind]. now apply instrument_decode.
Qed.

Lemma instrument_serializer_roundtrip_witness :
  instrument_roundtrip sample_instrument = Ok sample_instrument.
Proof. apply (instrument_serializer_roundtrip sample_instrument); reflexivity. Defined.

(** X5.  The instrument deserializer returns no instrument for a map
    that lacks one of the seventeen fields it reads.  It has no null
    case: on the empty map, which is how the null order is written,
    the lookup of the identifier raises [KeyError]. *)
Theorem instrument_requires_every_field (bs : list byte) (d : pydict) (k : string) :
  unpackb false bs = Ok (PyDict d) ->
  In k instrument_field_names -> dict_get d (AStr k) = None ->
  returns (MsgPackInstrumentSerializer.deserialize bs) = false /\
  (k = ID -> MsgPackInstrumentSerializer.deserialize bs = Raise (KeyError ID)).
Proof.
  intros Hu Hin Hk.
  unfold MsgPackInstrumentSerializer.deserialize. rewrite Hu.
  cbn [bind as_dict]. unfold MsgPackInstrumentSerializer.from_unpacked.
  split.
  - match goal with |- returns ?m = false => destruct m as [r|] eqn:H; [exfalso|reflexivity] end.
    invert_result H.
    repeat match goal with
           | F : field _ _ _ = Ok _ |- _ =>
             unfold field in F; apply bind_Ok in F as (? & F & _)
           end.
    unfold getitem in *.
    cbn [instrument_field_names In] in Hin.
    repeat (destruct Hin as [<-|Hin];
            [solve [match goal with
                    | F : _ = Ok _ |- _ => rewrite Hk in F; discriminate F
                    end]|]).
    contradiction.
  - intros ->. unfold field at 1, getitem. rewrite Hk. reflexivity.
Qed.

Lemma instrument_requires_every_field_witness :
  returns (MsgPackInstrumentSerializer.deserialize [x80]) = false /\
  (ID = ID -> MsgPackInstrumentSerializer.deserialize [x80] = Raise (KeyError ID)).
Proof.
  apply (instrument_requires_every_field [x80] [] ID).
  - reflexivity.
  - simpl. tauto.
  - reflexivity.
Defined.

(** ** What [raw=True] gives *)

Lemma read_head_not_str (bs rest : list byte) (a : atom) :
  read_head bs = Ok (HVal a, rest) -> not_str (PyAtom a) = true.
Proof.
  destruct bs as [|c bs]; [discriminate|]. unfold read_head, with_length. cbv zeta.
  repeat match goal with
         | |- context [if ?c then _ else _] => destruct c
         end; try (intros [= <- <-]; reflexivity); try discriminate.
  destruct (Byte.to_N c) as [|p]; [discriminate|].
  do 8 (try destruct p as [p|p|]); try discriminate;
    try (intros [= <- <-]; reflexivity);
    intros H; inv_bind H; try discriminate H; injection H as <- <-; reflexivity.
Qed.

Lemma unpack_obj_raw_not_str (f : nat) (bs rest : list byte) (v : pyval) :
  unpack_obj true f bs = Ok (v, rest) -> not_str v = true.
Proof.
  destruct f as [|f]; [discriminate|]. rewrite unpack_obj_S. intros H.
  inv_bind H. destruct x as [h r]. cbn [fst snd] in H. destruct h.
  - injection H as <- <-. eapply read_head_not_str. eassumption.
  - destruct (take_bytes n r) as [[p r']|]; [|discriminate].
    cbn in H. injection H as <- <-. reflexivity.
  - destruct (take_bytes n r) as [[p r']|]; [|discriminate].
    injection H as <- <-. reflexivity.
  - destruct r; [discriminate|].
    destruct (take_bytes n r) as [[p r']|]; [|discriminate].
    injection H as <- <-. reflexivity.
  - destruct (take_bytes w r) as [[p r']|]; [|discriminate].
    injection H as <- <-. reflexivity.
  - apply unpack_array_list in H as [l ->]. reflexivity.
  - apply unpack_map_NoDup in H as (d & -> & _); [reflexivity | constructor].
Qed.

Lemma unpack_map_raw_values (f : nat) :
  forall (n : N) (bs : list byte) (acc : pydict) (v : pyval) (rest : list byte),
    forallb (fun kv => not_str (snd kv)) acc = true ->
    unpack_map true f n bs acc = Ok (v, rest) ->
    exists d, v = PyDict d /\ forallb (fun kv => not_str (snd kv)) d = true.
Proof.
  induction f as [|f IH]; intros n bs acc v rest Hacc H; [discriminate|].
  rewrite unpack_map_S in H. destruct (n =? 0).
  - injection H as <- <-. eauto.
  - inv_bind H. inv_bind H. inv_bind H.
    apply IH in H; [assumption|].
    apply forallb_setitem; [assumption|]. cbn [snd].
    destruct x0 as [xv xr]. eapply unpack_obj_raw_not_str. eassumption.
Qed.

Lemma unpack_obj_raw_dict_values (f : nat) (bs rest : list byte) (d : pydict) :
  unpack_obj true f bs = Ok (PyDict d, rest) ->
  forallb (fun kv => not_str (snd kv)) d = true.
Proof.
  destruct f as [|f]; [discriminate|]. rewrite unpack_obj_S. intros H.
  inv_bind H. destruct (fst x) eqn:Eh.
  - discriminate.
  - destruct (take_bytes n (snd x)) as [[p r]|]; discriminate.
  - destruct (take_bytes n (snd x)) as [[p r]|]; discriminate.
  - destruct (snd x); [discriminate|].
    destruct (take_bytes n l) as [[p r]|]; discriminate.
  - destruct (take_bytes w (snd x)) as [[p r]|]; discriminate.
  - apply unpack_array_list in H as [l Hl]. discriminate.
  - apply unpack_map_raw_values in H as (d' & [= ->] & Hd); [assumption | reflexivity].
Qed.

(** Under [raw=True] no value of an unpacked map is a text. *)
Lemma unpackb_raw_values (bs : list byte) (d : pydict) (k : atom) (v : pyval) :
  unpackb true bs = Ok (PyDict d) -> dict_get d k = Some v -> not_str v = true.
Proof.
  unfold unpackb. intros H Hk. inv_bind H. destruct x as [x rest]. cbn [fst snd] in H.
  destruct rest; [|discriminate]. injection H as ->.
  apply unpack_obj_raw_dict_values in H0 as Hall.
  clear H0. induction d as [|[k' v'] d IH]; [discriminate|].
  cbn [forallb snd] in Hall. apply andb_true_iff in Hall as [Hv Hall].
  cbn [dict_get] in Hk. destruct (atom_eqb k' k).
  - now injection Hk as <-.
  - now apply IH.
Qed.

(** ** Events and commands: what is decoded *)

Lemma typed_str_eq (d : pydict) (key : string) (x : option string) (name : string) :
  field d key typed_str = Ok x -> str_eq x name = true ->
  dict_get d (AStr key) = Some (PyStr name).
Proof.
  unfold field, getitem. intros H Hx.
  destruct (dict_get d (AStr key)) as [v|]; [|discriminate]. cbn [bind] in H.
  destruct v as [[]| |]; try discriminate; injection H as <-; [discriminate Hx|].
  apply String.eqb_eq in Hx. now subst.
Qed.

(** X6.  An event of any class but [OrderInitialized], serialized and
    then deserialized, comes back equal to the original; for an
    [AccountEvent] this needs the margin call status to be [NONE]. *)
Theorem event_serializer_roundtrip (e : Event) :
  valid_event e = true ->
  returns (MsgPackEventSerializer.serialize e) = true ->
  class_name e <> "OrderInitialized" ->
  (forall status, margin_call_status_of e = Some status -> status = MkId "NONE") ->
  event_roundtrip e = Ok e.
Proof.
  intros Hv Hr Hc Hs. rewrite event_roundtrip_decoded by assumption.
  destruct e; try reflexivity; [|contradiction].
  cbn [margin_call_status_of] in Hs. cbn [decoded]. now rewrite <- (Hs _ eq_refl).
Qed.

Lemma event_serializer_roundtrip_witness :
  event_roundtrip sample_order_filled = Ok sample_order_filled.
Proof.
  apply (event_serializer_roundtrip sample_order_filled);
    [reflexivity | reflexivity | discriminate | discriminate].
Defined.

(** X7.  Whatever the buffer, an event the deserializer returns has the
    class that the message names under [Event], and the message says
    [Event] under [Type]. *)
Theorem decoded_event_class (bs : list byte) (e : Event) :
  MsgPackEventSerializer.deserialize bs = Ok e ->
  event_field bs TYPE = Some EVENT /\ event_field bs EVENT = Some (class_name e) /\
  In (class_name e) event_names.
Proof.
  unfold MsgPackEventSerializer.deserialize. intros H.
  inv_bind H. inv_bind H. inv_bind H.
  match goal with
  | Hd : as_dict ?v = Ok _ |- _ => destruct v as [| |d]; try discriminate Hd; injection Hd as <-
  end.
  unfold MsgPackEventSerializer.from_unpacked in H.
  invert_result H; injection H as <-;
    match goal with
    | Ht : negb (str_eq ?x EVENT) = false, Hf : field d TYPE typed_str = Ok ?x |- _ =>
      apply negb_false_iff in Ht; pose proof (typed_str_eq _ _ _ _ Hf Ht) as Htype
    end;
    match goal with
    | Hc : str_eq ?x _ = true, Hf : field d EVENT typed_str = Ok ?x |- _ =>
      pose proof (typed_str_eq _ _ _ _ Hf Hc) as Hclass
    end;
    unfold event_field;
    match goal with Hu : unpackb false bs = Ok _ |- _ => rewrite Hu end;
    rewrite Htype, Hclass; cbn [class_name event_names In]; tauto.
Qed.

Lemma decoded_event_class_witness :
  event_field sample_order_filled_bytes TYPE = Some EVENT /\
  event_field sample_order_filled_bytes EVENT = Some (class_name sample_order_filled) /\
  In (class_name sample_order_filled) event_names.
Proof.
  apply (decoded_event_class sample_order_filled_bytes sample_order_filled).
  vm_compute. reflexivity.
Defined.

(** X8.  A command that is serialized and then deserialized comes back
    with every field of its own; a command that carries no order comes
    back equal to the original, and in one that does each nested
    order comes back with the initialization identifier its
    constructor was handed. *)
Theorem command_serializer_roundtrip (new_guid : nat -> GUID) (c : Command) :
  valid_command c = true ->
  returns (MsgPackCommandSerializer.serialize c) = true ->
  command_roundtrip new_guid c = Ok (rebuilt new_guid c) /\
  (carries_orders c = false -> command_roundtrip new_guid c = Ok c).
Proof.
  intros Hv Hr. pose proof (command_roundtrip_rebuilt new_guid c Hv Hr) as H.
  split; [assumption|]. intros Hc. rewrite H. destruct c; try discriminate; reflexivity.
Qed.

Lemma command_serializer_roundtrip_witness :
  command_roundtrip (fun _ => other_guid) sample_modify_order
  = Ok (rebuilt (fun _ => other_guid) sample_modify_order) /\
  (carries_orders sample_modify_order = false ->
   command_roundtrip (fun _ => other_guid) sample_modify_order = Ok sample_modify_order).
Proof.
  apply (command_serializer_roundtrip (fun _ => other_guid) sample_modify_order);
    reflexivity.
Defined.

(** X9.  Whatever the buffer, a command the deserializer returns is of
    the kind that the message names under [Command], and the message
    says [Command] under [Type]. *)
Theorem decoded_command_name (new_guid : nat -> GUID) (bs : list byte) (c : Command) :
  MsgPackCommandSerializer.deserialize new_guid bs = Ok c ->
  command_field bs TYPE = Some COMMAND /\ command_field bs COMMAND = Some (command_name c) /\
  In (command_name c) command_names.
Proof.
  unfold MsgPackCommandSerializer.deserialize. intros H.
  inv_bind H. inv_bind H. inv_bind H.
  match goal with
  | Hd : as_dict ?v = Ok _ |- _ => destruct v as [| |d]; try discriminate Hd; injection Hd as <-
  end.
  match goal with Hu : unpackb true bs = Ok _ |- _ => rename Hu into Hraw end.
  pose proof (unpackb_dict_NoDup _ _ _ Hraw) as Hnd.
  unfold MsgPackCommandSerializer.from_raw in H.
  inv_bind H. inv_bind H.
  match goal with
  | Hg : getitem d _ = Ok ?v, Hm : decode_method ?v = Ok ?s |- _ =>
    rename Hg into Hget; rename Hm into Hdec; rename v into tv; rename s into mt
  end.
  destruct (negb (mt =? COMMAND)%string) eqn:Ht; [discriminate|].
  apply negb_false_iff, String.eqb_eq in Ht. subst mt.
  inv_bind H.
  match goal with
  | Hl : MsgPackCommandSerializer.decode_items d [] = Ok _ |- _ => rename Hl into Hloop
  end.
  assert (Htype : command_field bs TYPE = Some COMMAND).
  { unfold command_field. rewrite Hraw. unfold getitem in Hget.
    change (b TYPE) with (b "Type").
    destruct (dict_get d (ABytes (b "Type"))) as [tv'|]; [|discriminate].
    injection Hget as ->. destruct tv as [[]| |]; try discriminate Hdec.
    cbn [decode_method] in Hdec. now rewrite Hdec. }
  split; [assumption|].
  unfold MsgPackCommandSerializer.from_unpacked in H.
  invert_result H; injection H as <-;
    match goal with
    | Hc : str_eq ?x _ = true, Hf : field _ COMMAND typed_str = Ok ?x |- _ =>
      pose proof (typed_str_eq _ _ _ _ Hf Hc) as Hname
    end;
    (destruct (decode_items_origin _ _ _ _ Hnd Hloop Hname) as (v & Hv & Hx);
     pose proof (unpackb_raw_values _ _ _ _ Hraw Hv) as Hns;
     destruct (decode_items_lookup _ _ _ _ _ Hnd Hloop Hv) as (_ & _ & Hutf);
     unfold decoded_value in Hx;
     change (MsgPackCommandSerializer.is_order_key (ABytes (b COMMAND))) with false in *;
     cbv iota in Hx;
     destruct v as [[]| |]; try discriminate Hx; try discriminate Hns;
     injection Hx as Hx;
     unfold command_field; rewrite Hraw, Hv;
     unfold utf8_decode; rewrite (Hutf eq_refl _ eq_refl), <- Hx;
     cbn [command_name command_names In]; tauto).
Qed.

Lemma decoded_command_name_witness :
  command_field sample_modify_order_bytes TYPE = Some COMMAND /\
  command_field sample_modify_order_bytes COMMAND = Some (command_name sample_modify_order) /\
  In (command_name sample_modify_order) command_names.
Proof.
  apply (decoded_command_name (fun _ => other_guid) sample_modify_order_bytes
           sample_modify_order).
  vm_compute. reflexivity.
Defined.

(** ** A message handed to the wrong deserializer *)

(** What the command deserializer unpacks from the bytes of a message
    of the codec layer. *)
Lemma message_unpacked_raw (m : message) (d : pydict) (bs : list byte) :
  package_of m = Ok d -> packb (PyDict d) = Ok bs ->
  unpackb true bs = Ok (PyDict (map (view_entry true) d)) /\ (1 <= length bs)%nat.
Proof.
  intros Hp Hs. apply package_wire_form in Hp as (Hflat & Hkeys & Hnd).
  destruct (unpackb_packb_flat true d bs Hflat Hs) as [Hu Hlen].
  now rewrite reread_view in Hu.
Qed.

Lemma message_str_keys (m : message) (d : pydict) :
  package_of m = Ok d -> forallb str_key d = true.
Proof. intros Hp. now apply package_wire_form in Hp as (_ & Hkeys & _). Qed.

(** The command deserializer on the bytes of a message that says
    [t] under [Type]. *)
Lemma command_deserialize_other_type (g : nat -> GUID) (m : message) (d : pydict)
    (bs : list byte) (t : string) :
  package_of m = Ok d -> packb (PyDict d) = Ok bs ->
  dict_get d (AStr TYPE) = Some (PyStr t) -> is_text t = true -> t <> COMMAND ->
  MsgPackCommandSerializer.deserialize g bs
  = Raise (ValueError "Cannot deserialize command (the message is not a type of command).").
Proof.
  intros Hp Hs Ht Htext Hne.
  destruct (message_unpacked_raw m d bs Hp Hs) as [Hu _].
  apply (command_wrong_type g bs t); [|assumption].
  unfold command_field. rewrite Hu, dict_get_view by (eapply message_str_keys; eassumption).
  rewrite Ht. cbn [option_map view_entry snd wire_view].
  now rewrite utf8_decode_encode.
Qed.

(** ... and of a message that has no [Type]. *)
Lemma command_deserialize_no_type (g : nat -> GUID) (m : message) (d : pydict)
    (bs : list byte) :
  package_of m = Ok d -> packb (PyDict d) = Ok bs ->
  dict_get d (AStr TYPE) = None ->
  MsgPackCommandSerializer.deserialize g bs = Raise (KeyError TYPE).
Proof.
  intros Hp Hs Ht.
  destruct (message_unpacked_raw m d bs Hp Hs) as [Hu Hlen].
  unfold MsgPackCommandSerializer.deserialize. rewrite not_empty_ok, Hu by assumption.
  cbn [bind as_dict]. unfold MsgPackCommandSerializer.from_raw, getitem.
  change (b "Type") with (b TYPE).
  rewrite dict_get_view by (eapply message_str_keys; eassumption).
  rewrite Ht. reflexivity.
Qed.

Lemma plain_command_package_text (c : Command) (d : pydict) :
  valid_command c = true -> carries_orders c = false ->
  MsgPackCommandSerializer.package c = Ok d ->
  forallb text_entry d = true /\ NoDup (keys d) /\
  dict_get d (AStr TYPE) = Some (PyStr COMMAND) /\ dict_get d (AStr ID) = None.
Proof.
  intros Hv Hc Hp. unfold valid_command in Hv.
  destruct c; try discriminate Hc;
    cbn [command_id_of command_timestamp_of] in Hv; valid_parts;
    unfold MsgPackCommandSerializer.package in Hp; injection Hp as <-;
    (split; [|split; [apply distinct_NoDup; reflexivity | split; reflexivity]]);
    repeat apply forallb_assign; try reflexivity;
    cbn [forallb fst snd text_entry command_id_of command_timestamp_of];
    unfold valid_price in *; text_facts; reflexivity.
Qed.

Lemma event_package_keys (e : Event) :
  NoDup (keys (MsgPackEventSerializer.package e)) /\
  dict_get (MsgPackEventSerializer.package e) (AStr TYPE) = Some (PyStr EVENT) /\
  dict_get (MsgPackEventSerializer.package e) (AStr ID) = None.
Proof.
  destruct e; (split; [apply distinct_NoDup; reflexivity | split; reflexivity]).
Qed.

(** X10.  The [Type] field keeps events and commands apart: the
    command deserializer rejects every serialized event, and the event
    deserializer every serialized command that carries no order, each
    with its "not a type of" [ValueError]. *)
Theorem type_field_separates_events_and_commands (new_guid : nat -> GUID)
    (e : Event) (c : Command) (eb cb : list byte) :
  MsgPackEventSerializer.serialize e = Ok eb ->
  valid_command c = true -> carries_orders c = false ->
  MsgPackCommandSerializer.serialize c = Ok cb ->
  MsgPackCommandSerializer.deserialize new_guid eb
  = Raise (ValueError "Cannot deserialize command (the message is not a type of command).") /\
  MsgPackEventSerializer.deserialize cb
  = Raise (ValueError "Cannot deserialize event (the message is not a type of event).").
Proof.
  intros He Hv Hc Hs. split.
  - apply (command_deserialize_other_type new_guid (EventMessage e)
             (MsgPackEventSerializer.package e) eb EVENT);
      [reflexivity | exact He | apply event_package_keys | reflexivity | discriminate].
  - unfold MsgPackCommandSerializer.serialize in Hs. inv_bind Hs. rename x into d.
    destruct (plain_command_package_text c d Hv Hc Hs0) as (Htext & Hnd & Ht & _).
    destruct (unpackb_packb_text d cb Htext Hnd Hs) as [Hu _].
    apply (event_wrong_type cb COMMAND); [|discriminate].
    unfold event_field. now rewrite Hu, Ht.
Qed.

Lemma type_field_separates_events_and_commands_witness :
  MsgPackCommandSerializer.deserialize (fun _ => other_guid) sample_order_filled_bytes
  = Raise (ValueError "Cannot deserialize command (the message is not a type of command).") /\
  MsgPackEventSerializer.deserialize sample_modify_order_bytes
  = Raise (ValueError "Cannot deserialize event (the message is not a type of event).").
Proof.
  apply (type_field_separates_events_and_commands (fun _ => other_guid)
           sample_order_filled sample_modify_order);
    vm_compute; reflexivity.
Defined.

(** *** Packed orders are not text *)

Lemma utf8_valid_fixmap (c : byte) (t : list byte) :
  c = x80 \/ c = x8b -> utf8_valid (c :: t) = false.
Proof. intros [-> | ->]; destruct t as [|? [|? [|? ?]]]; reflexivity. Qed.

(** The bytes of a serialized order start with the header of a short
    map, which no UTF-8 text starts with. *)
Lemma order_bytes_not_text (o : option Order) (ob : list byte) :
  MsgPackOrderSerializer.serialize o = Ok ob -> utf8_valid ob = false.
Proof.
  destruct o as [o|]; unfold MsgPackOrderSerializer.serialize.
  - unfold packb. rewrite pack_dict_entries. intros H. inv_bind H. inv_bind H.
    injection H as <-.
    change (N.of_nat (length (MsgPackOrderSerializer.package o))) with 11 in H0.
    injection H0 as <-. apply utf8_valid_fixmap. now right.
  - intros [= <-]. reflexivity.
Qed.

(** The loop of [unpack_map] under [raw=False] stops with
    [UnicodeDecodeError] at the first byte string that is not UTF-8. *)
Lemma unpack_map_unreadable (k : atom) (p : list byte) (d2 : pydict) (d1 : pydict) :
  forall (body rest : list byte) (f : nat) (acc : pydict),
    forallb (flat_entry false) d1 = true ->
    flat k = true -> readable false k = true -> utf8_valid p = false ->
    pack_entries (d1 ++ (k, PyBytes p) :: d2) = Ok body ->
    (length d1 + 1 < f)%nat ->
    unpack_map false f (N.of_nat (length (d1 ++ (k, PyBytes p) :: d2))) (body ++ rest) acc
    = Raise UnicodeDecodeError.
Proof.
  induction d1 as [|[k1 v1] d1 IH]; intros body rest f acc Hf Hfk Hrk Hp Hb Hlen.
  - cbn [app pack_entries] in Hb. inv_bind Hb. inv_bind Hb. inv_bind Hb. injection Hb as <-.
    cbn [pack pack_atom] in Hb1.
    destruct f as [|[|f]]; [simpl in Hlen; lia | simpl in Hlen; lia |].
    rewrite unpack_map_S.
    destruct (N.eqb_spec (N.of_nat (length ([] ++ (k, PyBytes p) :: d2))) 0) as [E|_];
      [simpl in E; lia|].
    rewrite <- !app_assoc.
    rewrite (unpack_flat false k x _ f Hfk Hrk Hb0). cbn [bind fst snd].
    rewrite (unpack_raw_item false p x0 _ f Hb1).
    unfold raw_value, utf8_decode. rewrite Hp. reflexivity.
  - cbn [forallb] in Hf. apply andb_true_iff in Hf as [Hkv Hf].
    cbn [app pack_entries] in Hb. inv_bind Hb. inv_bind Hb. inv_bind Hb. injection Hb as <-.
    destruct v1 as [a| |]; try discriminate.
    cbn [flat_entry] in Hkv.
    apply andb_true_iff in Hkv as [Hkv Hra].
    apply andb_true_iff in Hkv as [Hkv Hfa].
    apply andb_true_iff in Hkv as [Hfk1 Hrk1].
    cbn [pack] in Hb1.
    destruct f as [|[|f]]; [simpl in Hlen; lia | simpl in Hlen; lia |].
    rewrite unpack_map_S.
    destruct (N.eqb_spec (N.of_nat (length (((k1, PyAtom a) :: d1) ++ (k, PyBytes p) :: d2))) 0)
      as [E|_]; [simpl in E; lia|].
    rewrite <- !app_assoc.
    rewrite (unpack_flat false k1 x _ f Hfk1 Hrk1 Hb0). cbn [bind fst snd].
    rewrite (unpack_flat false a x0 _ f Hfa Hra Hb1). cbn [bind fst snd as_key].
    replace (N.of_nat (length (((k1, PyAtom a) :: d1) ++ (k, PyBytes p) :: d2)) - 1)
      with (N.of_nat (length (d1 ++ (k, PyBytes p) :: d2)))
      by (cbn [app length]; lia).
    apply IH; try assumption. simpl in Hlen. lia.
Qed.

Lemma unpackb_unreadable (d1 d2 : pydict) (k : atom) (p bs : list byte) :
  forallb (flat_entry false) d1 = true ->
  flat k = true -> readable false k = true -> utf8_valid p = false ->
  forallb (flat_entry true) (d1 ++ (k, PyBytes p) :: d2) = true ->
  packb (PyDict (d1 ++ (k, PyBytes p) :: d2)) = Ok bs ->
  unpackb false bs = Raise UnicodeDecodeError.
Proof.
  intros Hf Hfk Hrk Hp Hall Hs. unfold packb in Hs. rewrite pack_dict_entries in Hs.
  inv_bind Hs. inv_bind Hs. injection Hs as <-.
  pose proof (pack_entries_length true _ x0 Hall Hs1) as Hlen.
  pose proof (read_head_map _ _ x0 Hs0) as Hh.
  assert (Hx : (1 <= length x)%nat).
  { unfold pack_map_header in Hs0.
    repeat match type of Hs0 with
           | context [?a <? ?c] => destruct (a <? c)
           end; try discriminate; injection Hs0 as <-; simpl; lia. }
  unfold unpackb.
  replace (2 * length (x ++ x0) + 1)%nat with (S (2 * length (x ++ x0)))%nat by lia.
  rewrite unpack_obj_S, Hh. cbn [bind fst snd].
  rewrite <- (app_nil_r x0) at 2.
  rewrite unpack_map_unreadable; [reflexivity | assumption.. |].
  rewrite length_app in *. cbn [length] in Hlen. lia.
Qed.

Lemma order_command_unpacked_as_text (c : Command) (cb : list byte) :
  valid_command c = true -> carries_orders c = true ->
  MsgPackCommandSerializer.serialize c = Ok cb ->
  unpackb false cb = Raise UnicodeDecodeError /\ (1 <= length cb)%nat.
Proof.
  intros Hv Hc Hs. unfold MsgPackCommandSerializer.serialize in Hs.
  inv_bind Hs. rename x into d.
  split; [|eapply (message_unpacked_raw (CommandMessage c)); eassumption].
  destruct (package_wire_form (CommandMessage c) d Hs0) as (Hflat & _ & _).
  unfold valid_command in Hv.
  destruct c as [id ts | tid sid pid o id ts | tid sid pid [e sl tp] id ts
                | tid sid oid p id ts | tid sid oid r id ts]; try discriminate Hc;
    cbn [command_id_of command_timestamp_of] in Hv; valid_parts;
    unfold MsgPackCommandSerializer.package in Hs0;
    repeat (let H := fresh "Hser" in
            apply bind_Ok in Hs0 as (? & H & Hs0));
    injection Hs0 as <-.
  - apply (unpackb_unreadable
             [(AStr TYPE, PyStr COMMAND); (AStr COMMAND_ID, PyStr (guid_value id));
              (AStr COMMAND_TIMESTAMP, PyStr (convert_datetime_to_string ts));
              (AStr COMMAND, PyStr SUBMIT_ORDER); (AStr TRADER_ID, PyStr (value tid));
              (AStr STRATEGY_ID, PyStr (value sid)); (AStr POSITION_ID, PyStr (value pid))]
             [] (AStr ORDER) x cb);
      [ | reflexivity | reflexivity | eapply order_bytes_not_text; eassumption
        | exact Hflat | exact Hs ].
    cbn [forallb flat_entry flat readable orb andb]. text_facts. reflexivity.
  - cbn [entry stop_loss take_profit] in *.
    apply (unpackb_unreadable
             [(AStr TYPE, PyStr COMMAND); (AStr COMMAND_ID, PyStr (guid_value id));
              (AStr COMMAND_TIMESTAMP, PyStr (convert_datetime_to_string ts));
              (AStr COMMAND, PyStr SUBMIT_ATOMIC_ORDER); (AStr TRADER_ID, PyStr (value tid));
              (AStr STRATEGY_ID, PyStr (value sid)); (AStr POSITION_ID, PyStr (value pid))]
             [(AStr STOP_LOSS, PyBytes x0); (AStr TAKE_PROFIT, PyBytes x1)]
             (AStr ENTRY) x cb);
      [ | reflexivity | reflexivity | eapply order_bytes_not_text; eassumption
        | exact Hflat | exact Hs ].
    cbn [forallb flat_entry flat readable orb andb]. text_facts. reflexivity.
Qed.

(** X11.  The bytes of a command that carries orders cannot be unpacked
    as text: the packed orders inside are not UTF-8, so the event, the
    order and the instrument deserializer, which unpack with
    [raw=False], raise [UnicodeDecodeError] on them. *)
Theorem order_commands_are_not_text (g : GUID) (c : Command) (cb : list byte) :
  valid_command c = true -> carries_orders c = true ->
  MsgPackCommandSerializer.serialize c = Ok cb ->
  MsgPackEventSerializer.deserialize cb = Raise UnicodeDecodeError /\
  MsgPackOrderSerializer.deserialize g cb = Raise UnicodeDecodeError /\
  MsgPackInstrumentSerializer.deserialize cb = Raise UnicodeDecodeError.
Proof.
  intros Hv Hc Hs.
  destruct (order_command_unpacked_as_text c cb Hv Hc Hs) as [Hu Hlen].
  unfold MsgPackEventSerializer.deserialize, MsgPackOrderSerializer.deserialize,
    MsgPackInstrumentSerializer.deserialize.
  rewrite !not_empty_ok, Hu by assumption. repeat split.
Qed.

Lemma order_commands_are_not_text_witness :
  MsgPackEventSerializer.deserialize sample_submit_order_bytes = Raise UnicodeDecodeError /\
  MsgPackOrderSerializer.deserialize other_guid sample_submit_order_bytes
  = Raise UnicodeDecodeError /\
  MsgPackInstrumentSerializer.deserialize sample_submit_order_bytes
  = Raise UnicodeDecodeError.
Proof.
  apply (order_commands_are_not_text other_guid sample_submit_order sample_submit_order_bytes);
    vm_compute; reflexivity.
Defined.

(** *** No deserializer takes another serializer's message *)

Lemma NoDup_keys_display (es : list (string * pyval)) : NoDup (keys (assign [] es)).
Proof. apply NoDup_keys_assign. constructor. Qed.

Lemma order_deserialize_no_id (g : GUID) (d : pydict) (bs : list byte) :
  forallb text_entry d = true -> NoDup (keys d) -> packb (PyDict d) = Ok bs ->
  d <> [] -> dict_get d (AStr ID) = None ->
  MsgPackOrderSerializer.deserialize g bs = Raise (KeyError ID).
Proof.
  intros Ht Hnd Hs Hd Hid. destruct (unpackb_packb_text d bs Ht Hnd Hs) as [Hu Hlen].
  unfold MsgPackOrderSerializer.deserialize. rewrite not_empty_ok, Hu by assumption.
  cbn [bind as_dict]. unfold MsgPackOrderSerializer.from_unpacked.
  destruct d as [|kv d]; [contradiction|].
  change (length (kv :: d) =? 0)%nat with false. cbv iota.
  unfold field at 1, getitem. rewrite Hid. reflexivity.
Qed.

Lemma instrument_deserialize_no_id (d : pydict) (bs : list byte) :
  forallb text_entry d = true -> NoDup (keys d) -> packb (PyDict d) = Ok bs ->
  dict_get d (AStr ID) = None ->
  MsgPackInstrumentSerializer.deserialize bs = Raise (KeyError ID).
Proof.
  intros Ht Hnd Hs Hid. destruct (unpackb_packb_text d bs Ht Hnd Hs) as [Hu Hlen].
  unfold MsgPackInstrumentSerializer.deserialize. rewrite Hu.
  cbn [bind as_dict]. unfold MsgPackInstrumentSerializer.from_unpacked.
  unfold field at 1, getitem. rewrite Hid. reflexivity.
Qed.

Lemma event_deserialize_no_type (d : pydict) (bs : list byte) :
  forallb text_entry d = true -> NoDup (keys d) -> packb (PyDict d) = Ok bs ->
  dict_get d (AStr TYPE) = None ->
  MsgPackEventSerializer.deserialize bs = Raise (KeyError TYPE).
Proof.
  intros Ht Hnd Hs Hty. destruct (unpackb_packb_text d bs Ht Hnd Hs) as [Hu Hlen].
  unfold MsgPackEventSerializer.deserialize. rewrite not_empty_ok, Hu by assumption.
  cbn [bind as_dict]. unfold MsgPackEventSerializer.from_unpacked.
  unfold field at 1, getitem. rewrite Hty. reflexivity.
Qed.

(** The order deserializer finds an identifier and a symbol in an
    instrument message, and no order side. *)
Lemma order_deserialize_instrument (g : GUID) (i : Instrument) (bs : list byte) :
  valid_instrument i = true -> MsgPackInstrumentSerializer.serialize i = Ok bs ->
  MsgPackOrderSerializer.deserialize g bs = Raise (KeyError ORDER_SIDE).
Proof.
  intros Hv Hs. unfold MsgPackInstrumentSerializer.serialize in Hs.
  destruct (unpackb_packb_text _ bs (instrument_package_text i Hv)
              (NoDup_keys_display _) Hs) as [Hu Hlen].
  unfold MsgPackOrderSerializer.deserialize. rewrite not_empty_ok, Hu by assumption.
  cbn [bind as_dict]. unfold MsgPackOrderSerializer.from_unpacked. cbn. read_back.
  reflexivity.
Qed.

(** The instrument deserializer finds an identifier and a symbol in an
    order message, and no broker symbol. *)
Lemma instrument_deserialize_order (o : Order) (bs : list byte) :
  valid_order o = true -> MsgPackOrderSerializer.serialize (Some o) = Ok bs ->
  MsgPackInstrumentSerializer.deserialize bs = Raise (KeyError BROKER_SYMBOL).
Proof.
  intros Hv Hs. unfold MsgPackOrderSerializer.serialize in Hs.
  destruct (unpackb_packb_text _ bs (order_package_text o Hv)
              (NoDup_keys_display _) Hs) as [Hu Hlen].
  unfold MsgPackInstrumentSerializer.deserialize. rewrite Hu.
  cbn [bind as_dict]. unfold MsgPackInstrumentSerializer.from_unpacked. cbn. read_back.
  reflexivity.
Qed.

Lemma event_package_nonempty (e : Event) : MsgPackEventSerializer.package e <> [].
Proof. destruct e; discriminate. Qed.

(** X12.  A serialized message is accepted by no deserializer but its
    own: each of the other three raises on its bytes. *)
Theorem no_cross_acceptance (new_guid : nat -> GUID) (m : message) (bs : list byte)
    (k : codec) :
  valid_message m = true -> serialize_message m = Ok bs -> k <> codec_of m ->
  accepts k new_guid bs = false.
Proof.
  intros Hv Hs Hk.
  destruct m as [o|c|e|i]; cbn [valid_message serialize_message codec_of] in *;
    destruct k; try contradiction; cbn [accepts].
  - now rewrite (command_deserialize_no_type new_guid (OrderMessage o) _ bs eq_refl Hs eq_refl).
  - unfold MsgPackOrderSerializer.serialize in Hs.
    now rewrite (event_deserialize_no_type _ bs (order_package_text o Hv)
                   (NoDup_keys_display _) Hs eq_refl).
  - now rewrite (instrument_deserialize_order o bs Hv Hs).
  - destruct (carries_orders c) eqn:Hc.
    + destruct (order_command_unpacked_as_text c bs Hv Hc Hs) as [Hu Hlen].
      unfold MsgPackOrderSerializer.deserialize. now rewrite not_empty_ok, Hu by assumption.
    + unfold MsgPackCommandSerializer.serialize in Hs. inv_bind Hs.
      destruct (plain_command_package_text c x Hv Hc Hs0) as (Ht & Hnd & Hty & Hid).
      rewrite (order_deserialize_no_id _ x bs Ht Hnd Hs); [reflexivity| |assumption].
      intros ->. discriminate Hty.
  - destruct (carries_orders c) eqn:Hc.
    + destruct (order_command_unpacked_as_text c bs Hv Hc Hs) as [Hu Hlen].
      unfold MsgPackEventSerializer.deserialize. now rewrite not_empty_ok, Hu by assumption.
    + unfold MsgPackCommandSerializer.serialize in Hs. inv_bind Hs.
      destruct (plain_command_package_text c x Hv Hc Hs0) as (Ht & Hnd & Hty & Hid).
      destruct (unpackb_packb_text x bs Ht Hnd Hs) as [Hu _].
      rewrite (event_wrong_type bs COMMAND); [reflexivity | | discriminate].
      unfold event_field. now rewrite Hu, Hty.
  - destruct (carries_orders c) eqn:Hc.
    + destruct (order_command_unpacked_as_text c bs Hv Hc Hs) as [Hu Hlen].
      unfold MsgPackInstrumentSerializer.deserialize. now rewrite Hu.
    + unfold MsgPackCommandSerializer.serialize in Hs. inv_bind Hs.
      destruct (plain_command_package_text c x Hv Hc Hs0) as (Ht & Hnd & Hty & Hid).
      now rewrite (instrument_deserialize_no_id x bs Ht Hnd Hs Hid).
  - unfold MsgPackEventSerializer.serialize in Hs.
    destruct (event_package_keys e) as (Hnd & Hty & Hid).
    rewrite (order_deserialize_no_id _ _ bs (event_package_text e Hv) Hnd Hs);
      [reflexivity | apply event_package_nonempty | assumption].
  - rewrite (command_deserialize_other_type new_guid (EventMessage e)
               (MsgPackEventSerializer.package e) bs EVENT);
      [reflexivity | reflexivity | exact Hs | apply event_package_keys | reflexivity
      | discriminate].
  - unfold MsgPackEventSerializer.serialize in Hs.
    destruct (event_package_keys e) as (Hnd & Hty & Hid).
    now rewrite (instrument_deserialize_no_id _ bs (event_package_text e Hv) Hnd Hs Hid).
  - now rewrite (order_deserialize_instrument _ i bs Hv Hs).
  - now rewrite (command_deserialize_no_type new_guid (InstrumentMessage i) _ bs eq_refl Hs
                   eq_refl).
  - unfold MsgPackInstrumentSerializer.serialize in Hs.
    now rewrite (event_deserialize_no_type _ bs (instrument_package_text i Hv)
                   (NoDup_keys_display _) Hs eq_refl).
Qed.

Lemma no_cross_acceptance_witness :
  accepts OrderCodec (fun _ => other_guid) sample_instrument_bytes = false.
Proof.
  apply (no_cross_acceptance (fun _ => other_guid) (InstrumentMessage sample_instrument)
           sample_instrument_bytes OrderCodec);
    [reflexivity | reflexivity | discriminate].
Defined.

(** ** Nothing is lost at encoding *)

(** A value is determined by the text or the number it is written
    as. *)
Lemma id_value_inj {k : id_kind} (x y : Identifier k) : value x = value y -> x = y.
Proof. destruct x, y. cbn. now intros ->. Qed.

Lemma guid_value_inj (x y : GUID) : guid_value x = guid_value y -> x = y.
Proof. destruct x, y. cbn. now intros ->. Qed.

Lemma price_text_inj (x y : Price) : price_text x = price_text y -> x = y.
Proof. destruct x, y. cbn. now intros ->. Qed.

Lemma money_text_inj (x y : Money) : money_text x = money_text y -> x = y.
Proof. destruct x, y. cbn. now intros ->. Qed.

Lemma decimal_text_inj (x y : Decimal) : decimal_text x = decimal_text y -> x = y.
Proof. destruct x, y. cbn. now intros ->. Qed.

Lemma quantity_value_inj (x y : Quantity) : quantity_value x = quantity_value y -> x = y.
Proof. destruct x, y. cbn. now intros ->. Qed.

Lemma Ok_inj {A : Type} (x y : A) : Ok x = Ok y -> x = y.
Proof. now intros [= ->]. Qed.

Lemma datetime_string_inj (x y : option datetime) :
  valid_time x = true -> valid_time y = true ->
  convert_datetime_to_string x = convert_datetime_to_string y -> x = y.
Proof.
  intros Hx Hy H. apply Ok_inj.
  rewrite <- (datetime_roundtrip x Hx), <- (datetime_roundtrip y Hy). now rewrite H.
Qed.

Lemma price_string_inj (x y : option Price) :
  valid_opt valid_price x = true -> valid_opt valid_price y = true ->
  convert_price_to_string x = convert_price_to_string y -> x = y.
Proof.
  intros Hx Hy H. apply Ok_inj.
  rewrite <- (price_opt_roundtrip x Hx), <- (price_opt_roundtrip y Hy). now rewrite H.
Qed.

Lemma label_string_inj (x y : option Label) :
  valid_opt valid_label x = true -> valid_opt valid_label y = true ->
  convert_label_to_string x = convert_label_to_string y -> x = y.
Proof.
  intros Hx Hy H. apply Ok_inj.
  rewrite <- (label_opt_roundtrip x Hx), <- (label_opt_roundtrip y Hy). now rewrite H.
Qed.

Lemma order_side_string_inj (x y : OrderSide) :
  order_side_string x = order_side_string y -> x = y.
Proof. now destruct x, y. Qed.

Lemma order_type_string_inj (x y : OrderType) :
  order_type_string x = order_type_string y -> x = y.
Proof. now destruct x, y. Qed.

Lemma time_in_force_string_inj (x y : TimeInForce) :
  time_in_force_string x = time_in_force_string y -> x = y.
Proof. now destruct x, y. Qed.

Lemma currency_string_inj (x y : Currency) : currency_string x = currency_string y -> x = y.
Proof. now destruct x, y. Qed.

Lemma broker_string_inj (x y : Broker) : broker_string x = broker_string y -> x = y.
Proof. now destruct x, y. Qed.

Lemma security_type_string_inj (x y : SecurityType) :
  security_type_string x = security_type_string y -> x = y.
Proof. now destruct x, y. Qed.

(** Turns the equalities between written fields into equalities
    between the values. *)
Ltac same_fields :=
  repeat match goal with
         | H : value _ = value _ |- _ => apply id_value_inj in H
         | H : guid_value _ = guid_value _ |- _ => apply guid_value_inj in H
         | H : price_text _ = price_text _ |- _ => apply price_text_inj in H
         | H : money_text _ = money_text _ |- _ => apply money_text_inj in H
         | H : decimal_text _ = decimal_text _ |- _ => apply decimal_text_inj in H
         | H : quantity_value _ = quantity_value _ |- _ => apply quantity_value_inj in H
         | H : convert_datetime_to_string _ = convert_datetime_to_string _ |- _ =>
           apply datetime_string_inj in H; [|assumption|assumption]
         | H : convert_price_to_string _ = convert_price_to_string _ |- _ =>
           apply price_string_inj in H; [|assumption|assumption]
         | H : convert_label_to_string _ = convert_label_to_string _ |- _ =>
           apply label_string_inj in H; [|assumption|assumption]
         | H : order_side_string _ = order_side_string _ |- _ =>
           apply order_side_string_inj in H
         | H : order_type_string _ = order_type_string _ |- _ =>
           apply order_type_string_inj in H
         | H : time_in_force_string _ = time_in_force_string _ |- _ =>
           apply time_in_force_string_inj in H
         | H : currency_string _ = currency_string _ |- _ => apply currency_string_inj in H
         | H : broker_string _ = broker_string _ |- _ => apply broker_string_inj in H
         | H : security_type_string _ = security_type_string _ |- _ =>
           apply security_type_string_inj in H
         end.

Lemma order_package_inj (x y : Order) :
  valid_order x = true -> valid_order y = true ->
  MsgPackOrderSerializer.package x = MsgPackOrderSerializer.package y -> x = y.
Proof.
  intros Hx Hy H.
  apply valid_order_parts in Hx as (? & ? & ? & ? & ? & ? & ?).
  apply valid_order_parts in Hy as (? & ? & ? & ? & ? & ? & ?).
  destruct x, y. cbn in *. injection H; intros; clear H. same_fields. subst. reflexivity.
Qed.

Lemma instrument_package_inj (x y : Instrument) :
  valid_instrument x = true -> valid_instrument y = true ->
  MsgPackInstrumentSerializer.package x = MsgPackInstrumentSerializer.package y -> x = y.
Proof.
  intros Hx Hy H. unfold valid_instrument in Hx, Hy. valid_parts.
  destruct x, y. cbn in *. injection H; intros; clear H. same_fields. subst. reflexivity.
Qed.

Lemma event_package_class (e : Event) :
  dict_get (MsgPackEventSerializer.package e) (AStr EVENT) = Some (PyStr (class_name e)).
Proof. now destruct e. Qed.

Lemma event_package_inj (x y : Event) :
  valid_event x = true -> valid_event y = true ->
  MsgPackEventSerializer.package x = MsgPackEventSerializer.package y -> x = y.
Proof.
  intros Hx Hy H.
  assert (Hc : class_name x = class_name y).
  { pose proof (event_package_class x) as Cx. rewrite H, event_package_class in Cx.
    now injection Cx. }
  unfold valid_event in Hx, Hy.
  destruct x, y; try discriminate Hc; clear Hc;
    cbn [event_id_of event_timestamp_of] in Hx, Hy; valid_parts;
    cbn in H; injection H; intros; clear H; same_fields; subst; reflexivity.
Qed.

Lemma order_serialize_inj (x y : option Order) (bs : list byte) :
  valid_opt valid_order x = true -> valid_opt valid_order y = true ->
  MsgPackOrderSerializer.serialize x = Ok bs -> MsgPackOrderSerializer.serialize y = Ok bs ->
  x = y.
Proof.
  intros Hx Hy Sx Sy.
  assert (U : forall o : option Order,
             valid_opt valid_order o = true -> MsgPackOrderSerializer.serialize o = Ok bs ->
             unpackb false bs
             = Ok (PyDict (match o with
                           | Some o => MsgPackOrderSerializer.package o
                           | None => []
                           end))).
  { intros [o|] Hv Hs; unfold MsgPackOrderSerializer.serialize in Hs.
    - now apply unpackb_packb_text in Hs as [Hu _];
        [ | apply order_package_text | apply NoDup_keys_display ].
    - injection Hs as <-. reflexivity. }
  pose proof (U x Hx Sx) as Ux. rewrite (U y Hy Sy) in Ux.
  injection Ux as Ux. destruct x as [x|], y as [y|]; cbn [valid_opt] in *.
  - f_equal. now apply order_package_inj.
  - discriminate Ux.
  - discriminate Ux.
  - reflexivity.
Qed.

Lemma command_package_inj (x y : Command) (d : pydict) :
  valid_command x = true -> valid_command y = true ->
  MsgPackCommandSerializer.package x = Ok d -> MsgPackCommandSerializer.package y = Ok d ->
  x = y.
Proof.
  intros Hx Hy Px Py. unfold valid_command in Hx, Hy.
  unfold MsgPackCommandSerializer.package in Px, Py.
  destruct x as [id ts | tid sid pid o id ts | tid sid pid [e sl tp] id ts
                | tid sid oid p id ts | tid sid oid r id ts];
    repeat (let H := fresh "Sx" in apply bind_Ok in Px as (? & H & Px));
    injection Px as <-;
    destruct y as [id' ts' | tid' sid' pid' o' id' ts' | tid' sid' pid' [e' sl' tp'] id' ts'
                  | tid' sid' oid' p' id' ts' | tid' sid' oid' r' id' ts'];
    repeat (let H := fresh "Sy" in apply bind_Ok in Py as (? & H & Py));
    cbn in Py; try discriminate Py;
    cbn [command_id_of command_timestamp_of] in Hx, Hy;
    unfold valid_atomic_order in Hx, Hy; cbn [entry stop_loss take_profit] in *;
    valid_parts; unfold valid_price in *;
    injection Py; intros; clear Py; same_fields; subst;
    repeat match goal with
           | H1 : MsgPackOrderSerializer.serialize ?a = Ok ?p,
             H2 : MsgPackOrderSerializer.serialize ?c = Ok ?p |- _ =>
             assert (a = c) by (eapply order_serialize_inj; eassumption);
             subst c; clear H2
           end;
    reflexivity.
Qed.

Lemma view_entry_inj (x y : atom * pyval) :
  keyed_entry x = true -> keyed_entry y = true ->
  view_entry true x = view_entry true y -> x = y.
Proof.
  destruct x as [[] [[]| |]]; try discriminate;
    destruct y as [[] [[]| |]]; try discriminate;
    cbn [keyed_entry view_entry wire_view]; intros Hx Hy H; injection H; intros;
    repeat match goal with
           | E : utf8_encode _ = utf8_encode _ |- _ => apply utf8_encode_inj in E
           end; subst; try reflexivity.
  - rewrite Hx in Hy. discriminate Hy.
  - rewrite Hy in Hx. discriminate Hx.
Qed.

Lemma map_view_entry_inj (x y : pydict) :
  forallb keyed_entry x = true -> forallb keyed_entry y = true ->
  map (view_entry true) x = map (view_entry true) y -> x = y.
Proof.
  revert y. induction x as [|a x IH]; intros [|c y] Hx Hy H; try discriminate H.
  - reflexivity.
  - cbn [forallb] in Hx, Hy. apply andb_true_iff in Hx as [Ha Hx].
    apply andb_true_iff in Hy as [Hc Hy]. cbn [map] in H. injection H as H1 H2.
    f_equal; [now apply view_entry_inj | now apply IH].
Qed.

Lemma package_keyed (m : message) (d : pydict) :
  package_of m = Ok d -> forallb keyed_entry d = true.
Proof.
  intros Hp. destruct m as [o|c|e|i]; cbn [package_of] in Hp.
  - now injection Hp as <-.
  - unfold MsgPackCommandSerializer.package in Hp.
    destruct c; repeat inv_bind Hp; now injection Hp as <-.
  - injection Hp as <-. now destruct e.
  - now injection Hp as <-.
Qed.

(** What tells the messages of the four serializers apart. *)
Lemma package_marks (m : message) (d : pydict) :
  package_of m = Ok d ->
  dict_get d (AStr TYPE) = match m with
                           | CommandMessage _ => Some (PyStr COMMAND)
                           | EventMessage _ => Some (PyStr EVENT)
                           | _ => None
                           end /\
  (dict_get d (AStr BROKER_SYMBOL) <> None <->
   match m with InstrumentMessage _ => True | _ => False end).
Proof.
  intros Hp. destruct m as [o|c|e|i]; cbn [package_of] in Hp.
  - injection Hp as <-. split; [reflexivity|]. cbn. tauto.
  - unfold MsgPackCommandSerializer.package in Hp.
    destruct c; repeat inv_bind Hp; injection Hp as <-; (split; [reflexivity|]); cbn; tauto.
  - injection Hp as <-. destruct e; (split; [reflexivity|]); cbn; tauto.
  - injection Hp as <-. split; [reflexivity|]. cbn. split; [tauto | discriminate].
Qed.

(** X13.  Serialization loses nothing: two valid messages with the same
    bytes are the same message, whichever serializers they went
    through.  This includes the fields and the event class that
    deserialization does not give back. *)
Theorem serialization_is_injective (m1 m2 : message) (bs : list byte) :
  valid_message m1 = true -> valid_message m2 = true ->
  serialize_message m1 = Ok bs -> serialize_message m2 = Ok bs ->
  m1 = m2.
Proof.
  intros V1 V2 S1 S2. rewrite serialize_message_package in S1, S2.
  inv_bind S1. inv_bind S2. rename x into d1, x0 into d2.
  destruct (message_unpacked_raw m1 d1 bs S0 S1) as [U1 _].
  destruct (message_unpacked_raw m2 d2 bs S3 S2) as [U2 _].
  rewrite U1 in U2. injection U2 as U.
  apply map_view_entry_inj in U; try (eapply package_keyed; eassumption). subst d2.
  destruct (package_marks m1 d1 S0) as [T1 B1].
  destruct (package_marks m2 d1 S3) as [T2 B2].
  destruct m1 as [o1|c1|e1|i1], m2 as [o2|c2|e2|i2];
    try (rewrite T1 in T2; discriminate T2); try tauto;
    cbn [package_of valid_message] in *; f_equal.
  - injection S0 as S0. injection S3 as S3. apply order_package_inj; congruence.
  - now apply (command_package_inj c1 c2 d1).
  - injection S0 as S0. injection S3 as S3. apply event_package_inj; congruence.
  - injection S0 as S0. injection S3 as S3. apply instrument_package_inj; congruence.
Qed.

Lemma serialization_is_injective_witness :
  EventMessage sample_order_filled = EventMessage sample_order_filled.
Proof.
  apply (serialization_is_injective (EventMessage sample_order_filled)
           (EventMessage sample_order_filled) sample_order_filled_bytes);
    reflexivity.
Defined.

(** ** A message ends where its map ends *)

(** Reading an item does not depend on the bytes after it. *)
Lemma take_bytes_frame (n : N) (bs p rest ext : list byte) :
  take_bytes n bs = Some (p, rest) -> take_bytes n (bs ++ ext) = Some (p, rest ++ ext).
Proof.
  unfold take_bytes. destruct (N.leb_spec n (N.of_nat (length bs))) as [Hn|]; [|discriminate].
  intros [= <- <-]. rewrite length_app.
  destruct (N.leb_spec n (N.of_nat (length bs + length ext))) as [_|Hx]; [|lia].
  rewrite firstn_app, skipn_app.
  replace (N.to_nat n - length bs)%nat with 0%nat by lia.
  cbn [firstn skipn]. now rewrite app_nil_r.
Qed.

Lemma read_uint_frame (w : N) (bs rest ext : list byte) (n : N) :
  read_uint w bs = Ok (n, rest) -> read_uint w (bs ++ ext) = Ok (n, rest ++ ext).
Proof.
  unfold read_uint. destruct (take_bytes w bs) as [[p r]|] eqn:E; [|discriminate].
  intros [= <- <-]. now rewrite (take_bytes_frame _ _ _ _ ext E).
Qed.

Lemma read_sint_frame (w : N) (bs rest ext : list byte) (z : Z) :
  read_sint w bs = Ok (z, rest) -> read_sint w (bs ++ ext) = Ok (z, rest ++ ext).
Proof.
  unfold read_sint. destruct (take_bytes w bs) as [[p r]|] eqn:E; [|discriminate].
  intros [= <- <-]. now rewrite (take_bytes_frame _ _ _ _ ext E).
Qed.

Lemma read_head_frame (bs rest ext : list byte) (h : head) :
  read_head bs = Ok (h, rest) -> read_head (bs ++ ext) = Ok (h, rest ++ ext).
Proof.
  destruct bs as [|c bs]; [discriminate|]. rewrite <- app_comm_cons.
  unfold read_head, with_length. cbv zeta.
  repeat match goal with
         | |- context [if ?c then _ else _] => destruct c
         end; try (intros [= <- <-]; reflexivity).
  destruct (Byte.to_N c) as [|p]; [discriminate|].
  do 8 (try destruct p as [p|p|]); try discriminate;
    try (intros [= <- <-]; reflexivity);
    intros H; inv_bind H; destruct x as [a r]; injection H as <- <-;
    first [ rewrite (read_uint_frame _ _ _ ext _ H0)
          | rewrite (read_sint_frame _ _ _ ext _ H0) ]; reflexivity.
Qed.

Lemma unpack_frame (raw : bool) (f : nat) (ext : list byte) :
  (forall bs v rest,
      unpack_obj raw f bs = Ok (v, rest) ->
      unpack_obj raw f (bs ++ ext) = Ok (v, rest ++ ext)) /\
  (forall n bs acc v rest,
      unpack_array raw f n bs acc = Ok (v, rest) ->
      unpack_array raw f n (bs ++ ext) acc = Ok (v, rest ++ ext)) /\
  (forall n bs acc v rest,
      unpack_map raw f n bs acc = Ok (v, rest) ->
      unpack_map raw f n (bs ++ ext) acc = Ok (v, rest ++ ext)).
Proof.
  induction f as [|f (IHo & IHa & IHm)]; [repeat split; discriminate|].
  split; [|split].
  - intros bs v rest H. rewrite unpack_obj_S in H. inv_bind H. destruct x as [h r1].
    rewrite unpack_obj_S, (read_head_frame _ _ ext _ H0). cbn [bind fst snd] in *.
    destruct h.
    + now injection H as <- <-.
    + destruct (take_bytes n r1) as [[p r]|] eqn:E; [|discriminate].
      rewrite (take_bytes_frame _ _ _ _ ext E). inv_bind H. injection H as <- <-.
      match goal with R : raw_value _ _ = Ok _ |- _ => rewrite R end. reflexivity.
    + destruct (take_bytes n r1) as [[p r]|] eqn:E; [|discriminate].
      rewrite (take_bytes_frame _ _ _ _ ext E). now injection H as <- <-.
    + destruct r1 as [|code after]; [discriminate|]. rewrite <- app_comm_cons.
      destruct (take_bytes n after) as [[p r]|] eqn:E; [|discriminate].
      rewrite (take_bytes_frame _ _ _ _ ext E). now injection H as <- <-.
    + destruct (take_bytes w r1) as [[p r]|] eqn:E; [|discriminate].
      rewrite (take_bytes_frame _ _ _ _ ext E). now injection H as <- <-.
    + now apply IHa.
    + now apply IHm.
  - intros n bs acc v rest H. rewrite unpack_array_S in H. rewrite unpack_array_S.
    destruct (n =? 0).
    + now injection H as <- <-.
    + inv_bind H. destruct x as [x r1]. cbn [fst snd] in H.
      rewrite (IHo _ _ _ H0). cbn [bind fst snd]. now apply IHa.
  - intros n bs acc v rest H. rewrite unpack_map_S in H. rewrite unpack_map_S.
    destruct (n =? 0).
    + now injection H as <- <-.
    + inv_bind H. destruct x as [k r1]. cbn [fst snd] in H.
      inv_bind H. destruct x as [x r2]. cbn [fst snd] in H. inv_bind H.
      rewrite (IHo _ _ _ H0). cbn [bind fst snd].
      rewrite (IHo _ _ _ H1). cbn [bind fst snd].
      match goal with R : as_key _ = Ok _ |- _ => rewrite R end. cbn [bind]. now apply IHm.
Qed.

(** [unpackb] refuses a buffer that goes on after its item. *)
Lemma unpackb_extra (raw : bool) (bs extra : list byte) (v : pyval) :
  unpackb raw bs = Ok v -> extra <> [] -> unpackb raw (bs ++ extra) = Raise UnpackError.
Proof.
  unfold unpackb at 1. intros H Hx. inv_bind H. destruct x as [x rest]. cbn [fst snd] in H.
  destruct rest; [|discriminate]. injection H as ->.
  destruct (unpack_frame raw (2 * length bs + 1) extra) as (Hf & _ & _).
  apply Hf in H0. cbn [app] in H0.
  destruct (unpack_fuel raw (2 * length bs + 1)) as (Ho & _ & _).
  apply Ho in H0 as [_ H0]. unfold unpackb.
  rewrite H0 by (rewrite length_app; lia). cbn [bind fst snd].
  destruct extra; [contradiction | reflexivity].
Qed.

Lemma accepts_unpacked (k : codec) (new_guid : nat -> GUID) (bs : list byte) :
  accepts k new_guid bs = true -> exists v, unpackb (raw_of k) bs = Ok v.
Proof.
  destruct k; cbn [accepts raw_of];
    unfold MsgPackOrderSerializer.deserialize, MsgPackCommandSerializer.deserialize,
      MsgPackEventSerializer.deserialize, MsgPackInstrumentSerializer.deserialize;
    intros H;
    repeat match type of H with
           | returns (bind ?m _) = true => destruct m eqn:?; [cbn [bind] in H | discriminate H]
           end; eauto.
Qed.

(** X14.  A buffer that a deserializer accepts is accepted no more when
    bytes are added after it: [unpackb] finds data after the map and
    raises.  So of two accepted buffers neither is the beginning of the
    other. *)
Theorem trailing_bytes_rejected (k : codec) (new_guid : nat -> GUID)
    (bs extra : list byte) :
  accepts k new_guid bs = true -> extra <> [] ->
  unpackb (raw_of k) (bs ++ extra) = Raise UnpackError /\
  accepts k new_guid (bs ++ extra) = false.
Proof.
  intros Ha Hx. destruct (accepts_unpacked k new_guid bs Ha) as [v Hv].
  pose proof (unpackb_nonempty _ _ _ Hv) as Hlen.
  pose proof (unpackb_extra _ _ _ _ Hv Hx) as Hu. split; [assumption|].
  assert (Hl : (1 <= length (bs ++ extra))%nat) by (rewrite length_app; lia).
  destruct k; cbn [accepts raw_of] in *;
    unfold MsgPackOrderSerializer.deserialize, MsgPackCommandSerializer.deserialize,
      MsgPackEventSerializer.deserialize, MsgPackInstrumentSerializer.deserialize;
    rewrite ?not_empty_ok, Hu by assumption; reflexivity.
Qed.

Lemma trailing_bytes_rejected_witness :
  unpackb (raw_of EventCodec) (sample_order_filled_bytes ++ [x00]) = Raise UnpackError /\
  accepts EventCodec (fun _ => other_guid) (sample_order_filled_bytes ++ [x00]) = false.
Proof.
  apply (trailing_bytes_rejected EventCodec (fun _ => other_guid) sample_order_filled_bytes
           [x00]); [vm_compute; reflexivity | discriminate].
Defined.

(** ** Fields that are not read *)

Ltac in_names := cbn [In]; repeat first [left; reflexivity | right].

(** Replaces every lookup in [d1] by the lookup in [d2], given that
    the maps agree on the keys of the list. *)
Ltac same_lookups H d1 :=
  unfold field, getitem;
  repeat match goal with
         | |- context [dict_get d1 (AStr ?K)] => rewrite (H K) by in_names
         end.

(** X15.  The order, event and instrument deserializers look at
    nothing but the fields they read: two buffers whose maps hold the
    same under those keys give the same result, whatever else they
    hold ([InitId] for an order, [MarginCallStatus] for an event, any
    unknown field).  For the order deserializer the maps must also be
    both empty or both non-empty. *)
Theorem unread_fields_are_ignored (g : GUID) (bs1 bs2 : list byte) (d1 d2 : pydict) :
  unpackb false bs1 = Ok (PyDict d1) -> unpackb false bs2 = Ok (PyDict d2) ->
  (agree_on order_field_names d1 d2 -> (d1 = [] <-> d2 = []) ->
   MsgPackOrderSerializer.deserialize g bs1 = MsgPackOrderSerializer.deserialize g bs2) /\
  (agree_on event_field_names d1 d2 ->
   MsgPackEventSerializer.deserialize bs1 = MsgPackEventSerializer.deserialize bs2) /\
  (agree_on instrument_field_names d1 d2 ->
   MsgPackInstrumentSerializer.deserialize bs1 = MsgPackInstrumentSerializer.deserialize bs2).
Proof.
  intros U1 U2.
  pose proof (unpackb_nonempty _ _ _ U1) as L1.
  pose proof (unpackb_nonempty _ _ _ U2) as L2.
  unfold MsgPackOrderSerializer.deserialize, MsgPackEventSerializer.deserialize,
    MsgPackInstrumentSerializer.deserialize.
  rewrite !not_empty_ok, U1, U2 by assumption. cbn [bind as_dict].
  split; [|split].
  - intros H He. unfold MsgPackOrderSerializer.from_unpacked.
    destruct d1 as [|kv1 t1], d2 as [|kv2 t2].
    + reflexivity.
    + destruct He as [He _]. discriminate (He eq_refl).
    + destruct He as [_ He]. discriminate (He eq_refl).
    + change (length (kv1 :: t1) =? 0)%nat with false.
      change (length (kv2 :: t2) =? 0)%nat with false. cbv iota.
      unfold agree_on, order_field_names in H. same_lookups H (kv1 :: t1). reflexivity.
  - intros H. unfold MsgPackEventSerializer.from_unpacked.
    unfold agree_on, event_field_names in H. same_lookups H d1. reflexivity.
  - intros H. unfold MsgPackInstrumentSerializer.from_unpacked.
    unfold agree_on, instrument_field_names in H. same_lookups H d1. reflexivity.
Qed.

Lemma unread_fields_are_ignored_witness :
  MsgPackOrderSerializer.deserialize sample_guid sample_order_bytes
  = MsgPackOrderSerializer.deserialize sample_guid reissued_order_bytes.
Proof.
  apply (proj1 (unread_fields_are_ignored sample_guid sample_order_bytes reissued_order_bytes
                  (MsgPackOrderSerializer.package sample_order)
                  (MsgPackOrderSerializer.package (Order.with_init_id other_guid sample_order))
                  ltac:(vm_compute; reflexivity) ltac:(vm_compute; reflexivity))).
  - intros k Hin. cbn [In order_field_names] in Hin.
    repeat (destruct Hin as [<-|Hin]; [reflexivity|]). contradiction.
  - split; discriminate.
Defined.
